(** * MedView diabetes companion: the corrective-RAG tools and the
      incremental scraper, embedded in Rocq

    The development follows [src/api/tools.py] (emergency detector,
    relevance scorer, web fallback search, medication safety checker,
    knowledge-base retrieval) and
    [src/kb/data-ingestion/web-2-s3/diabetes_scraper_scheduler.py]
    (incremental scraper and its content tracker).

    Conventions of the embedding.
    - A Python [str] is a [string] of its UTF-8 bytes; the emoji of the
      fixed templates appear as their bytes.  The character tests, the
      case mapping and the stripping of [Py] and the classes [\d] and
      [\s] of [Re] are Python's on ASCII text only: a statement that
      says what these functions do not find, or what they leave in a
      text, carries the hypothesis [Py.ascii_text] on that text.
    - A Python [dict] with string keys is a [gmap string _]; a Python
      [set] of strings is a [gset string].
    - A Python [float] is a primitive binary64 [float].
    - [try: ... except Exception as e:] is a match on an [outcome]; the
      exceptions modelled are the subclasses of [Exception], and modules
      named in [import] statements are taken to be installed.
    - [print] and [logging] calls have no effect on the values returned
      and are left out. *)

From Stdlib Require Import ZArith Lia List String Ascii Bool DecimalString.
From Stdlib Require Import PrimFloat.
From stdpp Require Import gmap strings list.

Import ListNotations.
Local Open Scope string_scope.
Local Open Scope list_scope.

(* ===================================================================== *)
(** * Python values, exceptions and text primitives                       *)
(* ===================================================================== *)

(** The Python values that occur in the dictionaries of the tools. *)
Inductive pyval :=
| VNone
| VBool (b : bool)
| VInt (z : Z)
| VFloat (f : float)
| VStr (s : string)
| VStrs (l : list string).

(** An exception object: its class name and [str(e)]. *)
Record exn := Exn { exn_class : string; exn_str : string }.

Inductive outcome (A : Type) :=
| Ok (a : A)
| Raise (e : exn).
Arguments Ok {A} a.
Arguments Raise {A} e.

Definition bind {A B} (x : outcome A) (f : A -> outcome B) : outcome B :=
  match x with
  | Ok a => f a
  | Raise e => Raise e
  end.

Notation "'do' x <- c1 'in' c2" := (bind c1 (fun x => c2))
  (at level 10, x name, c1 at level 100, c2 at level 200).

Module Py.

Definition nl : ascii := "010"%char.

(** [len(s)] *)
Definition len (s : string) : nat := String.length s.

(** Truth value of a string: [not s] holds for the empty string only. *)
Definition truthy (s : string) : bool :=
  match s with
  | EmptyString => false
  | String _ _ => true
  end.

(** A text of ASCII characters only.  On such a text the functions
    below are [str.isdigit], [str.isalnum], [str.isspace], [str.lower]
    and [str.strip]; outside ASCII Python knows further digits, letters
    and blanks, which these functions treat as other characters. *)
Definition ascii_text (s : string) : Prop :=
  forallb (fun c => (nat_of_ascii c <? 128)%nat) (list_ascii_of_string s) = true.

Definition is_upper (c : ascii) : bool :=
  let n := nat_of_ascii c in (65 <=? n)%nat && (n <=? 90)%nat.

Definition is_lower (c : ascii) : bool :=
  let n := nat_of_ascii c in (97 <=? n)%nat && (n <=? 122)%nat.

Definition is_digit (c : ascii) : bool :=
  let n := nat_of_ascii c in (48 <=? n)%nat && (n <=? 57)%nat.

(** [c.isalnum()] on ASCII. *)
Definition isalnum (c : ascii) : bool := is_upper c || is_lower c || is_digit c.

(** [c.isspace()] on ASCII: tab, line feed, vertical tab, form feed,
    carriage return, the four separators 0x1c..0x1f and the space. *)
Definition is_space (c : ascii) : bool :=
  let n := nat_of_ascii c in
  ((9 <=? n)%nat && (n <=? 13)%nat) || ((28 <=? n)%nat && (n <=? 32)%nat).

Definition lower_char (c : ascii) : ascii :=
  if is_upper c then ascii_of_nat (nat_of_ascii c + 32) else c.

(** [s.lower()] on ASCII text. *)
Fixpoint lower (s : string) : string :=
  match s with
  | EmptyString => EmptyString
  | String c s' => String (lower_char c) (lower s')
  end.

(** [s[:n]] *)
Fixpoint slice_to (n : nat) (s : string) : string :=
  match n, s with
  | S n', String c s' => String c (slice_to n' s')
  | _, _ => EmptyString
  end.

(** [sub in s] *)
Fixpoint contains (sub s : string) : bool :=
  if String.prefix sub s then true
  else match s with
       | EmptyString => false
       | String _ s' => contains sub s'
       end.

Fixpoint lstrip (s : string) : string :=
  match s with
  | String c s' => if is_space c then lstrip s' else s
  | EmptyString => EmptyString
  end.

Fixpoint rstrip (s : string) : string :=
  match s with
  | EmptyString => EmptyString
  | String c s' =>
      match rstrip s' with
      | EmptyString => if is_space c then EmptyString else String c EmptyString
      | t => String c t
      end
  end.

(** [s.strip()] on ASCII text: the blanks removed are those of [is_space]. *)
Definition strip (s : string) : string := rstrip (lstrip s).

(** [sep.join(l)] *)
Definition join (sep : string) (l : list string) : string := String.concat sep l.

(** ["".join(c for c in s if keep(c))] *)
Fixpoint keep_chars (keep : ascii -> bool) (s : string) : string :=
  match s with
  | EmptyString => EmptyString
  | String c s' => if keep c then String c (keep_chars keep s') else keep_chars keep s'
  end.

(** [s.replace(a, b)] for single characters. *)
Fixpoint replace_char (a b : ascii) (s : string) : string :=
  match s with
  | EmptyString => EmptyString
  | String c s' => String (if Ascii.eqb c a then b else c) (replace_char a b s')
  end.

(** [str(n)] for a natural number. *)
Definition str_of_nat (n : nat) : string := NilZero.string_of_uint (Nat.to_uint n).

(** [any(f(x) for x in l)] *)
Definition any {A} (f : A -> bool) (l : list A) : bool := existsb f l.

End Py.

(* ===================================================================== *)
(** * The fragment of [re] used by the tools                              *)
(* ===================================================================== *)

Module Re.

(** Patterns.  [Rep n greedy p] is a one-character class repeated at
    least [n] times ([.*], [.*?], [\s*], [\d{3,}]); [Grp i r] is the
    [i]-th capturing group; [Ahead r] is [(?=r)]; [EndZ] is [\Z]. *)
Inductive regex :=
| Lit (s : string)
| Cls (p : ascii -> bool)
| Cat (r1 r2 : regex)
| Alt (r1 r2 : regex)
| Rep (n : nat) (greedy : bool) (p : ascii -> bool)
| Opt (r : regex)
| Grp (i : nat) (r : regex)
| Ahead (r : regex)
| EndZ.

Infix "+++" := Cat (at level 60, right associativity).

(** [.] without [re.DOTALL], [.] with it, [\d] and [\s] on ASCII text,
    and a range [[a-b]]. *)
Definition dot (c : ascii) : bool := negb (Ascii.eqb c Py.nl).
Definition dotall (c : ascii) : bool := true.
Definition digit : ascii -> bool := Py.is_digit.
Definition space : ascii -> bool := Py.is_space.
Definition range (lo hi : ascii) (c : ascii) : bool :=
  (nat_of_ascii lo <=? nat_of_ascii c)%nat && (nat_of_ascii c <=? nat_of_ascii hi)%nat.

(** The state of a match in progress: the text not yet consumed and the
    groups closed so far, the latest first. *)
Record mstate := MState { rest : list ascii; caps : list (nat * list ascii) }.

Fixpoint strip_prefix (l s : list ascii) : option (list ascii) :=
  match l, s with
  | [], _ => Some s
  | a :: l', b :: s' => if Ascii.eqb a b then strip_prefix l' s' else None
  | _ :: _, [] => None
  end.

Section Repetition.
Context {R : Type} (p : ascii -> bool) (k : list ascii -> option R).

(** The [n] compulsory characters of [p{n,}]. *)
Fixpoint rep_min (n : nat) (s : list ascii) (k' : list ascii -> option R) : option R :=
  match n with
  | O => k' s
  | S n' =>
      match s with
      | c :: s' => if p c then rep_min n' s' k' else None
      | [] => None
      end
  end.

(** Lazy: try the continuation first, take one more character on failure. *)
Fixpoint rep_lazy (s : list ascii) : option R :=
  match k s with
  | Some x => Some x
  | None =>
      match s with
      | c :: s' => if p c then rep_lazy s' else None
      | [] => None
      end
  end.

(** Greedy: take as many characters as possible, give them back one by
    one while the continuation fails. *)
Fixpoint rep_greedy (s : list ascii) : option R :=
  match s with
  | c :: s' =>
      if p c then
        match rep_greedy s' with
        | Some x => Some x
        | None => k s
        end
      else k s
  | [] => k []
  end.

End Repetition.

(** The backtracking matcher, in continuation-passing style: the first
    way of matching [r] at the head of the text for which the
    continuation succeeds, alternatives tried left to right. *)
Fixpoint m {R : Type} (r : regex) (st : mstate) (k : mstate -> option R) : option R :=
  match r with
  | Lit l =>
      match strip_prefix (list_ascii_of_string l) (rest st) with
      | Some s' => k (MState s' (caps st))
      | None => None
      end
  | Cls p =>
      match rest st with
      | c :: s' => if p c then k (MState s' (caps st)) else None
      | [] => None
      end
  | Cat r1 r2 => m r1 st (fun st' => m r2 st' k)
  | Alt r1 r2 =>
      match m r1 st k with
      | Some x => Some x
      | None => m r2 st k
      end
  | Rep n greedy p =>
      let k' := fun s' => k (MState s' (caps st)) in
      rep_min p n (rest st) (if greedy then rep_greedy p k' else rep_lazy p k')
  | Opt r1 =>
      match m r1 st k with
      | Some x => Some x
      | None => k st
      end
  | Grp i r1 =>
      m r1 st (fun st' =>
        k (MState (rest st')
             ((i, take (length (rest st) - length (rest st')) (rest st)) :: caps st')))
  | Ahead r1 =>
      match m r1 st Some with
      | Some st' => k (MState (rest st) (caps st'))
      | None => None
      end
  | EndZ =>
      match rest st with
      | [] => k st
      | _ :: _ => None
      end
  end.

(** Leftmost match: the suffix at which the match starts and the state
    at its end. *)
Fixpoint search_from (r : regex) (s : list ascii) : option (list ascii * mstate) :=
  match m r (MState s []) Some with
  | Some st => Some (s, st)
  | None =>
      match s with
      | [] => None
      | _ :: s' => search_from r s'
      end
  end.

(** Truth value of [re.search(r, s)]. *)
Definition search (r : regex) (s : string) : bool :=
  match search_from r (list_ascii_of_string s) with
  | Some _ => true
  | None => false
  end.

(** [match.group(i)], the empty text for a group that took no part. *)
Fixpoint group (i : nat) (cs : list (nat * list ascii)) : list ascii :=
  match cs with
  | [] => []
  | (j, t) :: cs' => if Nat.eqb i j then t else group i cs'
  end.

(** [re.findall(r, s)] for a pattern with one group.  The scan resumes
    where the previous match ended; after an empty match it moves one
    character on.  [fuel] bounds the number of matches. *)
Fixpoint findall_from (fuel : nat) (r : regex) (s : list ascii) : list string :=
  match fuel with
  | O => []
  | S fuel' =>
      match search_from r s with
      | None => []
      | Some (start, st) =>
          string_of_list_ascii (group 1 (caps st)) ::
            (if (length (rest st) <? length start)%nat
             then findall_from fuel' r (rest st)
             else match rest st with
                  | [] => []
                  | _ :: s' => findall_from fuel' r s'
                  end)
      end
  end.

Definition findall (r : regex) (s : string) : list string :=
  findall_from (S (String.length s)) r (list_ascii_of_string s).

(** ** What a pattern denotes

    [matches r s after]: [r] matches the text [s] when [after] is what
    follows it in the subject. *)
Fixpoint matches (r : regex) (s after : list ascii) : Prop :=
  match r with
  | Lit l => s = list_ascii_of_string l
  | Cls p => exists c, s = [c] /\ p c = true
  | Cat r1 r2 =>
      exists s1 s2, s = s1 ++ s2 /\ matches r1 s1 (s2 ++ after) /\ matches r2 s2 after
  | Alt r1 r2 => matches r1 s after \/ matches r2 s after
  | Rep n _ p => (n <= length s)%nat /\ forallb p s = true
  | Opt r1 => s = [] \/ matches r1 s after
  | Grp _ r1 => matches r1 s after
  | Ahead r1 => s = [] /\ exists s1 s2, after = s1 ++ s2 /\ matches r1 s1 s2
  | EndZ => s = [] /\ after = []
  end.

(** [r] matches somewhere in [s]. *)
Definition occurs (r : regex) (s : list ascii) : Prop :=
  exists pre mid post, s = pre ++ mid ++ post /\ matches r mid post.

End Re.

(* ===================================================================== *)
(** * [src/api/tools.py]                                                  *)
(* ===================================================================== *)

Module Tools.

Import Re.

(** Calls that leave the process. *)
Inductive ext_call :=
| CallBedrockRetrieve (knowledge_base_id region question : string)
| CallTavilySearch (k : nat) (query : string).

(** ** [detect_emergency] *)

(** The patterns of [emergency_patterns], category by category.  They
    are searched in [query.lower()] without flags: [.] stops at a line
    feed. *)
(** ['severe_hyperglycemia']:
    [blood sugar (over|above|more than) (\d{3,})],
    [glucose.*?(\d{3,})],
    [(\d{3,}).*?(blood sugar|glucose)]. *)
Definition hyperglycemia_patterns : list regex :=
  [ Lit "blood sugar " +++ Grp 1 (Alt (Lit "over") (Alt (Lit "above") (Lit "more than")))
      +++ Lit " " +++ Grp 2 (Rep 3 true digit);
    Lit "glucose" +++ Rep 0 false dot +++ Grp 1 (Rep 3 true digit);
    Grp 1 (Rep 3 true digit) +++ Rep 0 false dot
      +++ Grp 2 (Alt (Lit "blood sugar") (Lit "glucose")) ].

(** ['severe_hypoglycemia']:
    [blood sugar (under|below|less than) (40|30|20)],
    [glucose.*?([1-3]\d)],
    [(unconscious|passing out|fainted).*?(diabetes|sugar)]. *)
Definition hypoglycemia_patterns : list regex :=
  [ Lit "blood sugar " +++ Grp 1 (Alt (Lit "under") (Alt (Lit "below") (Lit "less than")))
      +++ Lit " " +++ Grp 2 (Alt (Lit "40") (Alt (Lit "30") (Lit "20")));
    Lit "glucose" +++ Rep 0 false dot +++ Grp 1 (Cls (range "1" "3") +++ Cls digit);
    Grp 1 (Alt (Lit "unconscious") (Alt (Lit "passing out") (Lit "fainted")))
      +++ Rep 0 false dot +++ Grp 2 (Alt (Lit "diabetes") (Lit "sugar")) ].

(** ['dka_symptoms']:
    [fruity.*(breath|smell)],
    [(vomiting|nausea).*(diabetes|sugar)],
    [(rapid|fast) breathing.*(diabetes|sugar)],
    [(diabetic ketoacidosis|dka)]. *)
Definition dka_patterns : list regex :=
  [ Lit "fruity" +++ Rep 0 true dot +++ Grp 1 (Alt (Lit "breath") (Lit "smell"));
    Grp 1 (Alt (Lit "vomiting") (Lit "nausea")) +++ Rep 0 true dot
      +++ Grp 2 (Alt (Lit "diabetes") (Lit "sugar"));
    Grp 1 (Alt (Lit "rapid") (Lit "fast")) +++ Lit " breathing" +++ Rep 0 true dot
      +++ Grp 2 (Alt (Lit "diabetes") (Lit "sugar"));
    Grp 1 (Alt (Lit "diabetic ketoacidosis") (Lit "dka")) ].

(** ['cardiac']:
    [chest pain.*(diabetes|diabetic)],
    [heart attack.*(diabetes|sugar)],
    [difficulty breathing.*(diabetes|diabetic)]. *)
Definition cardiac_patterns : list regex :=
  [ Lit "chest pain" +++ Rep 0 true dot +++ Grp 1 (Alt (Lit "diabetes") (Lit "diabetic"));
    Lit "heart attack" +++ Rep 0 true dot +++ Grp 1 (Alt (Lit "diabetes") (Lit "sugar"));
    Lit "difficulty breathing" +++ Rep 0 true dot
      +++ Grp 1 (Alt (Lit "diabetes") (Lit "diabetic")) ].

(** ['severe_confusion']:
    [(confused|disoriented|delirious).*(diabetes|sugar)],
    [can\'?t (think|focus).*?(diabetes|sugar)]. *)
Definition confusion_patterns : list regex :=
  [ Grp 1 (Alt (Lit "confused") (Alt (Lit "disoriented") (Lit "delirious")))
      +++ Rep 0 true dot +++ Grp 2 (Alt (Lit "diabetes") (Lit "sugar"));
    Lit "can" +++ Opt (Lit "'") +++ Lit "t " +++ Grp 1 (Alt (Lit "think") (Lit "focus"))
      +++ Rep 0 false dot +++ Grp 2 (Alt (Lit "diabetes") (Lit "sugar")) ].

(** The [emergency_patterns] dictionary, in insertion order. *)
Definition emergency_patterns : list (string * list regex) :=
  [ ("severe_hyperglycemia", hyperglycemia_patterns);
    ("severe_hypoglycemia", hypoglycemia_patterns);
    ("dka_symptoms", dka_patterns);
    ("cardiac", cardiac_patterns);
    ("severe_confusion", confusion_patterns) ].

(** The [explanations] dictionary of [_format_emergency_reasons]. *)
Definition explanations : gmap string string :=
  {[ "severe_hyperglycemia" := "- Blood sugar over 400 mg/dL can lead to diabetic ketoacidosis (DKA), a life-threatening condition";
     "severe_hypoglycemia" := "- Blood sugar under 40 mg/dL can cause seizures, loss of consciousness, or death";
     "dka_symptoms" := "- Diabetic ketoacidosis is a medical emergency requiring immediate hospitalization";
     "cardiac" := "- Diabetes increases heart attack risk; chest pain requires immediate evaluation";
     "severe_confusion" := "- Severe confusion with diabetes may indicate dangerous blood sugar levels" ]}.

(** [explanations.get(et, f"- {et}")] *)
Definition explanation_of (et : string) : string :=
  default ("- " +:+ et) (explanations !! et).

Definition _format_emergency_reasons (emergency_types : list string) : string :=
  Py.join (String Py.nl EmptyString) (map explanation_of emergency_types).

(** The inner loop: [for pattern in patterns: if re.search(...): ...; break]. *)
Fixpoint first_match (patterns : list regex) (query_lower : string) : bool :=
  match patterns with
  | [] => false
  | pattern :: patterns' =>
      if search pattern query_lower then true else first_match patterns' query_lower
  end.

(** The outer loop over [emergency_patterns.items()]. *)
Definition scan_emergencies (query_lower : string) : list string :=
  fold_left
    (fun detected_emergencies entry =>
       if first_match (snd entry) query_lower
       then detected_emergencies ++ [fst entry]
       else detected_emergencies)
    emergency_patterns [].

Definition response_head : string :=
"🚨 **MEDICAL EMERGENCY DETECTED** 🚨

Based on your message, you may be experiencing a medical emergency related to diabetes.

**IMMEDIATE ACTIONS REQUIRED:**
1. **CALL 911** or your local emergency number immediately
2. If you have a glucagon kit (for low blood sugar), use it now
3. Do NOT drive yourself - wait for emergency services
4. Stay with someone if possible
5. Have your medications and medical information ready

**Why this is urgent:**
".

Definition response_tail : string :=
"

**This is an AI assistant. This is NOT a substitute for professional medical care.**
**Please seek immediate medical attention.**

National Diabetes Emergency Hotline: 1-800-DIABETES (1-800-342-2383)
".

Definition emergency_response_for (detected_emergencies : list string) : string :=
  response_head +:+ _format_emergency_reasons detected_emergencies +:+ response_tail.

Definition detect_emergency (query : string) : gmap string pyval :=
  let query_lower := Py.lower query in
  let detected_emergencies := scan_emergencies query_lower in
  match detected_emergencies with
  | _ :: _ =>
      {[ "is_emergency" := VBool true;
         "emergency_types" := VStrs detected_emergencies;
         "emergency_response" := VStr (emergency_response_for detected_emergencies) ]}
  | [] =>
      {[ "is_emergency" := VBool false;
         "emergency_types" := VStrs [];
         "emergency_response" := VNone ]}
  end.

(** The dictionary returned when nothing is detected. *)
Definition no_emergency : gmap string pyval :=
  {[ "is_emergency" := VBool false;
     "emergency_types" := VStrs [];
     "emergency_response" := VNone ]}.

(** ** [check_medication_safety] *)

Record med_info := MedInfo {
  contraindications : list string;
  interactions : list string;
  warnings : string }.

(** The [interaction_db] dictionary, in insertion order. *)
Definition interaction_db : list (string * med_info) :=
  [ ("metformin",
     MedInfo ["kidney disease"; "renal failure"; "dialysis"; "contrast dye"; "iodine"]
             ["alcohol"; "excessive alcohol"; "diuretic"]
             "Metformin should be stopped before surgery or contrast imaging procedures.");
    ("insulin",
     MedInfo ["hypoglycemia"; "low blood sugar"]
             ["beta blocker"; "propranolol"; "ace inhibitor"]
             "Insulin dosing must be carefully managed to avoid severe hypoglycemia.");
    ("glipizide",
     MedInfo ["sulfa allergy"]
             ["warfarin"; "coumadin"; "nsaid"; "ibuprofen"]
             "Sulfonylureas like glipizide can cause hypoglycemia, especially with missed meals.");
    ("glyburide",
     MedInfo ["liver disease"; "sulfa allergy"]
             ["warfarin"; "coumadin"; "nsaid"]
             "Glyburide has higher hypoglycemia risk than other sulfonylureas.");
    ("sitagliptin",
     MedInfo ["pancreatitis"; "kidney disease"]
             ["digoxin"]
             "DPP-4 inhibitors rarely may increase pancreatitis risk.") ].

Definition warning_keywords : list string := ["side effect"; "problem"; "issue"; "concern"].

Definition contraindication_warning (medication contraindication : string) : string :=
  "⚠️ **WARNING**: " +:+ medication +:+ " may not be safe with " +:+ contraindication
  +:+ ". Please consult your doctor before making any changes to your medications.".

Definition interaction_alert (medication interaction : string) : string :=
  "⚠️ **INTERACTION ALERT**: " +:+ medication +:+ " may interact with " +:+ interaction
  +:+ ". Discuss this with your pharmacist or doctor.".

Definition general_note (info : med_info) : string :=
  "ℹ️ **Note**: " +:+ warnings info.

(** The body of [if known_med in med_lower:]. *)
Definition check_known_med (medication query_lower : string) (info : med_info)
    (safety_warnings : list string) : list string :=
  let w1 :=
    fold_left (fun acc contraindication =>
                 if Py.contains contraindication query_lower
                 then acc ++ [contraindication_warning medication contraindication]
                 else acc)
              (contraindications info) safety_warnings in
  let w2 :=
    fold_left (fun acc interaction =>
                 if Py.contains interaction query_lower
                 then acc ++ [interaction_alert medication interaction]
                 else acc)
              (interactions info) w1 in
  if Py.any (fun kw => Py.contains kw query_lower) warning_keywords
  then w2 ++ [general_note info]
  else w2.

(** The body of [for medication in medications:]. *)
Definition check_one_medication (query_lower : string) (safety_warnings : list string)
    (medication : string) : list string :=
  let med_lower := Py.lower medication in
  fold_left (fun acc entry =>
               if Py.contains (fst entry) med_lower
               then check_known_med medication query_lower (snd entry) acc
               else acc)
            interaction_db safety_warnings.

Definition check_medication_safety (medications : list string) (query : string)
    : gmap string pyval :=
  match medications with
  | [] => {[ "safety_warnings" := VStrs []; "has_concerns" := VBool false ]}
  | _ :: _ =>
      let query_lower := Py.lower query in
      let safety_warnings := fold_left (check_one_medication query_lower) medications [] in
      {[ "safety_warnings" := VStrs safety_warnings;
         "has_concerns" := VBool (0 <? length safety_warnings)%nat ]}
  end.

(** ** [check_chunks_relevance] *)

(** [r"Score:.*?\nContent:\s*(.*?)(?=Score:|\Z)"], compiled with [re.DOTALL]. *)
Definition chunk_pattern : regex :=
  Lit "Score:" +++ Rep 0 false dotall +++ Lit (String Py.nl "Content:")
  +++ Rep 0 true space +++ Grp 1 (Rep 0 false dotall)
  +++ Ahead (Alt (Lit "Score:") EndZ).

Definition relevance_threshold : float := 0.5%float.

(** [x > y] on floats. *)
Definition float_gt (x y : float) : bool := PrimFloat.ltb y x.

Section RelevanceScorer.

(** Lines 401-427: the evaluation model is built and the RAGAS metric
    [LLMContextPrecisionWithoutReference] is run on the question and the
    extracted chunks; it returns a float or raises. *)
Variable single_turn_ascore : string -> list string -> outcome float.

(** The body of the [try] block. *)
Definition score_chunks (results question : string) : outcome (gmap string pyval) :=
  if negb (Py.truthy results)
  then Raise (Exn "ValueError" "Invalid input: 'results' must be a non-empty string.")
  else
  if negb (Py.truthy question)
  then Raise (Exn "ValueError" "Invalid input: 'question' must be a non-empty string.")
  else
  let docs := map Py.strip (findall chunk_pattern results) in
  match docs with
  | [] => Raise (Exn "ValueError" "No valid content chunks found in 'results'.")
  | _ :: _ =>
      do score <- single_turn_ascore question docs in
      Ok {[ "chunk_relevance_score" :=
              VStr (if float_gt score relevance_threshold then "yes" else "no");
            "chunk_relevance_value" := VFloat score ]}
  end.

(** The dictionary of the [except Exception as e:] handler. *)
Definition fail_open (e : exn) : gmap string pyval :=
  {[ "error" := VStr (exn_str e);
     "chunk_relevance_score" := VStr "yes";
     "chunk_relevance_value" := VFloat 0.5%float ]}.

Definition check_chunks_relevance (results question : string) : gmap string pyval :=
  match score_chunks results question with
  | Ok verdict => verdict
  | Raise e => fail_open e
  end.

End RelevanceScorer.

(** ** [medical_web_search] *)

(** A result of the search tool: a dictionary whose [content], [url] and
    [title], when present, are strings and whose [score], when present,
    is a float. *)
Record web_hit := WebHit {
  hit_content : option string;
  hit_url : option string;
  hit_title : option string;
  hit_score : option float }.

Section WebSearch.

(** [config.TAVILY_API_KEY] *)
Variable TAVILY_API_KEY : string.

(** [TavilySearchResults(k=k).invoke({"query": query})]: the list the tool
    hands back, or the exception it raises. *)
Variable tavily_invoke : nat -> string -> outcome (list web_hit).

(** [f"{x:.2f}"] *)
Variable format_2f : float -> string.

(** One pass of the formatting loop. *)
Definition format_hit (idx : nat) (h : web_hit) : string :=
  let content := default EmptyString (hit_content h) in
  let url := default "Unknown URL" (hit_url h) in
  let title := default "Unknown Title" (hit_title h) in
  let score := default 0.5%float (hit_score h) in
  "**Source " +:+ Py.str_of_nat idx +:+ "** (relevance: " +:+ format_2f score +:+ ")
" +:+ "**Title:** " +:+ title +:+ "
" +:+ content +:+ "

" +:+ "*Reference: " +:+ url +:+ "*

".

(** The blocks appended by [for idx, result in enumerate(search_results, 1)]. *)
Fixpoint format_hits (idx : nat) (search_results : list web_hit) : list string :=
  match search_results with
  | [] => []
  | h :: rest => format_hit idx h :: format_hits (S idx) rest
  end.

Definition web_results_header : string := "**Web Search Results:**

".

Definition render_web_results (search_results : list web_hit) : string :=
  Py.strip (fold_left String.append (format_hits 1 search_results) web_results_header).

Definition web_search_unavailable : string :=
  "Medical web search functionality is not available because there is no API Key.".

(** The text returned and the external calls made. *)
Definition medical_web_search (query : string) : string * list ext_call :=
  if (Py.len TAVILY_API_KEY =? 0)%nat
  then (web_search_unavailable, [])
  else
    match tavily_invoke 3 query with
    | Ok search_results => (render_web_results search_results, [CallTavilySearch 3 query])
    | Raise e =>
        ("Error performing medical web search: " +:+ exn_str e, [CallTavilySearch 3 query])
    end.

(** The number of result blocks in the formatted output. *)
Definition web_results_shown (query : string) : nat :=
  if (Py.len TAVILY_API_KEY =? 0)%nat then 0
  else match tavily_invoke 3 query with
       | Ok search_results => length (format_hits 1 search_results)
       | Raise _ => 0
       end.

End WebSearch.

(** ** [query_diabetes_knowledge] *)

(** The environment as the function reads it (lines 197-199). *)
Record kb_config := KbConfig {
  (** [os.environ.get("DIABETES_KB_ID", "")] *)
  knowledge_base_id : string;
  (** [os.environ.get("AWS_REGION", "us-east-1")] *)
  aws_region : string;
  (** [float(os.environ.get("DIABETES_KB_MIN_SCORE", "0.5"))]: [ValueError]
      when the variable is set to text that is not a number. *)
  min_score : outcome float }.

(** One entry of [response["retrievalResults"]]. *)
Record kb_hit := KbHit {
  kb_score : option float;
  kb_text : option string;
  kb_uri : option string }.

Section KnowledgeBase.

Variable config : kb_config.

(** [bedrock_agent.retrieve(...)]: [None] stands for a response without the
    key [retrievalResults]. *)
Variable bedrock_retrieve : string -> string -> string -> outcome (option (list kb_hit)).

Variable format_2f : float -> string.

Definition kb_not_configured : string :=
  "Diabetes knowledge base is not configured. Please contact your administrator.".

Definition kb_results_header : string := "Based on medical knowledge sources:

".

(** The loop over [enumerate(response["retrievalResults"], 1)]. *)
Fixpoint format_kb_hits (min : float) (idx : nat) (hits : list kb_hit) (results_text : string)
    : string :=
  match hits with
  | [] => results_text
  | h :: rest =>
      let score := default 0%float (kb_score h) in
      if PrimFloat.ltb score min
      then format_kb_hits min (S idx) rest results_text
      else
        let content := default EmptyString (kb_text h) in
        let source_uri := default "Unknown source" (kb_uri h) in
        format_kb_hits min (S idx) rest
          (results_text
           +:+ "**Source " +:+ Py.str_of_nat idx +:+ "** (relevance: " +:+ format_2f score +:+ ")
" +:+ content +:+ "

" +:+ "*Reference: " +:+ source_uri +:+ "*

")
  end.

(** The text returned, or the exception that escapes, and the external
    calls made. *)
Definition query_diabetes_knowledge (question : string) : outcome string * list ext_call :=
  match min_score config with
  | Raise e => (Raise e, [])
  | Ok min =>
      if negb (Py.truthy (knowledge_base_id config))
      then (Ok kb_not_configured, [])
      else
        let call := CallBedrockRetrieve (knowledge_base_id config) (aws_region config) question in
        match bedrock_retrieve (knowledge_base_id config) (aws_region config) question with
        | Raise e => (Ok ("Error accessing diabetes knowledge base: " +:+ exn_str e), [call])
        | Ok None =>
            (Ok "No relevant diabetes information found for your question. Please try rephrasing or ask a different question.", [call])
        | Ok (Some []) =>
            (Ok "No relevant diabetes information found for your question. Please try rephrasing or ask a different question.", [call])
        | Ok (Some hits) =>
            let results_text := format_kb_hits min 1 hits kb_results_header in
            if String.eqb results_text kb_results_header
            then (Ok "No sufficiently relevant diabetes information found. Please try rephrasing your question.", [call])
            else (Ok (Py.strip results_text), [call])
        end
  end.

End KnowledgeBase.

End Tools.

(* ===================================================================== *)
(** * [src/kb/data-ingestion/web-2-s3/diabetes_scraper_scheduler.py]      *)
(* ===================================================================== *)

Module Scraper.

(** The JSON scalars found in a result of the search API. *)
Inductive jval :=
| JNull
| JBool (b : bool)
| JInt (z : Z)
| JFloat (f : float)
| JStr (s : string).

(** A result of the search API, a Python [dict]. *)
Abbreviation hit := (gmap string jval).

Definition type_name (v : jval) : string :=
  match v with
  | JNull => "NoneType"
  | JBool _ => "bool"
  | JInt _ => "int"
  | JFloat _ => "float"
  | JStr _ => "str"
  end.

(** Truth value of a Python object. *)
Definition truth (v : jval) : bool :=
  match v with
  | JNull => false
  | JBool b => b
  | JInt z => negb (z =? 0)%Z
  | JFloat f => negb (PrimFloat.eqb f 0%float)
  | JStr s => Py.truthy s
  end.

Definition attribute_error (v : jval) (attr : string) : exn :=
  Exn "AttributeError" ("'" +:+ type_name v +:+ "' object has no attribute '" +:+ attr +:+ "'").

Definition not_subscriptable (v : jval) : exn :=
  Exn "TypeError" ("'" +:+ type_name v +:+ "' object is not subscriptable").

(** [v.lower()], [v.encode()] and [v[:n]]: defined on strings only. *)
Definition lower_of (v : jval) : outcome string :=
  match v with
  | JStr s => Ok (Py.lower s)
  | _ => Raise (attribute_error v "lower")
  end.

Definition encode (v : jval) : outcome string :=
  match v with
  | JStr s => Ok s
  | _ => Raise (attribute_error v "encode")
  end.

Definition slice_of (n : nat) (v : jval) : outcome string :=
  match v with
  | JStr s => Ok (Py.slice_to n s)
  | _ => Raise (not_subscriptable v)
  end.

(** The [ContentTracker] model. *)
Record ContentTracker := Tracker {
  url_hashes : gset string;
  content_hashes : gset string;
  last_run : string;
  total_documents : Z }.

(** The [IncrementalScrapingResult] model. *)
Record IncrementalScrapingResult := ScrapingResult {
  r_new_documents_found : Z;
  r_new_documents_scraped : Z;
  r_updated_documents : Z;
  r_skipped_existing : Z;
  r_s3_objects_created : list string;
  r_s3_objects_updated : list string;
  r_errors : list string;
  r_next_run_scheduled : string }.

(** What [json.dumps] is applied to before a [put_object]. *)
Inductive s3_body :=
| DocumentBody (doc_data : hit) (metadata : hit)
| TrackerBody (tracker : ContentTracker).

(** One [s3_client.put_object] call. *)
Record s3_put := S3Put {
  put_bucket : string;
  put_key : string;
  put_body : s3_body;
  put_content_type : string;
  put_metadata : list (string * string) }.

(** The local variables of [incremental_scrape_diabetes_webmd], the
    tracker object they refer to, and the outside world: the objects
    written to storage so far and the clock, in seconds. *)
Record run_state := RunState {
  tracker : ContentTracker;
  new_documents_found : Z;
  new_documents_scraped : Z;
  updated_documents : Z;
  skipped_existing : Z;
  s3_objects_created : list string;
  s3_objects_updated : list string;
  errors : list string;
  s3_log : list s3_put;
  clock : Z }.

Definition add_error (msg : string) (st : run_state) : run_state :=
  RunState (tracker st) (new_documents_found st) (new_documents_scraped st)
    (updated_documents st) (skipped_existing st) (s3_objects_created st)
    (s3_objects_updated st) (errors st ++ [msg]) (s3_log st) (clock st).

Definition add_found (n : Z) (st : run_state) : run_state :=
  RunState (tracker st) (new_documents_found st + n) (new_documents_scraped st)
    (updated_documents st) (skipped_existing st) (s3_objects_created st)
    (s3_objects_updated st) (errors st) (s3_log st) (clock st).

Definition skip_existing (st : run_state) : run_state :=
  RunState (tracker st) (new_documents_found st) (new_documents_scraped st)
    (updated_documents st) (skipped_existing st + 1) (s3_objects_created st)
    (s3_objects_updated st) (errors st) (s3_log st) (clock st).

(** Lines 335-362: the object is written, the tracker updated, the
    counters and key lists updated, and the run sleeps for a second. *)
Definition record_document (put : s3_put) (url_hash content_hash : string) (is_update : bool)
    (st : run_state) : run_state :=
  let t := tracker st in
  let t' := Tracker ({[url_hash]} ∪ url_hashes t) ({[content_hash]} ∪ content_hashes t)
              (last_run t) (total_documents t + 1) in
  RunState t' (new_documents_found st)
    (if is_update then new_documents_scraped st else new_documents_scraped st + 1)
    (if is_update then updated_documents st + 1 else updated_documents st)
    (skipped_existing st)
    (if is_update then s3_objects_created st else s3_objects_created st ++ [put_key put])
    (if is_update then s3_objects_updated st ++ [put_key put] else s3_objects_updated st)
    (errors st) (s3_log st ++ [put]) (clock st + 1).

Definition default_queries : list string :=
  [ "diabetes symptoms"; "diabetes treatment"; "diabetes diet nutrition";
    "type 1 diabetes"; "type 2 diabetes"; "diabetes complications";
    "diabetes prevention"; "diabetes medication"; "diabetes blood sugar";
    "diabetes exercise" ].

Definition tracker_key : string := "diabetes-scraper/tracker.json".

Section Run.

(** [hashlib.md5(b).hexdigest()] *)
Variable md5_hexdigest : string -> string.

(** [datetime.isoformat()] and [strftime("%Y%m%d_%H%M%S")] of a clock value. *)
Variable isoformat : Z -> string.
Variable strftime_stamp : Z -> string.

(** [str(v)] of a number inside an f-string. *)
Variable str_of_number : jval -> string.

(** [os.getenv('TAVILY_API_KEY')] *)
Variable tavily_api_key : option string.

(** Lines 207-211: the POST to the search API, [raise_for_status],
    [response.json()] and [data.get('results', [])]. *)
Variable tavily_post : string -> nat -> outcome (list hit).

(** The exception [s3_client.put_object] raises for a request, if any. *)
Variable s3_put_error : s3_put -> option exn.

(** The tracker [load_content_tracker] finds in the bucket: [None] when the
    object is missing or cannot be read. *)
Variable stored_tracker : string -> option ContentTracker.

(** A value inside an f-string. *)
Definition fstr (v : jval) : string :=
  match v with
  | JStr s => s
  | JNull => "None"
  | JBool true => "True"
  | JBool false => "False"
  | _ => str_of_number v
  end.

(** [result.get('raw_content', result.get('content', ''))] *)
Definition content_of (result : hit) : jval :=
  match result !! "raw_content" with
  | Some v => v
  | None => default (JStr EmptyString) (result !! "content")
  end.

(** [hashlib.md5(content.encode()).hexdigest()] for the content of a result. *)
Definition content_hash_of (result : hit) : outcome string :=
  do c <- encode (content_of result) in Ok (md5_hexdigest c).

Definition load_content_tracker (bucket_name : string) (now : Z) : ContentTracker :=
  match stored_tracker bucket_name with
  | Some t => t
  | None => Tracker ∅ ∅ (isoformat now) 0
  end.

(** [save_content_tracker]: the write is attempted, a failure is swallowed. *)
Definition save_content_tracker (t : ContentTracker) (bucket_name : string)
    (log : list s3_put) : bool * list s3_put :=
  let put := S3Put bucket_name tracker_key (TrackerBody t) "application/json" [] in
  match s3_put_error put with
  | None => (true, log ++ [put])
  | Some _ => (false, log)
  end.

(** ** [tavily_search_webmd_diabetes_incremental] *)

(** One pass of the filter loop (lines 215-232). *)
Definition filter_result (t : option ContentTracker) (new_results : list hit) (result : hit)
    : outcome (list hit) :=
  let url := default (JStr EmptyString) (result !! "url") in
  do url_lower <- lower_of url in
  if Py.contains "webmd.com" url_lower then
    do url_bytes <- encode url in
    let url_hash := md5_hexdigest url_bytes in
    match t with
    | Some tr =>
        if bool_decide (url_hash ∈ url_hashes tr) then
          do content_hash <- content_hash_of result in
          if bool_decide (content_hash ∈ content_hashes tr)
          then Ok new_results
          else Ok (new_results ++ [<["is_updated" := JBool true]> result])
        else Ok (new_results ++ [<["is_new" := JBool true]> result])
    | None => Ok (new_results ++ [<["is_new" := JBool true]> result])
    end
  else Ok new_results.

Fixpoint filter_results (t : option ContentTracker) (results : list hit) (new_results : list hit)
    : outcome (list hit) :=
  match results with
  | [] => Ok new_results
  | result :: rest =>
      do new_results' <- filter_result t new_results result in
      filter_results t rest new_results'
  end.

Definition error_hit (msg : string) : hit := {[ "error" := JStr msg ]}.

Definition tavily_search_webmd_diabetes_incremental (query : string) (max_results : nat)
    (t : option ContentTracker) : list hit :=
  match tavily_api_key with
  | None => [error_hit "TAVILY_API_KEY environment variable not set"]
  | Some EmptyString => [error_hit "TAVILY_API_KEY environment variable not set"]
  | Some _ =>
      let search_query := "site:webmd.com " +:+ query +:+ " diabetes" in
      match (do results <- tavily_post search_query max_results in
             filter_results t results []) with
      | Ok new_results => new_results
      | Raise e => [error_hit ("Tavily search failed: " +:+ exn_str e)]
      end
  end.

(** ** [incremental_scrape_diabetes_webmd] *)

Definition clean_title_of (title_50 : string) : string :=
  Py.replace_char " " "_"
    (Py.strip
       (Py.keep_chars
          (fun c => Py.isalnum c || Ascii.eqb c " " || Ascii.eqb c "-" || Ascii.eqb c "_")
          title_50)).

(** The body of the inner [try] (lines 291-362) for one result. *)
Definition process_body (bucket_name s3_prefix query : string) (force_update : bool)
    (st : run_state) (result : hit) : outcome run_state :=
  match result !! "url" with
  | None => Ok st
  | Some url =>
      if negb (truth url) then Ok st
      else
        do url_bytes <- encode url in
        let url_hash := md5_hexdigest url_bytes in
        let content := content_of result in
        do content_bytes <- encode content in
        let content_hash := md5_hexdigest content_bytes in
        if negb force_update && bool_decide (content_hash ∈ content_hashes (tracker st))
        then Ok (skip_existing st)
        else
          let title := default (JStr EmptyString) (result !! "title") in
          let scraped_at := isoformat (clock st) in
          let is_update := default (JBool false) (result !! "is_updated") in
          let is_new := default (JBool false) (result !! "is_new") in
          let doc_data : hit :=
            {[ "url" := url; "title" := title; "content" := content;
               "scraped_at" := JStr scraped_at; "content_hash" := JStr content_hash;
               "is_update" := is_update; "is_new" := is_new ]} in
          let timestamp := strftime_stamp (clock st) in
          do title_50 <- slice_of 50 title in
          let clean_title := clean_title_of title_50 in
          let object_key :=
            s3_prefix +:+ "/" +:+ timestamp +:+ "_" +:+ Py.slice_to 8 url_hash
            +:+ "_" +:+ clean_title +:+ ".json" in
          let metadata : hit :=
            {[ "source" := JStr "webmd"; "topic" := JStr "diabetes";
               "scraper" := JStr "incremental-tavily-strands-agent";
               "search_query" := JStr query;
               "is_update" := is_update; "is_new" := is_new ]} in
          let put :=
            S3Put bucket_name object_key (DocumentBody doc_data metadata) "application/json"
              [ ("source-url", url_bytes); ("content-hash", content_hash);
                ("scraped-at", scraped_at) ] in
          match s3_put_error put with
          | Some e => Raise e
          | None => Ok (record_document put url_hash content_hash (truth is_update) st)
          end
  end.

(** One pass of [for result in search_results:], with its handler. *)
Definition process_result (bucket_name s3_prefix query : string) (force_update : bool)
    (st : run_state) (result : hit) : run_state :=
  match process_body bucket_name s3_prefix query force_update st result with
  | Ok st' => st'
  | Raise e =>
      add_error ("Error processing " +:+ fstr (default (JStr "unknown") (result !! "url"))
                 +:+ ": " +:+ exn_str e) st
  end.

(** One pass of [for query in search_queries:]. *)
Definition process_query (bucket_name s3_prefix : string) (max_results_per_query : nat)
    (force_update : bool) (st : run_state) (query : string) : run_state :=
  let search_results :=
    tavily_search_webmd_diabetes_incremental query max_results_per_query (Some (tracker st)) in
  let process_all :=
    fold_left (process_result bucket_name s3_prefix query force_update) search_results
      (add_found (Z.of_nat (length search_results)) st) in
  match search_results with
  | first :: _ =>
      match first !! "error" with
      | Some err =>
          add_error ("Search failed for '" +:+ query +:+ "': " +:+ fstr err) st
      | None => process_all
      end
  | [] => process_all
  end.

Definition seven_days : Z := 7 * 24 * 3600.

(** The whole run, from a bucket and a clock value: the result returned,
    the tracker as the run leaves it, and the objects written. *)
Definition incremental_scrape_diabetes_webmd (bucket_name : string)
    (search_queries : option (list string)) (max_results_per_query : nat)
    (s3_prefix : string) (force_update : bool) (log : list s3_put) (now : Z)
    : IncrementalScrapingResult * ContentTracker * list s3_put :=
  let queries := default default_queries search_queries in
  let t0 := load_content_tracker bucket_name now in
  let st0 := RunState t0 0 0 0 0 [] [] [] log now in
  let st := fold_left (process_query bucket_name s3_prefix max_results_per_query force_update)
              queries st0 in
  let t := tracker st in
  let t' := Tracker (url_hashes t) (content_hashes t) (isoformat (clock st)) (total_documents t) in
  let saved := save_content_tracker t' bucket_name (s3_log st) in
  (ScrapingResult (new_documents_found st) (new_documents_scraped st) (updated_documents st)
     (skipped_existing st) (s3_objects_created st) (s3_objects_updated st) (errors st)
     (isoformat (clock st + seven_days)),
   t', snd saved).

End Run.

(** What is known of a result the search keeps: its [url] is a string
    that names the site. *)
Definition site_document (doc : hit) : Prop :=
  exists u, doc !! "url" = Some (JStr u) /\ Py.contains "webmd.com" (Py.lower u) = true.

End Scraper.

(* ===================================================================== *)
(** * Vocabulary of the statements                                        *)
(* ===================================================================== *)

Module Phrasing.

(** The number a run of decimal digits denotes: [int(ds)]. *)
Fixpoint value_from (acc : N) (ds : string) : option N :=
  match ds with
  | EmptyString => Some acc
  | String c ds' =>
      if Py.is_digit c
      then value_from (10 * acc + (N_of_ascii c - 48)) ds'
      else None
  end.

Definition decimal_value (ds : string) : option N :=
  match ds with
  | EmptyString => None
  | String _ _ => value_from 0 ds
  end.

Definition all_digits (ds : string) : Prop :=
  forallb Py.is_digit (list_ascii_of_string ds) = true.

(** Text that stays on one line. *)
Definition one_line (s : string) : Prop :=
  forallb Re.dot (list_ascii_of_string s) = true.

(** The three phrasings of a blood-glucose reading the detector knows,
    for a lowercased query and the digits [ds] of the reading. *)
Inductive glucose_phrasing (ds : string) : string -> Prop :=
| blood_sugar_over (kw pre post : string) :
    In kw ["over"; "above"; "more than"] ->
    glucose_phrasing ds (pre +:+ "blood sugar " +:+ kw +:+ " " +:+ ds +:+ post)
| glucose_then_value (pre mid post : string) :
    one_line mid ->
    glucose_phrasing ds (pre +:+ "glucose" +:+ mid +:+ ds +:+ post)
| value_then_name (name pre mid post : string) :
    In name ["blood sugar"; "glucose"] ->
    one_line mid ->
    glucose_phrasing ds (pre +:+ ds +:+ mid +:+ name +:+ post).

(** A pattern matches a query case-insensitively, the way the detector
    looks for it: in the lowercased query. *)
Definition found_in (query : string) (p : Re.regex) : Prop :=
  Re.occurs p (list_ascii_of_string (Py.lower query)).


(** How often [sub] starts in [s]. *)
Fixpoint occurrences (sub s : string) : nat :=
  match s with
  | EmptyString => 0
  | String _ s' => (if String.prefix sub s then 1 else 0) + occurrences sub s'
  end.

End Phrasing.

(** Data of the worked examples. *)
Module Examples.

Import Tools Scraper.


Definition formatted_retrieval : string :=
  "**Source 1** (relevance: 0.82)
Insulin lowers blood glucose.

*Reference: s3://kb/insulin.txt*".

Definition two_chunks : string :=
  "Score: 0.91
Content: Insulin lowers blood glucose.
Score: 0.40
Content: Metformin is taken with meals.".

Definition half_verdict : gmap string pyval :=
  {[ "chunk_relevance_score" := VStr "no"; "chunk_relevance_value" := VFloat 0.5%float ]}.

(** A search API that finds one article, not seen at that address
    before, whose text the tracker already knows. *)
Definition article : hit :=
  {[ "url" := JStr "https://www.webmd.com/diabetes/insulin";
     "title" := JStr "Insulin basics";
     "content" := JStr "Insulin lowers blood glucose." ]}.

Definition one_article (search_query : string) (max_results : nat) : outcome (list hit) :=
  Ok [article].

Definition plain_md5 (b : string) : string := "md5:" +:+ b.

Definition found_article : hit := <["is_new" := JBool true]> article.

Definition empty_tracker : ContentTracker := Tracker ∅ ∅ "2025-01-01T00:00:00" 0.

Definition knows_article : run_state :=
  RunState (Tracker {[ plain_md5 "https://www.webmd.com/diabetes/insulin-therapy" ]}
                    {[ plain_md5 "Insulin lowers blood glucose." ]}
                    "2025-01-01T00:00:00" 1)
           1 0 0 0 [] [] [] [] 0.

(** A search tool that hands back four results when asked for three. *)
Definition four_hits : list web_hit :=
  [ WebHit (Some "Metformin is a first-line drug.") (Some "https://www.cdc.gov/a")
           (Some "Metformin") (Some 0.75%float);
    WebHit (Some "Insulin lowers blood glucose.") (Some "https://www.nih.gov/b")
           (Some "Insulin") (Some 0.5%float);
    WebHit (Some "Exercise improves sensitivity.") (Some "https://www.mayoclinic.org/c")
           (Some "Exercise") (Some 0.5%float);
    WebHit (Some "Fibre slows absorption.") (Some "https://diabetes.org/d")
           (Some "Diet") (Some 0.25%float) ].

Definition generous_tool (k : nat) (query : string) : outcome (list web_hit) := Ok four_hits.

Definition two_places (f : float) : string :=
  if PrimFloat.eqb f 0.75%float then "0.75"
  else if PrimFloat.eqb f 0.5%float then "0.50"
  else if PrimFloat.eqb f 0.25%float then "0.25"
  else "0.00".

(** An environment without a knowledge-base identifier in which
    [DIABETES_KB_MIN_SCORE] is set to [high]. *)
Definition unconfigured_high : kb_config :=
  KbConfig EmptyString "us-east-1"
    (Raise (Exn "ValueError" "could not convert string to float: 'high'")).

(** An environment in which no variable is set. *)
Definition unconfigured : kb_config := KbConfig EmptyString "us-east-1" (Ok 0.5%float).

Definition no_passages (kb region question : string) : outcome (option (list kb_hit)) :=
  Ok None.

End Examples.

(* ===================================================================== *)
(** * Vocabulary of the statements about a run of the scraper           *)
(* ===================================================================== *)

(** Vocabulary for the statements about a run of the scraper. *)
Module ScraperTerms.

Import Scraper.

(** The documents a state accounts for: skipped, written as new, written
    as an update, or reported as an error. *)
Definition handled (st : run_state) : Z :=
  skipped_existing st + new_documents_scraped st + updated_documents st
  + Z.of_nat (length (errors st)).

(** The content hash a write carries in its metadata. *)
Definition carries_hash (put : s3_put) (h : string) : Prop :=
  In ("content-hash", h) (put_metadata put).

(** [st] is reached from [st0] by writing the objects [written]: the log
    only grows, the tracker only grows, and counters, key lists and
    tracker total move together with the writes. *)
Record reached_by (written : list s3_put) (st0 st : run_state) : Prop := ReachedBy {
  log_grows : s3_log st = s3_log st0 ++ written;
  urls_grow : url_hashes (tracker st0) ⊆ url_hashes (tracker st);
  contents_grow : content_hashes (tracker st0) ⊆ content_hashes (tracker st);
  total_counts_writes :
    total_documents (tracker st) = (total_documents (tracker st0) + Z.of_nat (length written))%Z;
  last_run_kept : last_run (tracker st) = last_run (tracker st0);
  quiet_tracker : written = [] -> tracker st = tracker st0;
  clock_counts_writes : clock st = (clock st0 + Z.of_nat (length written))%Z;
  written_tracked :
    Forall (fun put => exists h, carries_hash put h /\ h ∈ content_hashes (tracker st)) written;
  created_counted :
    (new_documents_scraped st - new_documents_scraped st0)%Z
    = Z.of_nat (length (s3_objects_created st) - length (s3_objects_created st0));
  updated_counted :
    (updated_documents st - updated_documents st0)%Z
    = Z.of_nat (length (s3_objects_updated st) - length (s3_objects_updated st0));
  created_extends : exists keys, s3_objects_created st = s3_objects_created st0 ++ keys;
  updated_extends : exists keys, s3_objects_updated st = s3_objects_updated st0 ++ keys;
  keys_listed :
    Forall (fun put => In (put_key put) (s3_objects_created st)
                       \/ In (put_key put) (s3_objects_updated st)) written;
  writes_counted :
    Z.of_nat (length written)
    = (new_documents_scraped st - new_documents_scraped st0
       + (updated_documents st - updated_documents st0))%Z }.

(** How the search keeps a result of the API, given the tracker: flagged
    as new when its address is not known, flagged as updated when the
    address is known and the content is not. *)
Inductive keeps (md5_hexdigest : string -> string) (tr : ContentTracker) (r : hit)
    : hit -> Prop :=
| keep_new (u : string) :
    r !! "url" = Some (JStr u) ->
    Py.contains "webmd.com" (Py.lower u) = true ->
    md5_hexdigest u ∉ url_hashes tr ->
    keeps md5_hexdigest tr r (<["is_new" := JBool true]> r)
| keep_updated (u c : string) :
    r !! "url" = Some (JStr u) ->
    Py.contains "webmd.com" (Py.lower u) = true ->
    md5_hexdigest u ∈ url_hashes tr ->
    content_of r = JStr c ->
    md5_hexdigest c ∉ content_hashes tr ->
    keeps md5_hexdigest tr r (<["is_updated" := JBool true]> r).

(** A value that is no string. *)
Definition not_a_string (v : jval) : Prop := forall s, v <> JStr s.

(** A character of the ASCII range. *)
Definition is_ascii (c : ascii) : bool := (nat_of_ascii c <? 128)%nat.

(** The characters left in a cleaned title. *)
Definition key_char (c : ascii) : bool :=
  Py.isalnum c || Ascii.eqb c "-" || Ascii.eqb c "_".

(** A write the storage service took, into the bucket of the run. *)
Definition accepted (s3_put_error : s3_put -> option exn) (bucket_name : string)
    (put : s3_put) : Prop :=
  s3_put_error put = None /\ put_bucket put = bucket_name.

(** The error a query reports when the environment has no API key. *)
Definition search_failure (query : string) : string :=
  "Search failed for '" +:+ query +:+ "': TAVILY_API_KEY environment variable not set".

(** The write of the tracker at the end of a run. *)
Definition tracker_put (bucket_name : string) (t : ContentTracker) : s3_put :=
  S3Put bucket_name tracker_key (TrackerBody t) "application/json" [].

(** Two results with the same address, content and title. *)
Definition same_document (d1 d2 : hit) : Prop :=
  d1 !! "url" = d2 !! "url" /\ content_of d1 = content_of d2 /\ d1 !! "title" = d2 !! "title".

(** [st'] differs from [st] in nothing that is stored or tracked. *)
Definition quiet (st st' : run_state) : Prop :=
  tracker st' = tracker st /\ s3_log st' = s3_log st
  /\ new_documents_scraped st' = new_documents_scraped st
  /\ updated_documents st' = updated_documents st
  /\ s3_objects_created st' = s3_objects_created st
  /\ s3_objects_updated st' = s3_objects_updated st.

(** The tracker [tr] knows at least what [tr0] knows. *)
Definition knows_more (tr0 tr : ContentTracker) : Prop :=
  url_hashes tr0 ⊆ url_hashes tr /\ content_hashes tr0 ⊆ content_hashes tr.

(** A result of the API for a document of the site whose content the
    tracker knows, and the test that its address is new to the tracker. *)
Definition known_content (md5_hexdigest : string -> string) (tr : ContentTracker) (r : hit)
    : Prop :=
  exists u c,
    r !! "url" = Some (JStr u) /\ Py.contains "webmd.com" (Py.lower u) = true /\
    content_of r = JStr c /\ md5_hexdigest c ∈ content_hashes tr.

Definition at_new_address (md5_hexdigest : string -> string) (tr : ContentTracker) (r : hit)
    : bool :=
  match r !! "url" with
  | Some (JStr u) => negb (bool_decide (md5_hexdigest u ∈ url_hashes tr))
  | _ => false
  end.

Section Later.
Variable md5_hexdigest : string -> string.
Variables isoformat strftime_stamp : Z -> string.
Variable str_of_number : jval -> string.
Variable tavily_api_key : option string.
Variable tavily_post : string -> nat -> outcome (list hit).
Variable s3_put_error : s3_put -> option exn.
Variables bucket_name s3_prefix : string.
Variable max_results_per_query : nat.
Variable force_update : bool.

(** The states a run can be in after the state [st]: any number of
    further passes of the loop over results, of searches counted, of
    errors recorded and of whole queries, in any order. *)
Inductive later_in_run (st : run_state) : run_state -> Prop :=
| later_now : later_in_run st st
| later_pass (s : run_state) (query : string) (result : hit) :
    later_in_run st s ->
    later_in_run st
      (process_result md5_hexdigest isoformat strftime_stamp str_of_number s3_put_error
         bucket_name s3_prefix query force_update s result)
| later_found (s : run_state) (n : Z) :
    later_in_run st s -> later_in_run st (add_found n s)
| later_error (s : run_state) (msg : string) :
    later_in_run st s -> later_in_run st (add_error msg s)
| later_query (s : run_state) (query : string) :
    later_in_run st s ->
    later_in_run st
      (process_query md5_hexdigest isoformat strftime_stamp str_of_number tavily_api_key
         tavily_post s3_put_error bucket_name s3_prefix max_results_per_query force_update
         s query).

End Later.

End ScraperTerms.

(* ===================================================================== *)
(** * Vocabulary of the further statements about the tools              *)
(* ===================================================================== *)

(** Vocabulary for further statements about the tools. *)
Module ToolTerms.

Import Re Tools.

(** A pattern that does not look at what follows the match. *)
Fixpoint plain (r : regex) : bool :=
  match r with
  | Lit _ | Cls _ | Rep _ _ _ => true
  | Cat r1 r2 | Alt r1 r2 => plain r1 && plain r2
  | Opt r1 | Grp _ r1 => plain r1
  | Ahead _ | EndZ => false
  end.

(** The list under [emergency_types] in a dictionary the detector returns. *)
Definition emergency_types_of (d : gmap string pyval) : list string :=
  match d !! "emergency_types" with
  | Some (VStrs types) => types
  | _ => []
  end.

(** The list under [safety_warnings] in a dictionary the checker returns. *)
Definition safety_warnings_of (d : gmap string pyval) : list string :=
  match d !! "safety_warnings" with
  | Some (VStrs ws) => ws
  | _ => []
  end.

(** The warnings one table entry gives for a medication and a lowercased
    query, in the order they are appended. *)
Definition entry_warnings (medication query_lower : string) (info : med_info) : list string :=
  map (contraindication_warning medication)
      (List.filter (fun c => Py.contains c query_lower) (contraindications info))
  ++ map (interaction_alert medication)
         (List.filter (fun i => Py.contains i query_lower) (interactions info))
  ++ (if Py.any (fun kw => Py.contains kw query_lower) warning_keywords
      then [general_note info] else []).

(** Why a warning is given: the medication names an entry of the table
    and the query names one of its keywords, or a general keyword. *)
Inductive warning_cause (medications : list string) (query : string) : string -> Prop :=
| cause_contraindication (medication known c : string) (info : med_info) :
    In medication medications -> In (known, info) interaction_db ->
    Py.contains known (Py.lower medication) = true ->
    In c (contraindications info) -> Py.contains c (Py.lower query) = true ->
    warning_cause medications query (contraindication_warning medication c)
| cause_interaction (medication known i : string) (info : med_info) :
    In medication medications -> In (known, info) interaction_db ->
    Py.contains known (Py.lower medication) = true ->
    In i (interactions info) -> Py.contains i (Py.lower query) = true ->
    warning_cause medications query (interaction_alert medication i)
| cause_general (medication known kw : string) (info : med_info) :
    In medication medications -> In (known, info) interaction_db ->
    Py.contains known (Py.lower medication) = true ->
    In kw warning_keywords -> Py.contains kw (Py.lower query) = true ->
    warning_cause medications query (general_note info).

(** One block of the text [query_diabetes_knowledge] returns. *)
Definition kb_block (format_2f : float -> string) (ranked : nat * kb_hit) : string :=
  "**Source " +:+ Py.str_of_nat (fst ranked) +:+ "** (relevance: "
  +:+ format_2f (default 0%float (kb_score (snd ranked))) +:+ ")
" +:+ default EmptyString (kb_text (snd ranked)) +:+ "

" +:+ "*Reference: " +:+ default "Unknown source" (kb_uri (snd ranked)) +:+ "*

".

(** The passages with their ranks, counted from [idx]. *)
Definition ranked_from (idx : nat) (hits : list kb_hit) : list (nat * kb_hit) :=
  combine (seq idx (length hits)) hits.

(** A passage is shown unless its score is below the minimum. *)
Definition shown (min : float) (ranked : nat * kb_hit) : bool :=
  negb (PrimFloat.ltb (default 0%float (kb_score (snd ranked))) min).

(** The retrieval text the scorer expects: blocks made of a score line
    and a content, written one after the other. *)
Definition render_block (block : string * string) : string :=
  "Score:" +:+ fst block +:+ String Py.nl "Content:" +:+ snd block.

Definition render_blocks (blocks : list (string * string)) : string :=
  String.concat EmptyString (map render_block blocks).

(** A block the extraction reads back: the score stays on its line and
    the content does not contain the marker of the next block. *)
Definition readable (block : string * string) : Prop :=
  forallb dot (list_ascii_of_string (fst block)) = true
  /\ Py.contains "Score:" (snd block) = false.

(** A block of ASCII text, on which [\s] and stripping are Python's. *)
Definition ascii_block (block : string * string) : Prop :=
  Py.ascii_text (fst block) /\ Py.ascii_text (snd block).

(** The lookahead [(?=Score:|\Z)] at a position. *)
Definition at_block_end (s : list ascii) : bool :=
  match strip_prefix (list_ascii_of_string "Score:") s with
  | Some _ => true
  | None => match s with [] => true | _ :: _ => false end
  end.







End ToolTerms.

(* ===================================================================== *)
(** * [src/api/tools.py]: [query_diabetes_with_generation]                *)
(* ===================================================================== *)

Module Generation.

(** The part of a [retrieve_and_generate] response the tool reads: the
    text under [output], when there is one, and for each citation the
    storage address of each retrieved reference, when it has one. *)
Record generation := Gen {
  gen_text : option string;
  gen_citations : list (list (option string)) }.

Inductive gen_call :=
| CallRetrieveAndGenerate (knowledge_base_id model_arn question : string).

Definition model_arn_of (aws_region : string) : string :=
  "arn:aws:bedrock:" +:+ aws_region
  +:+ "::foundation-model/anthropic.claude-3-5-sonnet-20241022-v2:0".

(** One source line, [f"{idx}. {source_uri}\n"]. *)
Definition source_line (idx : nat) (reference : option string) : string :=
  Py.str_of_nat idx +:+ ". " +:+ default "Unknown source" reference +:+ "
".

(** [for reference in citation.get("retrievedReferences", []):] *)
Fixpoint cite_references (idx : nat) (references : list (option string))
    (answer_text : string) : string :=
  match references with
  | [] => answer_text
  | reference :: rest =>
      cite_references idx rest (answer_text +:+ source_line idx reference)
  end.

(** [for idx, citation in enumerate(citations, 1):] *)
Fixpoint cite (idx : nat) (citations : list (list (option string))) (answer_text : string)
    : string :=
  match citations with
  | [] => answer_text
  | citation :: rest => cite (S idx) rest (cite_references idx citation answer_text)
  end.

Section Generate.

(** [os.environ.get("DIABETES_KB_ID", "")] and
    [os.environ.get("AWS_REGION", "us-east-1")] *)
Variables knowledge_base_id aws_region : string.

(** [bedrock_agent.retrieve_and_generate(...)] for a knowledge base, a
    model and a question. *)
Variable retrieve_and_generate : string -> string -> string -> outcome generation.

Definition query_diabetes_with_generation (question : string) : string * list gen_call :=
  let model_arn := model_arn_of aws_region in
  if negb (Py.truthy knowledge_base_id)
  then ("Diabetes knowledge base is not configured. Please contact your administrator.", [])
  else
    let call := CallRetrieveAndGenerate knowledge_base_id model_arn question in
    match retrieve_and_generate knowledge_base_id model_arn question with
    | Ok response =>
        let answer_text := default "No answer generated." (gen_text response) in
        match gen_citations response with
        | [] => (answer_text, [call])
        | citations =>
            (cite 1 citations (answer_text +:+ "

**Sources:**
"), [call])
        end
    | Raise e => ("Error generating diabetes answer: " +:+ exn_str e, [call])
    end.

End Generate.

(** The source lines of a list of citations, numbered from [idx]: one
    line per reference, numbered by its citation. *)
Definition source_lines (idx : nat) (citations : list (list (option string))) : list string :=
  flat_map (fun numbered => map (source_line (fst numbered)) (snd numbered))
           (combine (seq idx (length citations)) citations).

End Generation.

(* ===================================================================== *)
(** * [src/api/utils.py]: chunks of the response stream                   *)
(* ===================================================================== *)

Module Utils.

Definition dquote : ascii := "034"%char.
Definition backslash : ascii := "092"%char.

Definition hex_digit (n : nat) : ascii :=
  if (n <? 10)%nat then ascii_of_nat (48 + n) else ascii_of_nat (87 + n).

(** One character inside a JSON string, as [json.dumps] writes it with
    [ensure_ascii=False]: the quote, the backslash and the control
    characters are escaped, everything else is written as it is. *)
Definition json_escape_char (c : ascii) : string :=
  let n := nat_of_ascii c in
  if (n =? 34)%nat then String backslash (String dquote EmptyString)
  else if (n =? 92)%nat then String backslash (String backslash EmptyString)
  else if (n =? 10)%nat then String backslash "n"
  else if (n =? 13)%nat then String backslash "r"
  else if (n =? 9)%nat then String backslash "t"
  else if (n =? 8)%nat then String backslash "b"
  else if (n =? 12)%nat then String backslash "f"
  else if (n <? 32)%nat
       then String backslash
              (String "u" (String "0" (String "0"
                 (String (hex_digit (n / 16)) (String (hex_digit (n mod 16)) EmptyString)))))
  else String c EmptyString.

Fixpoint json_escape (s : string) : string :=
  match s with
  | EmptyString => EmptyString
  | String c s' => json_escape_char c +:+ json_escape s'
  end.

(** [json.dumps({"text": text}, ensure_ascii=False)] *)
Definition json_dumps_text (text : string) : string :=
  "{" +:+ String dquote "text" +:+ String dquote ": " +:+ String dquote (json_escape text)
  +:+ String dquote "}".

(** [stream_chunk] *)
Definition stream_chunk (text : string) : string :=
  json_dumps_text text +:+ String Py.nl EmptyString.

(** Reading back one escaped character from the head of a text: the
    character and what follows it. *)
Definition hex_value (c : ascii) : nat :=
  let n := nat_of_ascii c in
  if (n <? 58)%nat then n - 48 else n - 87.

Definition json_unescape_head (s : string) : option (ascii * string) :=
  match s with
  | EmptyString => None
  | String c rest =>
      if Ascii.eqb c backslash then
        match rest with
        | String e rest' =>
            if Ascii.eqb e "n" then Some ("010"%char, rest')
            else if Ascii.eqb e "r" then Some ("013"%char, rest')
            else if Ascii.eqb e "t" then Some ("009"%char, rest')
            else if Ascii.eqb e "b" then Some ("008"%char, rest')
            else if Ascii.eqb e "f" then Some ("012"%char, rest')
            else if Ascii.eqb e "u" then
              match rest' with
              | String _ (String _ (String h (String l rest''))) =>
                  Some (ascii_of_nat (16 * hex_value h + hex_value l), rest'')
              | _ => None
              end
            else Some (e, rest')
        | EmptyString => None
        end
      else Some (c, rest)
  end.

End Utils.

(* ===================================================================== *)
(** * Further data for the examples                                     *)
(* ===================================================================== *)

(** Further data for the examples. *)
Module Samples.

Import Tools Scraper Examples Generation.

Definition fixed_iso (t : Z) : string := "2025-01-08T00:00:00".
Definition fixed_stamp (t : Z) : string := "20250108_000000".
Definition no_number (v : jval) : string := "0".

Definition storage_up (put : s3_put) : option exn := None.
Definition storage_down (put : s3_put) : option exn :=
  Some (Exn "ClientError" "AccessDenied").
Definition no_tracker (key : string) : option ContentTracker := None.

(** The state of a run that starts with nothing known. *)
Definition fresh : run_state := RunState empty_tracker 0 0 0 0 [] [] [] [] 0.

(** [fresh] after the article went through the loop. *)
Definition article_stored : run_state :=
  process_result plain_md5 fixed_iso fixed_stamp no_number storage_up
    "mihc-diabetes-kb" "diabetes-webmd" "diabetes treatment" false fresh found_article.

(** A result of the API whose [url] is [null]. *)
Definition without_address : hit := {[ "url" := JNull; "title" := JStr "Insulin" ]}.

Definition broken_batch (search_query : string) (max_results : nat) : outcome (list hit) :=
  Ok [article; without_address].

(** A run with [force_update=True], one without an API key and one
    against a storage service that rejects every write. *)
Definition forced_run : IncrementalScrapingResult * ContentTracker * list s3_put :=
  incremental_scrape_diabetes_webmd plain_md5 fixed_iso fixed_stamp no_number
    (Some "tvly-key") one_article storage_up no_tracker "mihc-diabetes-kb"
    (Some ["insulin"]) 10 "diabetes-webmd" true [] 0.

Definition keyless_run : IncrementalScrapingResult * ContentTracker * list s3_put :=
  incremental_scrape_diabetes_webmd plain_md5 fixed_iso fixed_stamp no_number
    None one_article storage_up no_tracker "mihc-diabetes-kb"
    (Some ["insulin"; "metformin"]) 10 "diabetes-webmd" false [] 0.

Definition rejected_run : IncrementalScrapingResult * ContentTracker * list s3_put :=
  incremental_scrape_diabetes_webmd plain_md5 fixed_iso fixed_stamp no_number
    (Some "tvly-key") one_article storage_down no_tracker "mihc-diabetes-kb"
    (Some ["insulin"]) 10 "diabetes-webmd" false [] 0.

(** A scorer that finds every context relevant. *)
Definition relevant (question : string) (contexts : list string) : outcome float :=
  Ok 0.75%float.

Definition two_blocks : list (string * string) :=
  [ (" 0.91", " Insulin lowers blood glucose.
"); (" 0.40", " Metformin is taken with meals.") ].

(** A configured knowledge base that returns one passage above and one
    below the minimum score. *)
Definition configured : kb_config := KbConfig "KB12345678" "us-east-1" (Ok 0.5%float).

Definition high_and_low : list kb_hit :=
  [ KbHit (Some 0.25%float) (Some "Exercise helps.") (Some "s3://kb/exercise.txt");
    KbHit (Some 0.75%float) (Some "Insulin lowers blood glucose.") (Some "s3://kb/insulin.txt") ].

Definition retrieves_two (kb region question : string) : outcome (option (list kb_hit)) :=
  Ok (Some high_and_low).

(** A generated answer with two citations, the first with two
    references and the second with one that has no address. *)
Definition cited_answer : generation :=
  Gen (Some "Insulin lowers blood glucose.")
      [ [Some "s3://kb/insulin.txt"; Some "s3://kb/basics.txt"]; [None] ].

Definition generates (kb model_arn question : string) : outcome generation := Ok cited_answer.

(** A first run that starts with nothing known and stores the article,
    and a second run, a week later, from the tracker the first one
    saved. *)
Definition first_run : IncrementalScrapingResult * ContentTracker * list s3_put :=
  incremental_scrape_diabetes_webmd plain_md5 fixed_iso fixed_stamp no_number
    (Some "tvly-key") one_article storage_up no_tracker "mihc-diabetes-kb"
    (Some ["insulin"]) 10 "diabetes-webmd" false [] 0.

Definition saved_by_first_run (key : string) : option ContentTracker :=
  Some (snd (fst first_run)).

Definition second_run : IncrementalScrapingResult * ContentTracker * list s3_put :=
  incremental_scrape_diabetes_webmd plain_md5 fixed_iso fixed_stamp no_number
    (Some "tvly-key") one_article storage_up saved_by_first_run "mihc-diabetes-kb"
    (Some ["insulin"]) 10 "diabetes-webmd" false (snd first_run) 604800.

End Samples.

(* ===================================================================== *)
(** * The matcher agrees with what a pattern denotes                      *)
(* ===================================================================== *)

Module ReFacts.

Import Re.

Lemma strip_prefix_app (l s : list ascii) : strip_prefix l (l ++ s) = Some s.
Proof.
  induction l as [|a l IH]; simpl; [reflexivity|].
  rewrite Ascii.eqb_refl. exact IH.
Qed.

Lemma strip_prefix_inv (l s s' : list ascii) :
  strip_prefix l s = Some s' -> s = l ++ s'.
Proof.
  revert s. induction l as [|a l IH]; intros [|b s]; simpl; intros H;
    try congruence.
  destruct (Ascii.eqb a b) eqn:E; [|discriminate].
  apply Ascii.eqb_eq in E. subst b. f_equal. apply IH, H.
Qed.

Section RepetitionFacts.
Context {R : Type} (p : ascii -> bool).

Lemma rep_min_inv n s (k : list ascii -> option R) x :
  rep_min p n s k = Some x ->
  exists s1 s2, s = s1 ++ s2 /\ length s1 = n /\ forallb p s1 = true /\ k s2 = Some x.
Proof.
  revert s. induction n as [|n IH]; intros s H; simpl in H.
  - exists [], s. auto.
  - destruct s as [|c s]; [discriminate|].
    destruct (p c) eqn:Hc; [|discriminate].
    destruct (IH _ H) as (s1 & s2 & -> & Hl & Hp & Hk).
    exists (c :: s1), s2. simpl. rewrite Hc, Hp, Hl. auto.
Qed.

Lemma rep_lazy_inv (k : list ascii -> option R) s x :
  rep_lazy p k s = Some x ->
  exists s1 s2, s = s1 ++ s2 /\ forallb p s1 = true /\ k s2 = Some x.
Proof.
  induction s as [|c s IH]; simpl; intros H.
  - destruct (k []) eqn:Hk; [|discriminate]. exists [], []. rewrite Hk. auto.
  - destruct (k (c :: s)) eqn:Hk.
    + exists [], (c :: s). rewrite Hk. auto.
    + destruct (p c) eqn:Hc; [|discriminate].
      destruct (IH H) as (s1 & s2 & -> & Hp & Hk2).
      exists (c :: s1), s2. simpl. rewrite Hc, Hp. auto.
Qed.

Lemma rep_greedy_inv (k : list ascii -> option R) s x :
  rep_greedy p k s = Some x ->
  exists s1 s2, s = s1 ++ s2 /\ forallb p s1 = true /\ k s2 = Some x.
Proof.
  induction s as [|c s IH]; simpl; intros H.
  - exists [], []. auto.
  - destruct (p c) eqn:Hc.
    + destruct (rep_greedy p k s) eqn:Hg.
      * destruct (IH H) as (s1 & s2 & -> & Hp & Hk2).
        exists (c :: s1), s2. simpl. rewrite Hc, Hp. auto.
      * exists [], (c :: s). auto.
    + exists [], (c :: s). auto.
Qed.

Lemma rep_min_app n s1 s2 (k : list ascii -> option R) :
  length s1 = n -> forallb p s1 = true -> rep_min p n (s1 ++ s2) k = k s2.
Proof.
  revert s1. induction n as [|n IH]; intros [|c s1]; simpl; intros Hl Hp;
    try discriminate; [reflexivity|].
  apply andb_prop in Hp as [-> Hp]. apply IH; [lia | exact Hp].
Qed.

Lemma rep_lazy_app (k : list ascii -> option R) s1 s2 :
  forallb p s1 = true -> is_Some (k s2) -> is_Some (rep_lazy p k (s1 ++ s2)).
Proof.
  intros Hp Hk. induction s1 as [|c s1 IH]; simpl.
  - destruct s2; simpl; destruct Hk as [x ->]; eauto.
  - simpl in Hp. apply andb_prop in Hp as [-> Hp].
    destruct (k (c :: s1 ++ s2)); eauto.
Qed.

Lemma rep_greedy_app (k : list ascii -> option R) s1 s2 :
  forallb p s1 = true -> is_Some (k s2) -> is_Some (rep_greedy p k (s1 ++ s2)).
Proof.
  intros Hp Hk. induction s1 as [|c s1 IH]; simpl.
  - destruct s2 as [|c s2]; simpl; [exact Hk|].
    destruct (p c); [|exact Hk].
    destruct (rep_greedy p k s2); eauto.
  - simpl in Hp. apply andb_prop in Hp as [-> Hp].
    destruct (IH Hp) as [x ->]. eauto.
Qed.

End RepetitionFacts.

(** Soundness: a successful run of the matcher consumed a text the
    pattern denotes, and the continuation succeeded on what is left. *)
Lemma m_sound (r : regex) :
  forall (R : Type) (st : mstate) (k : mstate -> option R) (x : R),
    m r st k = Some x ->
    exists s1 s2 cs,
      rest st = s1 ++ s2 /\ matches r s1 s2 /\ k (MState s2 cs) = Some x.
Proof.
  induction r as [l|p|r1 IH1 r2 IH2|r1 IH1 r2 IH2|n g p|r1 IH1|i r1 IH1|r1 IH1|];
    intros R st k x H; simpl in H.
  - destruct (strip_prefix _ _) as [s'|] eqn:E; [|discriminate].
    apply strip_prefix_inv in E. exists (list_ascii_of_string l), s', (caps st).
    simpl. auto.
  - destruct (rest st) as [|c s'] eqn:E; [discriminate|].
    destruct (p c) eqn:Hc; [|discriminate].
    exists [c], s', (caps st). simpl. eauto 6.
  - destruct (IH1 _ _ _ _ H) as (s1 & s2 & cs & E & M1 & H2).
    destruct (IH2 _ _ _ _ H2) as (t1 & t2 & cs' & E2 & M2 & H3). simpl in E2. subst s2.
    exists (s1 ++ t1), t2, cs'. rewrite <- app_assoc. simpl. eauto 8.
  - destruct (m r1 st k) eqn:E1.
    + inversion H; subst. destruct (IH1 _ _ _ _ E1) as (s1 & s2 & cs & ? & ? & ?).
      exists s1, s2, cs. simpl. auto.
    + destruct (IH2 _ _ _ _ H) as (s1 & s2 & cs & ? & ? & ?).
      exists s1, s2, cs. simpl. auto.
  - apply rep_min_inv in H as (s1 & s2 & E & Hl & Hp & H).
    assert (exists t1 t2, s2 = t1 ++ t2 /\ forallb p t1 = true
                          /\ k (MState t2 (caps st)) = Some x) as (t1 & t2 & -> & Hp2 & Hk).
    { destruct g; [apply rep_greedy_inv in H | apply rep_lazy_inv in H]; exact H. }
    exists (s1 ++ t1), t2, (caps st). rewrite <- app_assoc. simpl.
    rewrite length_app, forallb_app, Hp, Hp2. repeat split; auto; lia.
  - destruct (m r1 st k) eqn:E1.
    + inversion H; subst. destruct (IH1 _ _ _ _ E1) as (s1 & s2 & cs & ? & ? & ?).
      exists s1, s2, cs. simpl. auto.
    + exists [], (rest st), (caps st). simpl. destruct st; auto.
  - destruct (IH1 _ _ _ _ H) as (s1 & s2 & cs & E & M1 & Hk). simpl in Hk.
    exists s1, s2. eexists. simpl. eauto.
  - destruct (m r1 st Some) as [st'|] eqn:E1; [|discriminate].
    destruct (IH1 _ _ _ _ E1) as (s1 & s2 & cs & E & M1 & _).
    exists [], (rest st), (caps st'). simpl. eauto 8.
  - destruct (rest st) eqn:E; [|discriminate].
    exists [], [], (caps st). simpl. destruct st; simpl in *; subst. auto.
Qed.

(** Completeness: when the pattern denotes a prefix of the text and the
    continuation accepts what follows, the matcher succeeds. *)
Lemma m_complete (r : regex) :
  forall (R : Type) (k : mstate -> option R) (s1 s2 : list ascii),
    matches r s1 s2 ->
    (forall cs, is_Some (k (MState s2 cs))) ->
    forall cs, is_Some (m r (MState (s1 ++ s2) cs) k).
Proof.
  induction r as [l|p|r1 IH1 r2 IH2|r1 IH1 r2 IH2|n g p|r1 IH1|i r1 IH1|r1 IH1|];
    intros R k s1 s2 M Hk cs; simpl in M; simpl.
  - subst s1. rewrite strip_prefix_app. apply Hk.
  - destruct M as (c & -> & Hc). simpl. rewrite Hc. apply Hk.
  - destruct M as (t1 & t2 & -> & M1 & M2). rewrite <- app_assoc.
    apply IH1; [exact M1|]. intros cs'. apply IH2; assumption.
  - destruct M as [M|M].
    + destruct (IH1 _ k _ _ M Hk cs) as [x ->]. eauto.
    + destruct (m r1 _ k); [eauto|]. apply IH2; assumption.
  - destruct M as [Hl Hp].
    rewrite <- (take_drop n s1), <- app_assoc.
    rewrite forallb_forall in Hp.
    assert (Hp1 : forallb p (take n s1) = true).
    { apply forallb_forall. intros c Hc. apply Hp.
      rewrite <- (take_drop n s1). apply in_or_app. auto. }
    assert (Hp2 : forallb p (drop n s1) = true).
    { apply forallb_forall. intros c Hc. apply Hp.
      rewrite <- (take_drop n s1). apply in_or_app. auto. }
    rewrite rep_min_app; [|rewrite length_take; lia|exact Hp1].
    destruct g; [apply rep_greedy_app | apply rep_lazy_app]; auto.
  - destruct M as [->|M].
    + simpl. destruct (m r1 _ k); [eauto|]. apply Hk.
    + destruct (IH1 _ k _ _ M Hk cs) as [x ->]. eauto.
  - apply IH1; [exact M|]. intros cs'. simpl. apply Hk.
  - destruct M as (-> & t1 & t2 & -> & M). simpl.
    destruct (IH1 _ Some _ _ M (fun cs' => ltac:(eauto)) cs) as [st' ->].
    apply Hk.
  - destruct M as [-> ->]. simpl. apply Hk.
Qed.

(** [search_from] finds a match exactly when the pattern occurs. *)
Lemma search_from_sound (r : regex) (s start : list ascii) (st : mstate) :
  search_from r s = Some (start, st) ->
  exists pre mid, s = pre ++ start /\ start = mid ++ rest st /\ matches r mid (rest st).
Proof.
  induction s as [|c s IH]; simpl.
  - destruct (m r (MState [] []) Some) as [st'|] eqn:E; [|discriminate].
    intros H. inversion H; subst.
    apply m_sound in E as (s1 & s2 & cs & E1 & M & Hs). inversion Hs; subst. simpl in *.
    exists [], s1. auto.
  - destruct (m r (MState (c :: s) []) Some) as [st'|] eqn:E.
    + intros H. inversion H; subst.
      apply m_sound in E as (s1 & s2 & cs & E1 & M & Hs). inversion Hs; subst. simpl in *.
      exists [], s1. auto.
    + intros H. destruct (IH H) as (pre & mid & -> & E2 & M).
      exists (c :: pre), mid. auto.
Qed.

Lemma search_from_complete (r : regex) (pre mid post : list ascii) :
  matches r mid post -> is_Some (search_from r (pre ++ mid ++ post)).
Proof.
  intros M. induction pre as [|c pre IH]; simpl.
  - destruct (m_complete r _ Some mid post M (fun cs => ltac:(eauto)) []) as [st E].
    destruct (mid ++ post); simpl; rewrite E; eauto.
  - destruct (m r _ Some); eauto.
Qed.

Lemma search_occurs (r : regex) (s : string) :
  search r s = true <-> occurs r (list_ascii_of_string s).
Proof.
  unfold search, occurs. split.
  - destruct (search_from r _) as [[start st]|] eqn:E; [|discriminate]. intros _.
    apply search_from_sound in E as (pre & mid & E1 & E2 & M).
    exists pre, mid, (rest st). rewrite <- E2. auto.
  - intros (pre & mid & post & -> & M).
    destruct (search_from_complete r pre mid post M) as [x ->]. reflexivity.
Qed.

End ReFacts.

(* ===================================================================== *)
(** * The emergency detector                                            *)
(* ===================================================================== *)

Module DetectorProofs.

Import Re Tools ReFacts Phrasing Examples.

Lemma list_ascii_of_string_app (a b : string) :
  list_ascii_of_string (a +:+ b) = list_ascii_of_string a ++ list_ascii_of_string b.
Proof. induction a as [|c a IH]; simpl; [reflexivity|]. now rewrite IH. Qed.

Lemma first_match_existsb (patterns : list regex) (q : string) :
  first_match patterns q = existsb (fun p => search p q) patterns.
Proof.
  induction patterns as [|p ps IH]; simpl; [reflexivity|].
  rewrite IH. destruct (search p q); reflexivity.
Qed.

Lemma first_match_occurs (patterns : list regex) (q : string) :
  first_match patterns q = true <->
  exists p, In p patterns /\ occurs p (list_ascii_of_string q).
Proof.
  rewrite first_match_existsb, existsb_exists.
  split; intros (p & Hp & H); exists p; split; auto; apply search_occurs; exact H.
Qed.

(** The detection loop keeps, in order, the categories one of whose
    patterns is found. *)
Lemma scan_loop (q : string) (table : list (string * list regex)) (acc : list string) :
  fold_left
    (fun detected entry =>
       if first_match (snd entry) q then detected ++ [fst entry] else detected)
    table acc
  = acc ++ map fst (List.filter (fun entry => first_match (snd entry) q) table).
Proof.
  revert acc. induction table as [|e table IH]; intros acc; simpl.
  - now rewrite app_nil_r.
  - rewrite IH. destruct (first_match (snd e) q); simpl; [|reflexivity].
    now rewrite <- app_assoc.
Qed.

Lemma scan_emergencies_filter (q : string) :
  scan_emergencies q
  = map fst (List.filter (fun entry => first_match (snd entry) q) emergency_patterns).
Proof. unfold scan_emergencies. now rewrite scan_loop. Qed.

Lemma in_scan_emergencies (q cat : string) :
  In cat (scan_emergencies q) <->
  exists patterns, In (cat, patterns) emergency_patterns /\ first_match patterns q = true.
Proof.
  rewrite scan_emergencies_filter, in_map_iff. split.
  - intros ([c ps] & <- & H). apply filter_In in H as [H1 H2]. eauto.
  - intros (ps & H1 & H2). exists (cat, ps). split; [reflexivity|].
    apply filter_In. auto.
Qed.

Lemma value_from_bound (ds : string) : forall acc n,
  value_from acc ds = Some n -> (n < (acc + 1) * 10 ^ N.of_nat (String.length ds))%N.
Proof.
  induction ds as [|c ds IH]; simpl; intros acc n H.
  - inversion H; subst. simpl. lia.
  - destruct (Py.is_digit c) eqn:Hc; [|discriminate].
    apply IH in H.
    assert (Hd : (N_of_ascii c - 48 <= 9)%N).
    { unfold Py.is_digit in Hc. apply andb_prop in Hc as [_ Hc].
      apply Nat.leb_le in Hc. unfold nat_of_ascii in Hc. lia. }
    rewrite Nat2N.inj_succ, N.pow_succ_r'. nia.
Qed.

Lemma value_from_digits (ds : string) : forall acc n,
  value_from acc ds = Some n -> all_digits ds.
Proof.
  unfold all_digits. induction ds as [|c ds IH]; simpl; intros acc n H; [reflexivity|].
  destruct (Py.is_digit c); [|discriminate]. simpl. eapply IH, H.
Qed.

Lemma length_list_ascii (s : string) : length (list_ascii_of_string s) = String.length s.
Proof. induction s; simpl; auto. Qed.

(** A reading above 400 has at least three digits. *)
Lemma above_400_three_digits (ds : string) (n : N) :
  decimal_value ds = Some n -> (400 < n)%N ->
  (3 <= String.length ds)%nat /\ all_digits ds.
Proof.
  intros H Hn. assert (Hv : value_from 0 ds = Some n) by (destruct ds; [discriminate|exact H]).
  split; [|eapply value_from_digits, Hv].
  apply value_from_bound in Hv.
  destruct ds as [|a [|b [|c ds]]]; simpl in *; lia.
Qed.

Lemma matches_lit (l : string) (after : list ascii) :
  matches (Lit l) (list_ascii_of_string l) after.
Proof. reflexivity. Qed.

Lemma matches_digits (ds : string) (i : nat) (after : list ascii) :
  (3 <= String.length ds)%nat -> all_digits ds ->
  matches (Grp i (Rep 3 true digit)) (list_ascii_of_string ds) after.
Proof. intros Hl Hd. simpl. rewrite length_list_ascii. auto. Qed.

Lemma matches_cat r1 r2 s1 s2 after :
  matches r1 s1 (s2 ++ after) -> matches r2 s2 after -> matches (r1 +++ r2) (s1 ++ s2) after.
Proof. intros H1 H2. simpl. eauto. Qed.

(** Each phrasing is found by one of the hyperglycemia patterns, whatever
    the three or more digits are. *)
Lemma phrasing_found (ds q : string) :
  (3 <= String.length ds)%nat -> all_digits ds -> glucose_phrasing ds q ->
  first_match hyperglycemia_patterns q = true.
Proof.
  intros Hl Hd Hq. apply first_match_occurs. destruct Hq as [kw pre post Hkw|pre mid post Hmid|name pre mid post Hname Hmid].
  - eexists. split; [left; reflexivity|].
    exists (list_ascii_of_string pre),
      (list_ascii_of_string "blood sugar " ++ list_ascii_of_string kw
         ++ list_ascii_of_string " " ++ list_ascii_of_string ds),
      (list_ascii_of_string post).
    split.
    { rewrite !list_ascii_of_string_app, <- !app_assoc. reflexivity. }
    apply matches_cat; [apply matches_lit|].
    apply matches_cat; [|apply matches_cat; [apply matches_lit|apply matches_digits; auto]].
    simpl. simpl in Hkw. destruct Hkw as [<-|[<-|[<-|[]]]]; auto.
  - eexists. split; [right; left; reflexivity|].
    exists (list_ascii_of_string pre),
      (list_ascii_of_string "glucose" ++ list_ascii_of_string mid ++ list_ascii_of_string ds),
      (list_ascii_of_string post).
    split.
    { rewrite !list_ascii_of_string_app, <- !app_assoc. reflexivity. }
    apply matches_cat; [apply matches_lit|].
    apply matches_cat; [|apply matches_digits; auto].
    simpl. split; [lia|exact Hmid].
  - eexists. split; [right; right; left; reflexivity|].
    exists (list_ascii_of_string pre),
      (list_ascii_of_string ds ++ list_ascii_of_string mid ++ list_ascii_of_string name),
      (list_ascii_of_string post).
    split.
    { rewrite !list_ascii_of_string_app, <- !app_assoc. reflexivity. }
    apply matches_cat; [apply matches_digits; auto|].
    apply matches_cat; [simpl; split; [lia|exact Hmid]|].
    simpl. simpl in Hname. destruct Hname as [<-|[<-|[]]]; auto.
Qed.

(** What the detector returns once hyperglycemia is among the findings. *)
Lemma hyperglycemia_reported (query : string) :
  first_match hyperglycemia_patterns (Py.lower query) = true ->
  detect_emergency query !! "is_emergency" = Some (VBool true) /\
  exists types,
    detect_emergency query !! "emergency_types" = Some (VStrs types) /\
    In "severe_hyperglycemia" types.
Proof.
  intros H. unfold detect_emergency.
  assert (Hin : In "severe_hyperglycemia" (scan_emergencies (Py.lower query))).
  { apply in_scan_emergencies. exists hyperglycemia_patterns. split; [left; reflexivity|exact H]. }
  destruct (scan_emergencies (Py.lower query)) as [|t ts]; [destruct Hin|].
  split; [reflexivity|]. exists (t :: ts). split; [reflexivity|exact Hin].
Qed.

(** C3: a query that states, in one of the supported phrasings, a
    blood-glucose value above 400 is reported as an emergency with
    [severe_hyperglycemia] among the emergency types. *)
Theorem detect_emergency_above_400 (query ds : string) (n : N) :
  decimal_value ds = Some n ->
  (400 < n)%N ->
  glucose_phrasing ds (Py.lower query) ->
  detect_emergency query !! "is_emergency" = Some (VBool true) /\
  exists types,
    detect_emergency query !! "emergency_types" = Some (VStrs types) /\
    In "severe_hyperglycemia" types.
Proof.
  intros Hv Hn Hq. destruct (above_400_three_digits ds n Hv Hn) as [Hl Hd].
  apply hyperglycemia_reported. eapply phrasing_found; eauto.
Qed.

Lemma detect_emergency_above_400_witness :
  detect_emergency "My blood sugar OVER 450, help" !! "is_emergency" = Some (VBool true) /\
  exists types,
    detect_emergency "My blood sugar OVER 450, help" !! "emergency_types" = Some (VStrs types) /\
    In "severe_hyperglycemia" types.
Proof.
  apply (detect_emergency_above_400 "My blood sugar OVER 450, help" "450" 450%N).
  - reflexivity.
  - reflexivity.
  - exact (blood_sugar_over "450" "over" "my " ", help" (or_introl eq_refl)).
Defined.


(** C4: the hyperglycemia patterns accept any run of three or more
    digits, so a reading at or below 400 is reported as well: the query
    [blood sugar over 150] is one. *)
Theorem hyperglycemia_patterns_ignore_threshold :
  (forall query ds : string,
      (3 <= String.length ds)%nat -> all_digits ds ->
      glucose_phrasing ds (Py.lower query) ->
      detect_emergency query !! "is_emergency" = Some (VBool true) /\
      exists types,
        detect_emergency query !! "emergency_types" = Some (VStrs types) /\
        In "severe_hyperglycemia" types) /\
  (exists (query ds : string) (n : N),
      query = "blood sugar over 150" /\
      decimal_value ds = Some n /\ (n <= 400)%N /\
      glucose_phrasing ds (Py.lower query) /\
      detect_emergency query !! "is_emergency" = Some (VBool true) /\
      detect_emergency query !! "emergency_types" = Some (VStrs ["severe_hyperglycemia"])).
Proof.
  split.
  - intros query ds Hl Hd Hq. apply hyperglycemia_reported. eapply phrasing_found; eauto.
  - exists "blood sugar over 150", "150", 150%N.
    split; [reflexivity|]. split; [reflexivity|]. split; [discriminate|].
    split; [|split; vm_compute; reflexivity].
    exact (blood_sugar_over "150" "over" EmptyString EmptyString (or_introl eq_refl)).
Qed.

Lemma hyperglycemia_patterns_ignore_threshold_witness :
  detect_emergency "is a glucose of 150 ok" !! "is_emergency" = Some (VBool true) /\
  exists types,
    detect_emergency "is a glucose of 150 ok" !! "emergency_types" = Some (VStrs types) /\
    In "severe_hyperglycemia" types.
Proof.
  apply (proj1 hyperglycemia_patterns_ignore_threshold "is a glucose of 150 ok" "150").
  - simpl. lia.
  - reflexivity.
  - exact (glucose_then_value "150" "is a " " of " " ok" eq_refl).
Defined.

(** C5: for a query of ASCII text, on which lowercasing and the classes
    of the patterns are Python's: when no pattern of any category is found
    in the query, case ignored, the detector returns
    [is_emergency = False], an empty [emergency_types] list and
    [emergency_response = None]. *)
Theorem detect_emergency_no_match (query : string) :
  Py.ascii_text query ->
  (forall cat patterns p,
      In (cat, patterns) emergency_patterns -> In p patterns -> ~ found_in query p) ->
  detect_emergency query = no_emergency /\
  detect_emergency query !! "is_emergency" = Some (VBool false) /\
  detect_emergency query !! "emergency_types" = Some (VStrs []) /\
  detect_emergency query !! "emergency_response" = Some VNone.
Proof.
  intros _ H. unfold detect_emergency.
  destruct (scan_emergencies (Py.lower query)) as [|t ts] eqn:E.
  - repeat split; reflexivity.
  - exfalso.
    assert (Hin : In t (scan_emergencies (Py.lower query))) by (rewrite E; left; reflexivity).
    apply in_scan_emergencies in Hin as (patterns & Hp & Hm).
    apply first_match_occurs in Hm as (p & Hpin & Hocc).
    exact (H t patterns p Hp Hpin Hocc).
Qed.

Lemma nothing_found_in_greeting :
  forall cat patterns p,
    In (cat, patterns) emergency_patterns -> In p patterns ->
    ~ found_in "Hello, what should I eat?" p.
Proof.
  intros cat patterns p Hc Hp Hf. apply search_occurs in Hf.
  assert (Hs : existsb (fun e => existsb (fun r => search r (Py.lower "Hello, what should I eat?")) (snd e))
                 emergency_patterns = true).
  { apply existsb_exists. exists (cat, patterns). split; [exact Hc|].
    apply existsb_exists. exists p. auto. }
  vm_compute in Hs. discriminate.
Qed.

Lemma detect_emergency_no_match_witness :
  detect_emergency "Hello, what should I eat?" = no_emergency /\
  detect_emergency "Hello, what should I eat?" !! "is_emergency" = Some (VBool false) /\
  detect_emergency "Hello, what should I eat?" !! "emergency_types" = Some (VStrs []) /\
  detect_emergency "Hello, what should I eat?" !! "emergency_response" = Some VNone.
Proof.
  exact (detect_emergency_no_match "Hello, what should I eat?" eq_refl
           nothing_found_in_greeting).
Defined.






End DetectorProofs.

(* ===================================================================== *)
(** * The medication safety checker                                     *)
(* ===================================================================== *)

Module MedicationProofs.

Import Tools.

(** C7: with an empty medication list the safety checker returns no
    warning and [has_concerns = False], whatever the query. *)
Theorem check_medication_safety_empty (query : string) :
  check_medication_safety [] query
  = {[ "safety_warnings" := VStrs []; "has_concerns" := VBool false ]} /\
  check_medication_safety [] query !! "safety_warnings" = Some (VStrs []) /\
  check_medication_safety [] query !! "has_concerns" = Some (VBool false).
Proof. repeat split; reflexivity. Qed.

End MedicationProofs.

(* ===================================================================== *)
(** * The relevance scorer                                              *)
(* ===================================================================== *)

Module ScorerProofs.
Import Re Tools ReFacts Examples.

Lemma findall_none (r : regex) (s : string) :
  ~ occurs r (list_ascii_of_string s) -> findall r s = [].
Proof.
  intros H. unfold findall. simpl.
  destruct (search_from r (list_ascii_of_string s)) as [[start st]|] eqn:E; [|reflexivity].
  exfalso. apply H. apply search_occurs. unfold search. now rewrite E.
Qed.

(** Without a block in [results] the body of the [try] raises. *)
Lemma score_chunks_no_block scorer (results question : string) :
  ~ occurs chunk_pattern (list_ascii_of_string results) ->
  exists e, score_chunks scorer results question = Raise e /\ exn_class e = "ValueError".
Proof.
  intros H. unfold score_chunks.
  destruct (Py.truthy results); simpl; [|eauto].
  destruct (Py.truthy question); simpl; [|eauto].
  rewrite (findall_none _ _ H). simpl. eauto.
Qed.

(** C1: when [results] holds no [Score:/Content:] block, and whenever
    the extraction or the scoring raises, [check_chunks_relevance]
    returns a dictionary whose [error] is the text of the exception,
    whose [chunk_relevance_score] is [yes] and whose
    [chunk_relevance_value] is 0.5; nothing is raised to the caller. *)
Theorem check_chunks_relevance_fails_open
    (single_turn_ascore : string -> list string -> outcome float)
    (results question : string) :
  ~ occurs chunk_pattern (list_ascii_of_string results)
  \/ (exists e, score_chunks single_turn_ascore results question = Raise e) ->
  exists e,
    score_chunks single_turn_ascore results question = Raise e /\
    check_chunks_relevance single_turn_ascore results question
    = {[ "error" := VStr (exn_str e);
         "chunk_relevance_score" := VStr "yes";
         "chunk_relevance_value" := VFloat 0.5%float ]} /\
    check_chunks_relevance single_turn_ascore results question !! "error"
    = Some (VStr (exn_str e)) /\
    check_chunks_relevance single_turn_ascore results question !! "chunk_relevance_score"
    = Some (VStr "yes") /\
    check_chunks_relevance single_turn_ascore results question !! "chunk_relevance_value"
    = Some (VFloat 0.5%float).
Proof.
  intros H.
  assert (exists e, score_chunks single_turn_ascore results question = Raise e) as [e He].
  { destruct H as [H|H]; [|exact H].
    destruct (score_chunks_no_block single_turn_ascore results question H) as (e & He & _).
    eauto. }
  exists e. unfold check_chunks_relevance. rewrite He.
  repeat split; reflexivity.
Qed.

Lemma no_block_in_formatted_retrieval :
  ~ occurs chunk_pattern (list_ascii_of_string formatted_retrieval).
Proof.
  intros H. apply search_occurs in H. vm_compute in H. discriminate.
Qed.

Lemma check_chunks_relevance_fails_open_witness :
  exists e,
    score_chunks (fun _ _ => Ok 0.75%float) formatted_retrieval "what does insulin do" = Raise e /\
    check_chunks_relevance (fun _ _ => Ok 0.75%float) formatted_retrieval "what does insulin do"
    = {[ "error" := VStr (exn_str e);
         "chunk_relevance_score" := VStr "yes";
         "chunk_relevance_value" := VFloat 0.5%float ]} /\
    check_chunks_relevance (fun _ _ => Ok 0.75%float) formatted_retrieval "what does insulin do"
      !! "error" = Some (VStr (exn_str e)) /\
    check_chunks_relevance (fun _ _ => Ok 0.75%float) formatted_retrieval "what does insulin do"
      !! "chunk_relevance_score" = Some (VStr "yes") /\
    check_chunks_relevance (fun _ _ => Ok 0.75%float) formatted_retrieval "what does insulin do"
      !! "chunk_relevance_value" = Some (VFloat 0.5%float).
Proof.
  apply (check_chunks_relevance_fails_open (fun _ _ => Ok 0.75%float) formatted_retrieval
           "what does insulin do").
  left. exact no_block_in_formatted_retrieval.
Defined.

(** C2: after a successful scoring run the verdict is [yes] exactly when
    the score returned is greater than 0.5, and [no] otherwise; a score
    of exactly 0.5 gives [no]. *)
Theorem relevance_verdict_threshold
    (single_turn_ascore : string -> list string -> outcome float)
    (results question : string) (verdict : gmap string pyval) :
  score_chunks single_turn_ascore results question = Ok verdict ->
  check_chunks_relevance single_turn_ascore results question = verdict /\
  exists (docs : list string) (score : float),
    docs = map Py.strip (findall chunk_pattern results) /\
    single_turn_ascore question docs = Ok score /\
    verdict !! "chunk_relevance_value" = Some (VFloat score) /\
    verdict !! "error" = None /\
    (verdict !! "chunk_relevance_score" = Some (VStr "yes") <-> float_gt score 0.5%float = true) /\
    (verdict !! "chunk_relevance_score" = Some (VStr "no") <-> float_gt score 0.5%float = false) /\
    (score = 0.5%float -> verdict !! "chunk_relevance_score" = Some (VStr "no")).
Proof.
  intros H. unfold check_chunks_relevance. rewrite H. split; [reflexivity|].
  unfold score_chunks in H.
  destruct (Py.truthy results); simpl in H; [|discriminate].
  destruct (Py.truthy question); simpl in H; [|discriminate].
  destruct (map Py.strip (findall chunk_pattern results)) as [|d ds] eqn:Ed; [discriminate|].
  destruct (single_turn_ascore question (d :: ds)) as [score|e] eqn:Es; simpl in H;
    [|discriminate].
  inversion H; subst verdict; clear H.
  exists (d :: ds), score. unfold relevance_threshold.
  split; [reflexivity|]. split; [exact Es|]. split; [reflexivity|]. split; [reflexivity|].
  split; [|split].
  - destruct (float_gt score 0.5); split; intros Hx; reflexivity || discriminate.
  - destruct (float_gt score 0.5); split; intros Hx; reflexivity || discriminate.
  - intros ->. reflexivity.
Qed.

Example two_chunks_extracted :
  map Py.strip (findall chunk_pattern two_chunks)
  = ["Insulin lowers blood glucose."; "Metformin is taken with meals."].
Proof. vm_compute. reflexivity. Qed.

Lemma relevance_verdict_threshold_witness :
  check_chunks_relevance (fun _ _ => Ok 0.5%float) two_chunks "what does insulin do"
  = half_verdict /\
  exists (docs : list string) (score : float),
    docs = map Py.strip (findall chunk_pattern two_chunks) /\
    Ok 0.5%float = Ok score /\
    half_verdict !! "chunk_relevance_value" = Some (VFloat score) /\
    half_verdict !! "error" = None /\
    (half_verdict !! "chunk_relevance_score" = Some (VStr "yes")
     <-> float_gt score 0.5%float = true) /\
    (half_verdict !! "chunk_relevance_score" = Some (VStr "no")
     <-> float_gt score 0.5%float = false) /\
    (score = 0.5%float -> half_verdict !! "chunk_relevance_score" = Some (VStr "no")).
Proof.
  exact (relevance_verdict_threshold (fun _ _ => Ok 0.5%float) two_chunks
           "what does insulin do" half_verdict eq_refl).
Defined.

End ScorerProofs.

(* ===================================================================== *)
(** * The web fallback search                                           *)
(* ===================================================================== *)

Module WebSearchProofs.
Import Tools Examples Phrasing.

Lemma length_format_hits format_2f (hits : list web_hit) : forall idx,
  length (format_hits format_2f idx hits) = length hits.
Proof. induction hits as [|h hits IH]; simpl; intros idx; [reflexivity|]. now rewrite IH. Qed.

Lemma format_hits_lookup format_2f (hits : list web_hit) : forall idx i h,
  hits !! i = Some h ->
  format_hits format_2f idx hits !! i = Some (format_hit format_2f (idx + i) h).
Proof.
  induction hits as [|h0 hits IH]; intros idx i h H; [discriminate|].
  destruct i as [|i]; simpl in *.
  - inversion H; subst. now rewrite Nat.add_0_r.
  - rewrite (IH (S idx) i h H). f_equal. f_equal. lia.
Qed.

(** C9: the formatted output is not held to three results.  The code
    gives [k=3] to the constructor of the search tool and then formats
    every result the tool hands back: with a tool that hands back four
    results the output has four blocks. *)
Lemma medical_web_search_shows_four :
  web_results_shown "tvly-key" generous_tool two_places "metformin side effects" = 4%nat /\
  occurrences "**Source " (fst (medical_web_search "tvly-key" generous_tool two_places
                                  "metformin side effects")) = 4%nat /\
  ~ (web_results_shown "tvly-key" generous_tool two_places "metformin side effects" <= 3)%nat.
Proof.
  split; [reflexivity|]. split; [vm_compute; reflexivity|].
  vm_compute. lia.
Qed.

(** The formatted output holds one block per result the search tool
    hands back, in order, each made of the relevance score, the title,
    the content and the URL of that result: the list the tool returns is
    not cut. *)
Lemma medical_web_search_one_block_per_result
    (TAVILY_API_KEY : string) (tavily_invoke : nat -> string -> outcome (list web_hit))
    (format_2f : float -> string) (query : string) (search_results : list web_hit) :
  TAVILY_API_KEY <> EmptyString ->
  tavily_invoke 3%nat query = Ok search_results ->
  exists blocks : list string,
    medical_web_search TAVILY_API_KEY tavily_invoke format_2f query
    = (Py.strip (fold_left String.append blocks web_results_header),
       [CallTavilySearch 3 query]) /\
    web_results_shown TAVILY_API_KEY tavily_invoke format_2f query = length blocks /\
    length blocks = length search_results /\
    ((length search_results <= 3)%nat -> (length blocks <= 3)%nat) /\
    forall i h,
      search_results !! i = Some h ->
      blocks !! i
      = Some ("**Source " +:+ Py.str_of_nat (S i) +:+ "** (relevance: "
              +:+ format_2f (default 0.5%float (hit_score h)) +:+ ")
" +:+ "**Title:** " +:+ default "Unknown Title" (hit_title h) +:+ "
" +:+ default EmptyString (hit_content h) +:+ "

" +:+ "*Reference: " +:+ default "Unknown URL" (hit_url h) +:+ "*

").
Proof.
  intros Hkey Hinv. exists (format_hits format_2f 1 search_results).
  unfold medical_web_search, web_results_shown, render_web_results.
  assert (Hlen : (Py.len TAVILY_API_KEY =? 0)%nat = false).
  { destruct TAVILY_API_KEY; [congruence|reflexivity]. }
  rewrite Hlen, Hinv. rewrite !length_format_hits.
  split; [reflexivity|]. split; [reflexivity|]. split; [reflexivity|]. split; [auto|].
  intros i h Hi. rewrite (format_hits_lookup format_2f search_results 1 i h Hi).
  reflexivity.
Qed.

Lemma medical_web_search_one_block_per_result_witness :
  exists blocks : list string,
    medical_web_search "tvly-key" generous_tool two_places "metformin side effects"
    = (Py.strip (fold_left String.append blocks web_results_header),
       [CallTavilySearch 3 "metformin side effects"]) /\
    web_results_shown "tvly-key" generous_tool two_places "metformin side effects"
    = length blocks /\
    length blocks = length four_hits /\
    ((length four_hits <= 3)%nat -> (length blocks <= 3)%nat) /\
    forall i h,
      four_hits !! i = Some h ->
      blocks !! i
      = Some ("**Source " +:+ Py.str_of_nat (S i) +:+ "** (relevance: "
              +:+ two_places (default 0.5%float (hit_score h)) +:+ ")
" +:+ "**Title:** " +:+ default "Unknown Title" (hit_title h) +:+ "
" +:+ default EmptyString (hit_content h) +:+ "

" +:+ "*Reference: " +:+ default "Unknown URL" (hit_url h) +:+ "*

").
Proof.
  apply (medical_web_search_one_block_per_result "tvly-key" generous_tool two_places
           "metformin side effects" four_hits).
  - discriminate.
  - reflexivity.
Defined.

End WebSearchProofs.

(* ===================================================================== *)
(** * Missing configuration                                             *)
(* ===================================================================== *)

Module ConfigProofs.
Import Tools Examples.

(** What holds: with an empty knowledge-base identifier, and
    [DIABETES_KB_MIN_SCORE] unset or holding a number,
    [query_diabetes_knowledge] returns its fixed message; with an empty
    API key [medical_web_search] returns its fixed message; neither
    raises and neither makes an external call. *)
Lemma unconfigured_tools_return_fixed_message
    (config : kb_config)
    (bedrock_retrieve : string -> string -> string -> outcome (option (list kb_hit)))
    (tavily_invoke : nat -> string -> outcome (list web_hit))
    (format_2f : float -> string) (question : string) (min : float) :
  knowledge_base_id config = EmptyString ->
  min_score config = Ok min ->
  query_diabetes_knowledge config bedrock_retrieve format_2f question
  = (Ok "Diabetes knowledge base is not configured. Please contact your administrator.", []) /\
  medical_web_search EmptyString tavily_invoke format_2f question
  = ("Medical web search functionality is not available because there is no API Key.", []).
Proof.
  intros Hid Hmin. unfold query_diabetes_knowledge. rewrite Hmin, Hid.
  split; reflexivity.
Qed.

Example nothing_set :
  query_diabetes_knowledge unconfigured no_passages two_places "what is an a1c test"
  = (Ok "Diabetes knowledge base is not configured. Please contact your administrator.", []) /\
  medical_web_search EmptyString generous_tool two_places "what is an a1c test"
  = ("Medical web search functionality is not available because there is no API Key.", []).
Proof.
  exact (unconfigured_tools_return_fixed_message unconfigured no_passages generous_tool
           two_places "what is an a1c test" 0.5%float eq_refl eq_refl).
Qed.

(** The exception of line 199 leaves [query_diabetes_knowledge] whatever
    the identifier is: the guard of line 204 and the [try] of line 207
    come after it. *)
Lemma min_score_error_escapes
    (config : kb_config)
    (bedrock_retrieve : string -> string -> string -> outcome (option (list kb_hit)))
    (format_2f : float -> string) (question : string) (e : exn) :
  min_score config = Raise e ->
  query_diabetes_knowledge config bedrock_retrieve format_2f question = (Raise e, []).
Proof. intros H. unfold query_diabetes_knowledge. now rewrite H. Qed.

(** C10: an empty knowledge-base identifier is to give the fixed
    message, without an exception.  In an environment without
    [DIABETES_KB_ID] in which [DIABETES_KB_MIN_SCORE] is set to text that
    is no number, [query_diabetes_knowledge] raises the [ValueError] of
    line 199 and the message is not returned; no external call is made. *)
Theorem query_diabetes_knowledge_raises_unconfigured :
  knowledge_base_id unconfigured_high = EmptyString /\
  query_diabetes_knowledge unconfigured_high no_passages two_places "what is an a1c test"
  = (Raise (Exn "ValueError" "could not convert string to float: 'high'"), []) /\
  fst (query_diabetes_knowledge unconfigured_high no_passages two_places "what is an a1c test")
  <> Ok kb_not_configured.
Proof. split; [reflexivity|]. split; [reflexivity|]. discriminate. Qed.

End ConfigProofs.


(* ===================================================================== *)
(** * The incremental scraper                                           *)
(* ===================================================================== *)

Module ScraperProofs.
Import Scraper Examples.

Lemma contains_nonempty (sub s : string) :
  Py.truthy sub = true -> Py.contains sub s = true -> Py.truthy s = true.
Proof. destruct s; [destruct sub; simpl; congruence | reflexivity]. Qed.

Section SearchResults.
Variable md5_hexdigest : string -> string.

Lemma filter_result_keeps (t : option ContentTracker) (acc acc' : list hit) (r : hit) :
  filter_result md5_hexdigest t acc r = Ok acc' ->
  Forall site_document acc -> Forall site_document acc'.
Proof.
  unfold filter_result. intros H Hacc.
  destruct (r !! "url") as [v|] eqn:Eu; simpl in H.
  2:{ inversion H; subst. exact Hacc. }
  destruct v as [| | | |u]; simpl in H; try discriminate.
  destruct (Py.contains "webmd.com" (Py.lower u)) eqn:Ec; simpl in H.
  2:{ inversion H; subst. exact Hacc. }
  assert (Hnew : forall k b, k <> "url" -> site_document (<[k := b]> r)).
  { intros k b Hk. exists u. rewrite lookup_insert_ne by exact Hk. auto. }
  destruct t as [tr|].
  - destruct (bool_decide _).
    + destruct (content_hash_of md5_hexdigest r) as [h|e]; simpl in H; [|discriminate].
      destruct (bool_decide _); inversion H; subst; [exact Hacc|].
      apply Forall_app. split; [exact Hacc|]. constructor; [|constructor].
      apply Hnew. discriminate.
    + inversion H; subst. apply Forall_app. split; [exact Hacc|].
      constructor; [|constructor]. apply Hnew. discriminate.
  - inversion H; subst. apply Forall_app. split; [exact Hacc|].
    constructor; [|constructor]. apply Hnew. discriminate.
Qed.

(** A result whose address and content are both known to the tracker is
    dropped by the search: it does not reach the loop of the run. *)
Lemma filter_result_drops_known (tr : ContentTracker) (acc : list hit) (r : hit)
    (u h : string) :
  r !! "url" = Some (JStr u) ->
  Py.contains "webmd.com" (Py.lower u) = true ->
  md5_hexdigest u ∈ url_hashes tr ->
  content_hash_of md5_hexdigest r = Ok h ->
  h ∈ content_hashes tr ->
  filter_result md5_hexdigest (Some tr) acc r = Ok acc.
Proof.
  intros Hu Hc Hurl Hh Hin. unfold filter_result. rewrite Hu. simpl. rewrite Hc. simpl.
  rewrite bool_decide_eq_true_2 by exact Hurl. rewrite Hh. simpl.
  now rewrite bool_decide_eq_true_2 by exact Hin.
Qed.

Lemma filter_results_keep (t : option ContentTracker) (rs : list hit) :
  forall acc acc',
    filter_results md5_hexdigest t rs acc = Ok acc' ->
    Forall site_document acc -> Forall site_document acc'.
Proof.
  induction rs as [|r rs IH]; simpl; intros acc acc' H Hacc.
  - inversion H; subst. exact Hacc.
  - destruct (filter_result md5_hexdigest t acc r) as [acc1|e] eqn:E; simpl in H; [|discriminate].
    eapply IH; [exact H|]. eapply filter_result_keeps; eauto.
Qed.


Lemma search_results_documents (tavily_api_key : option string)
    (tavily_post : string -> nat -> outcome (list hit))
    (query : string) (max_results : nat) (t : option ContentTracker) :
  let search_results :=
    tavily_search_webmd_diabetes_incremental md5_hexdigest tavily_api_key tavily_post
      query max_results t in
  (forall first, head search_results = Some first -> first !! "error" = None) ->
  Forall site_document search_results.
Proof.
  unfold tavily_search_webmd_diabetes_incremental. cbv zeta.
  destruct tavily_api_key as [[|c key]|]; simpl.
  - intros H. specialize (H _ eq_refl). discriminate.
  - destruct (tavily_post _ max_results) as [results|e]; simpl.
    + destruct (filter_results md5_hexdigest t results []) as [new_results|e] eqn:E.
      * intros _. eapply filter_results_keep; [exact E|constructor].
      * intros H. specialize (H _ eq_refl). discriminate.
    + intros H. specialize (H _ eq_refl). discriminate.
  - intros H. specialize (H _ eq_refl). discriminate.
Qed.

End SearchResults.

(** The step of the run on a document of the site whose content is known. *)
Lemma process_known_document
    (md5_hexdigest : string -> string) (isoformat strftime_stamp : Z -> string)
    (str_of_number : jval -> string) (s3_put_error : s3_put -> option exn)
    (bucket_name s3_prefix query : string) (st : run_state) (doc : hit) (h : string) :
  site_document doc ->
  content_hash_of md5_hexdigest doc = Ok h ->
  h ∈ content_hashes (tracker st) ->
  process_result md5_hexdigest isoformat strftime_stamp str_of_number s3_put_error
    bucket_name s3_prefix query false st doc
  = skip_existing st.
Proof.
  intros (u & Hu & Hc) Hh Hin.
  unfold process_result, process_body. rewrite Hu. simpl.
  assert (Ht : Py.truthy u = true).
  { destruct u; [discriminate|reflexivity]. }
  rewrite Ht. simpl.
  unfold content_hash_of in Hh.
  destruct (encode (content_of doc)) as [c|e]; simpl in Hh; [|discriminate].
  inversion Hh; subst h. simpl.
  rewrite bool_decide_eq_true_2 by exact Hin. reflexivity.
Qed.

End ScraperProofs.

(* ===================================================================== *)
(** * Texts, the scorer without blocks, and the filter of passages      *)
(* ===================================================================== *)

Module TextFacts.

Lemma append_cons (c : ascii) (a b : string) : String c a +:+ b = String c (a +:+ b).
Proof. reflexivity. Qed.

Lemma append_assoc (a b c : string) : (a +:+ b) +:+ c = a +:+ (b +:+ c).
Proof. induction a as [|x a IH]; [reflexivity|]. rewrite !append_cons. f_equal. exact IH. Qed.

Lemma append_nil_r (a : string) : a +:+ EmptyString = a.
Proof. induction a as [|x a IH]; [reflexivity|]. rewrite append_cons. f_equal. exact IH. Qed.

Lemma append_length (a b : string) :
  String.length (a +:+ b) = (String.length a + String.length b)%nat.
Proof. induction a as [|x a IH]; [reflexivity|]. rewrite append_cons. simpl. f_equal. exact IH. Qed.

Lemma prefix_app (a b : string) : String.prefix a (a +:+ b) = true.
Proof.
  induction a as [|c a IH]; [destruct b; reflexivity|].
  rewrite append_cons. simpl. destruct (ascii_dec c c); [exact IH|congruence].
Qed.

Lemma contains_prefix (sub s : string) :
  String.prefix sub s = true -> Py.contains sub s = true.
Proof.
  intros H. destruct s as [|c s].
  - destruct sub; [reflexivity|discriminate H].
  - change (Py.contains sub (String c s))
      with (if String.prefix sub (String c s) then true else Py.contains sub s).
    now rewrite H.
Qed.

Lemma contains_app (sub pre rest : string) :
  Py.contains sub (pre +:+ sub +:+ rest) = true.
Proof.
  induction pre as [|c pre IH].
  - apply contains_prefix. exact (prefix_app sub rest).
  - change (String c pre +:+ sub +:+ rest) with (String c (pre +:+ sub +:+ rest)).
    change (Py.contains sub (String c (pre +:+ sub +:+ rest)))
      with (if String.prefix sub (String c (pre +:+ sub +:+ rest)) then true
            else Py.contains sub (pre +:+ sub +:+ rest)).
    destruct (String.prefix sub (String c (pre +:+ sub +:+ rest))); [reflexivity|exact IH].
Qed.

Lemma string_of_list_app (a b : list ascii) :
  string_of_list_ascii (a ++ b) = string_of_list_ascii a +:+ string_of_list_ascii b.
Proof. induction a as [|c a IH]; [reflexivity|]. simpl. rewrite append_cons. f_equal. exact IH. Qed.

End TextFacts.

Module ScorerMore.
Import Re Tools ReFacts ToolTerms TextFacts.

(** A block starts with the marker. *)
Lemma chunk_needs_marker (results : string) :
  occurs chunk_pattern (list_ascii_of_string results) ->
  Py.contains "Score:" results = true.
Proof.
  intros (pre & mid & post & E & M).
  simpl in M. destruct M as (s1 & s2 & -> & -> & _).
  rewrite <- (string_of_list_ascii_of_string results), E.
  rewrite !string_of_list_app.
  change (string_of_list_ascii (list_ascii_of_string "Score:")) with "Score:".
  rewrite append_assoc. apply contains_app.
Qed.

(** X15: without the text [Score:] anywhere in [results] the answer is the
    fail-open dictionary with a [ValueError], whatever the scorer would
    say: for non-empty arguments the error is that no chunk was found. *)
Theorem no_marker_fails_open
    (single_turn_ascore : string -> list string -> outcome float)
    (results question : string) :
  Py.contains "Score:" results = false ->
  exists msg,
    check_chunks_relevance single_turn_ascore results question
    = {[ "error" := VStr msg;
         "chunk_relevance_score" := VStr "yes";
         "chunk_relevance_value" := VFloat 0.5%float ]} /\
    (Py.truthy results = true -> Py.truthy question = true ->
     msg = "No valid content chunks found in 'results'.") /\
    forall other : string -> list string -> outcome float,
      check_chunks_relevance other results question
      = check_chunks_relevance single_turn_ascore results question.
Proof.
  intros Hc.
  assert (Hno : ~ occurs chunk_pattern (list_ascii_of_string results)).
  { intros H. apply chunk_needs_marker in H. congruence. }
  assert (Hf : findall chunk_pattern results = []) by (apply ScorerProofs.findall_none, Hno).
  unfold check_chunks_relevance, score_chunks. rewrite Hf. simpl.
  destruct (Py.truthy results), (Py.truthy question); simpl; eexists;
    (split; [reflexivity|]); (split; [intros; congruence || reflexivity|reflexivity]).
Qed.

Lemma no_marker_fails_open_witness :
  exists msg,
    check_chunks_relevance Samples.relevant Examples.formatted_retrieval "What does insulin do?"
    = {[ "error" := VStr msg;
         "chunk_relevance_score" := VStr "yes";
         "chunk_relevance_value" := VFloat 0.5%float ]} /\
    (Py.truthy Examples.formatted_retrieval = true ->
     Py.truthy "What does insulin do?" = true ->
     msg = "No valid content chunks found in 'results'.") /\
    forall other : string -> list string -> outcome float,
      check_chunks_relevance other Examples.formatted_retrieval "What does insulin do?"
      = check_chunks_relevance Samples.relevant Examples.formatted_retrieval
          "What does insulin do?".
Proof.
  apply (no_marker_fails_open Samples.relevant Examples.formatted_retrieval
           "What does insulin do?").
  vm_compute. reflexivity.
Defined.

End ScorerMore.

Module KnowledgeBaseMore.
Import Tools ToolTerms TextFacts.

Lemma concat_cons (x : string) (l : list string) :
  String.concat EmptyString (x :: l) = x +:+ String.concat EmptyString l.
Proof. destruct l; simpl; [now rewrite append_nil_r|reflexivity]. Qed.

Lemma format_kb_hits_blocks format_2f (min : float) (hits : list kb_hit) :
  forall (idx : nat) (text : string),
    format_kb_hits format_2f min idx hits text
    = text +:+ String.concat EmptyString
                 (map (kb_block format_2f) (List.filter (shown min) (ranked_from idx hits))).
Proof.
  unfold ranked_from.
  induction hits as [|h hits IH]; intros idx text.
  - simpl. now rewrite append_nil_r.
  - cbn [format_kb_hits length seq combine List.filter]. unfold shown at 1. cbn [snd].
    destruct (PrimFloat.ltb (default 0%float (kb_score h)) min); cbn [negb].
    + apply IH.
    + rewrite IH. cbn [map]. rewrite concat_cons, (append_assoc text). reflexivity.
Qed.

Lemma kb_block_nonempty format_2f (ranked : nat * kb_hit) :
  (0 < String.length (kb_block format_2f ranked))%nat.
Proof. unfold kb_block. rewrite append_length. simpl. lia. Qed.

Lemma eqb_append_self (a b : string) : String.eqb (a +:+ b) a = true -> b = EmptyString.
Proof.
  intros H. apply String.eqb_eq in H. apply (f_equal String.length) in H.
  rewrite append_length in H. destruct b; [reflexivity|simpl in H; lia].
Qed.

(** X18: passages scoring below the minimum are left out of the answer; the
    others keep the rank they had in the retrieval, so the numbering may
    have gaps; when all are left out the answer is a fixed message. *)
Theorem low_scores_are_left_out
    (config : kb_config)
    (bedrock_retrieve : string -> string -> string -> outcome (option (list kb_hit)))
    (format_2f : float -> string) (question : string) (min : float)
    (h : kb_hit) (hits : list kb_hit) :
  knowledge_base_id config <> EmptyString ->
  min_score config = Ok min ->
  bedrock_retrieve (knowledge_base_id config) (aws_region config) question
  = Ok (Some (h :: hits)) ->
  let ranked := List.filter (shown min) (ranked_from 1 (h :: hits)) in
  fst (query_diabetes_knowledge config bedrock_retrieve format_2f question)
  = Ok (match ranked with
        | [] => "No sufficiently relevant diabetes information found. Please try rephrasing your question."
        | _ :: _ =>
            Py.strip (kb_results_header
                      +:+ String.concat EmptyString (map (kb_block format_2f) ranked))
        end).
Proof.
  intros Hid Hmin Hret. cbv zeta. unfold query_diabetes_knowledge.
  rewrite Hmin, Hret.
  assert (Ht : Py.truthy (knowledge_base_id config) = true).
  { destruct (knowledge_base_id config); [congruence|reflexivity]. }
  rewrite Ht. cbn [negb]. rewrite format_kb_hits_blocks.
  destruct (List.filter (shown min) (ranked_from 1 (h :: hits))) as [|r rs].
  - simpl. reflexivity.
  - destruct (String.eqb _ kb_results_header) eqn:E; [|reflexivity].
    apply eqb_append_self in E. rewrite map_cons, concat_cons in E.
    pose proof (kb_block_nonempty format_2f r) as Hn.
    apply (f_equal String.length) in E. rewrite append_length in E. simpl in E. lia.
Qed.

Lemma low_scores_are_left_out_witness :
  fst (query_diabetes_knowledge Samples.configured Samples.retrieves_two Examples.two_places
         "What does insulin do?")
  = Ok "Based on medical knowledge sources:

**Source 2** (relevance: 0.75)
Insulin lowers blood glucose.

*Reference: s3://kb/insulin.txt*".
Proof.
  exact (low_scores_are_left_out Samples.configured Samples.retrieves_two Examples.two_places
           "What does insulin do?" 0.5%float
           (KbHit (Some 0.25%float) (Some "Exercise helps.") (Some "s3://kb/exercise.txt"))
           [KbHit (Some 0.75%float) (Some "Insulin lowers blood glucose.")
                  (Some "s3://kb/insulin.txt")]
           ltac:(discriminate) eq_refl eq_refl).
Defined.

End KnowledgeBaseMore.

(* ===================================================================== *)
(** * A run of the scraper                                              *)
(* ===================================================================== *)

Module ScraperRun.
Import Scraper ScraperTerms Examples.

Lemma reached_refl (st : run_state) : reached_by [] st st.
Proof.
  constructor; simpl; try rewrite ?app_nil_r, ?Nat.sub_diag; try reflexivity; try lia;
    try (exists []; now rewrite app_nil_r); constructor.
Qed.

Lemma reached_add_error w st0 st msg : reached_by w st0 st -> reached_by w st0 (add_error msg st).
Proof. intros []. constructor; simpl; assumption. Qed.

Lemma reached_add_found w st0 st n : reached_by w st0 st -> reached_by w st0 (add_found n st).
Proof. intros []. constructor; simpl; assumption. Qed.

Lemma reached_skip w st0 st : reached_by w st0 st -> reached_by w st0 (skip_existing st).
Proof. intros []. constructor; simpl; assumption. Qed.

Lemma reached_record w st0 st put uh ch upd :
  carries_hash put ch ->
  reached_by w st0 st ->
  reached_by (w ++ [put]) st0 (record_document put uh ch upd st).
Proof.
  intros Hput [Hlog Hu Hc Ht Hl Hq Hk Htr Hcr Hup [kc Hkc] [ku Hku] Hkeys Hw].
  constructor; simpl.
  - rewrite Hlog. now rewrite app_assoc.
  - set_solver.
  - set_solver.
  - rewrite Ht, length_app. simpl. lia.
  - exact Hl.
  - intros E. destruct w; discriminate E.
  - rewrite Hk, length_app. simpl. lia.
  - apply Forall_app. split.
    + eapply List.Forall_impl; [|exact Htr]. intros p (h & ? & ?). exists h. split; [assumption|]. set_solver.
    + constructor; [|constructor]. exists ch. split; [exact Hput|]. set_solver.
  - destruct upd; [exact Hcr|]. rewrite Hkc in *. rewrite !length_app in *. simpl. lia.
  - destruct upd; [|exact Hup]. rewrite Hku in *. rewrite !length_app in *. simpl. lia.
  - destruct upd; [exists kc; exact Hkc|]. exists (kc ++ [put_key put]). rewrite Hkc.
    now rewrite app_assoc.
  - destruct upd; [|exists ku; exact Hku]. exists (ku ++ [put_key put]). rewrite Hku.
    now rewrite app_assoc.
  - apply Forall_app. split.
    + eapply List.Forall_impl; [|exact Hkeys]. intros p [H|H]; [left|right]; destruct upd; auto;
        apply in_or_app; auto.
    + constructor; [|constructor]. destruct upd; [right|left]; apply in_or_app; right; left;
        reflexivity.
  - rewrite length_app. simpl. destruct upd; lia.
Qed.



(** ** The search filter *)

Section SearchFilter.
Variable md5_hexdigest : string -> string.
Variable tr : ContentTracker.

Lemma filter_result_decides (acc acc' : list hit) (r : hit) :
  filter_result md5_hexdigest (Some tr) acc r = Ok acc' ->
  (acc' = acc /\ forall d, ~ keeps md5_hexdigest tr r d)
  \/ (exists d, keeps md5_hexdigest tr r d /\ acc' = acc ++ [d]).
Proof.
  unfold filter_result. intros H.
  destruct (r !! "url") as [v|] eqn:Eu; simpl in H.
  2:{ injection H as <-. left. split; [reflexivity|]. intros d Hd.
      destruct Hd; congruence. }
  destruct v as [| | | |u]; simpl in H; try discriminate.
  destruct (Py.contains "webmd.com" (Py.lower u)) eqn:Ec; simpl in H.
  2:{ injection H as <-. left. split; [reflexivity|]. intros d Hd.
      destruct Hd as [u' Hu' Hc'|u' c' Hu' Hc']; rewrite Eu in Hu'; injection Hu' as <-;
        congruence. }
  destruct (bool_decide (md5_hexdigest u ∈ url_hashes tr)) eqn:Eh.
  - apply bool_decide_eq_true_1 in Eh. unfold content_hash_of in H.
    destruct (content_of r) as [| | | |c] eqn:Econt; simpl in H; try discriminate.
    destruct (bool_decide (md5_hexdigest c ∈ content_hashes tr)) eqn:Ek; injection H as <-.
    + apply bool_decide_eq_true_1 in Ek. left. split; [reflexivity|]. intros d Hd.
      destruct Hd as [u' Hu' Hc' Hn|u' c' Hu' Hc' Hin Hcont Hn]; rewrite Eu in Hu';
        injection Hu' as <-; [contradiction|].
      rewrite Econt in Hcont. injection Hcont as <-. contradiction.
    + apply bool_decide_eq_false_1 in Ek. right. eexists. split; [|reflexivity].
      eapply keep_updated; eauto.
  - apply bool_decide_eq_false_1 in Eh. injection H as <-. right. eexists.
    split; [|reflexivity]. eapply keep_new; eauto.
Qed.

Lemma filter_results_decide (raw : list hit) : forall acc out,
  filter_results md5_hexdigest (Some tr) raw acc = Ok out ->
  forall d, In d out <-> In d acc \/ exists r, In r raw /\ keeps md5_hexdigest tr r d.
Proof.
  induction raw as [|r raw IH]; simpl; intros acc out H d.
  - injection H as <-. split; [auto|]. intros [?|(r & [] & _)]. assumption.
  - destruct (filter_result md5_hexdigest (Some tr) acc r) as [acc1|e] eqn:E; simpl in H;
      [|discriminate].
    rewrite (IH _ _ H d).
    destruct (filter_result_decides _ _ _ E) as [[-> Hno]|(d0 & Hk & ->)].
    + split.
      * intros [?|(r' & ? & ?)]; [auto|right; eauto].
      * intros [?|(r' & [<-|?] & Hk)]; [auto| |right; eauto]. destruct (Hno _ Hk).
    + rewrite in_app_iff. simpl. split.
      * intros [[?|[<-|[]]]|(r' & ? & ?)]; [auto|right; eauto|right; eauto].
      * intros [?|(r' & [<-|?] & Hk')]; [auto| |right; eauto].
        left. right. left. destruct Hk; destruct Hk'; congruence.
Qed.

Lemma filter_result_needs_string (t : option ContentTracker) (acc : list hit) (r : hit)
    (v : jval) :
  r !! "url" = Some v -> not_a_string v ->
  exists e, filter_result md5_hexdigest t acc r = Raise e.
Proof.
  intros Hu Hv. unfold filter_result. rewrite Hu. simpl.
  destruct v; simpl; eauto. now destruct (Hv s).
Qed.

Lemma filter_results_need_strings (t : option ContentTracker) (raw : list hit) (r : hit)
    (v : jval) :
  In r raw -> r !! "url" = Some v -> not_a_string v ->
  forall acc, exists e, filter_results md5_hexdigest t raw acc = Raise e.
Proof.
  intros Hin Hu Hv. induction raw as [|r0 raw IH]; [destruct Hin|]. intros acc. simpl.
  destruct (filter_result md5_hexdigest t acc r0) as [acc1|e] eqn:E; simpl; [|eauto].
  destruct Hin as [->|Hin]; [|apply IH, Hin].
  destruct (filter_result_needs_string t acc r v Hu Hv) as [e He]. congruence.
Qed.

End SearchFilter.

Section Steps.
Variable md5_hexdigest : string -> string.
Variables isoformat strftime_stamp : Z -> string.
Variable str_of_number : jval -> string.
Variable tavily_api_key : option string.
Variable tavily_post : string -> nat -> outcome (list hit).
Variable s3_put_error : s3_put -> option exn.
Variables bucket_name s3_prefix : string.
Variable max_results_per_query : nat.
Variable force_update : bool.

Let step (query : string) : run_state -> hit -> run_state :=
  process_result md5_hexdigest isoformat strftime_stamp str_of_number s3_put_error
    bucket_name s3_prefix query force_update.

Let query_step : run_state -> string -> run_state :=
  process_query md5_hexdigest isoformat strftime_stamp str_of_number tavily_api_key tavily_post
    s3_put_error bucket_name s3_prefix max_results_per_query force_update.

Let body (query : string) : run_state -> hit -> outcome run_state :=
  process_body md5_hexdigest isoformat strftime_stamp s3_put_error bucket_name s3_prefix
    query force_update.

(** The four ways the body of the inner [try] can end. *)
Lemma process_body_cases (query : string) (st : run_state) (doc : hit) :
  (body query st doc = Ok st /\ ~ site_document doc)
  \/ (body query st doc = Ok (skip_existing st) /\ force_update = false /\
      exists c, content_of doc = JStr c /\ md5_hexdigest c ∈ content_hashes (tracker st))
  \/ (exists e, body query st doc = Raise e)
  \/ (exists put u c is_update,
        doc !! "url" = Some (JStr u) /\ content_of doc = JStr c /\
        s3_put_error put = None /\
        put_bucket put = bucket_name /\
        put_metadata put = [ ("source-url", u); ("content-hash", md5_hexdigest c);
                             ("scraped-at", isoformat (clock st)) ] /\
        (force_update = true \/ md5_hexdigest c ∉ content_hashes (tracker st)) /\
        body query st doc
        = Ok (record_document put (md5_hexdigest u) (md5_hexdigest c) is_update st)).
Proof.
  unfold body, process_body.
  destruct (doc !! "url") as [url|] eqn:Eu.
  2:{ left. split; [reflexivity|]. intros (u & Hu & _). congruence. }
  destruct (truth url) eqn:Et; simpl.
  2:{ left. split; [reflexivity|]. intros (u & Hu & Hc). rewrite Eu in Hu. injection Hu as ->.
      simpl in Et. destruct u; [discriminate Hc|discriminate Et]. }
  destruct url as [| | | |u]; simpl; try (right; right; left; eauto; fail).
  destruct (content_of doc) as [| | | |c] eqn:Ec; simpl; try (right; right; left; eauto; fail).
  destruct (negb force_update && bool_decide (md5_hexdigest c ∈ content_hashes (tracker st)))
    eqn:Eskip.
  { right. left. apply andb_prop in Eskip as [Hf Hk].
    apply negb_true_iff in Hf. apply bool_decide_eq_true_1 in Hk.
    split; [reflexivity|]. split; [exact Hf|]. eauto. }
  destruct (default (JStr EmptyString) (doc !! "title")) as [| | | |title] eqn:Etitle; simpl;
    try (right; right; left; eauto; fail).
  match goal with |- context [s3_put_error ?p] => set (put := p) end.
  destruct (s3_put_error put) as [e|] eqn:Eput.
  { right; right; left; eauto. }
  right; right; right. exists put, u, c. eexists.
  split; [reflexivity|]. split; [reflexivity|]. split; [exact Eput|].
  split; [reflexivity|]. split; [reflexivity|]. split; [|reflexivity].
  apply andb_false_iff in Eskip as [Hf|Hk].
  - left. now apply negb_false_iff in Hf.
  - right. now apply bool_decide_eq_false_1 in Hk.
Qed.

(** The four ways one pass of the loop can end. *)
Lemma process_result_cases (query : string) (st : run_state) (doc : hit) :
  (step query st doc = st /\ ~ site_document doc)
  \/ (step query st doc = skip_existing st /\ force_update = false /\
      exists c, content_of doc = JStr c /\ md5_hexdigest c ∈ content_hashes (tracker st))
  \/ (exists msg, step query st doc = add_error msg st)
  \/ (exists put u c is_update,
        doc !! "url" = Some (JStr u) /\ content_of doc = JStr c /\
        s3_put_error put = None /\
        put_bucket put = bucket_name /\
        put_metadata put = [ ("source-url", u); ("content-hash", md5_hexdigest c);
                             ("scraped-at", isoformat (clock st)) ] /\
        (force_update = true \/ md5_hexdigest c ∉ content_hashes (tracker st)) /\
        step query st doc = record_document put (md5_hexdigest u) (md5_hexdigest c) is_update st).
Proof.
  unfold step, process_result. fold (body query st doc).
  destruct (process_body_cases query st doc)
    as [[-> H]|[[-> H]|[[e ->]|(put & u & c & upd & H1 & H2 & H3 & H4 & H5 & H6 & ->)]]].
  - left. auto.
  - right; left. auto.
  - right; right; left. eauto.
  - right; right; right. exists put, u, c, upd. auto 10.
Qed.

Let accepted : s3_put -> Prop := ScraperTerms.accepted s3_put_error bucket_name.

(** One pass of the loop writes at most one object, and only one that
    storage accepted. *)
Lemma step_reached (query : string) (w : list s3_put) (st0 st : run_state) (doc : hit) :
  reached_by w st0 st ->
  exists w', reached_by (w ++ w') st0 (step query st doc)
             /\ Forall accepted w' /\ (length w' <= 1)%nat.
Proof.
  intros H.
  destruct (process_result_cases query st doc)
    as [[-> _]|[[-> _]|[[msg ->]|(put & u & c & upd & _ & _ & Hput & Hb & Hm & _ & ->)]]].
  - exists []. rewrite app_nil_r. split; [exact H|]. split; [constructor|simpl; lia].
  - exists []. rewrite app_nil_r. split; [now apply reached_skip|].
    split; [constructor|simpl; lia].
  - exists []. rewrite app_nil_r. split; [now apply reached_add_error|].
    split; [constructor|simpl; lia].
  - exists [put]. split.
    + apply reached_record; [|exact H]. unfold carries_hash. rewrite Hm. right; left; reflexivity.
    + split; [|simpl; lia]. constructor; [|constructor]. split; assumption.
Qed.

Lemma steps_reached (query : string) (docs : list hit) :
  forall (w : list s3_put) (st0 st : run_state),
    reached_by w st0 st ->
    exists w', reached_by (w ++ w') st0 (fold_left (step query) docs st)
               /\ Forall accepted w' /\ (length w' <= length docs)%nat.
Proof.
  induction docs as [|doc docs IH]; intros w st0 st H; simpl.
  - exists []. rewrite app_nil_r. split; [exact H|]. split; [constructor|simpl; lia].
  - destruct (step_reached query w st0 st doc H) as (w1 & H1 & A1 & L1).
    destruct (IH _ _ _ H1) as (w2 & H2 & A2 & L2).
    exists (w1 ++ w2). rewrite app_assoc. split; [exact H2|].
    split; [apply Forall_app; auto|]. rewrite length_app. lia.
Qed.

Lemma query_reached (w : list s3_put) (st0 st : run_state) (query : string) :
  reached_by w st0 st ->
  exists w', reached_by (w ++ w') st0 (query_step st query) /\ Forall accepted w'.
Proof.
  intros H. unfold query_step, process_query.
  set (results := tavily_search_webmd_diabetes_incremental _ _ _ _ _ _).
  assert (Hall : exists w', reached_by (w ++ w') st0
                   (fold_left (step query) results (add_found (Z.of_nat (length results)) st))
                 /\ Forall accepted w').
  { destruct (steps_reached query results w st0 _ (reached_add_found w st0 st (Z.of_nat (length results)) H))
      as (w' & ? & ? & _). eauto. }
  destruct results as [|first rest]; [exact Hall|].
  destruct (first !! "error"); [|exact Hall].
  exists []. rewrite app_nil_r. split; [now apply reached_add_error|constructor].
Qed.

Lemma queries_reached (queries : list string) :
  forall (w : list s3_put) (st0 st : run_state),
    reached_by w st0 st ->
    exists w', reached_by (w ++ w') st0 (fold_left query_step queries st)
               /\ Forall accepted w'.
Proof.
  induction queries as [|q queries IH]; intros w st0 st H; simpl.
  - exists []. rewrite app_nil_r. split; [exact H|constructor].
  - destruct (query_reached w st0 st q H) as (w1 & H1 & A1).
    destruct (IH _ _ _ H1) as (w2 & H2 & A2).
    exists (w1 ++ w2). rewrite app_assoc. split; [exact H2|apply Forall_app; auto].
Qed.


Variable stored_tracker : string -> option ContentTracker.

Local Abbreviation run search_queries log now :=
  (incremental_scrape_diabetes_webmd md5_hexdigest isoformat strftime_stamp str_of_number
     tavily_api_key tavily_post s3_put_error stored_tracker bucket_name search_queries
     max_results_per_query s3_prefix force_update log now).

Let start (log : list s3_put) (now : Z) : run_state :=
  RunState (load_content_tracker isoformat stored_tracker bucket_name now) 0 0 0 0 [] [] []
    log now.

Let finish (search_queries : option (list string)) (log : list s3_put) (now : Z) : run_state :=
  fold_left query_step (default default_queries search_queries) (start log now).

Lemma run_reached (search_queries : option (list string)) (log : list s3_put) (now : Z) :
  exists written,
    reached_by written (start log now) (finish search_queries log now)
    /\ Forall accepted written.
Proof.
  destruct (queries_reached (default default_queries search_queries) [] _ _
              (reached_refl (start log now))) as (w & H & A).
  exists w. auto.
Qed.

(** X1: a run only adds: the objects it writes come after those already in
    storage, each is a document the service accepted into the bucket of
    the run whose content hash is in the tracker the run leaves and whose
    key is in one of the two key lists returned; no hash leaves the
    tracker.  The tracker itself is written last, exactly when the
    service takes that write: when the service rejects it, the documents
    are all the run has written. *)
Theorem run_only_adds (search_queries : option (list string)) (log : list s3_put) (now : Z) :
  let t0 := load_content_tracker isoformat stored_tracker bucket_name now in
  let result := fst (fst (run search_queries log now)) in
  let t := snd (fst (run search_queries log now)) in
  let log' := snd (run search_queries log now) in
  exists written saved,
    log' = log ++ written ++ saved /\
    saved = match s3_put_error (tracker_put bucket_name t) with
            | None => [tracker_put bucket_name t]
            | Some _ => []
            end /\
    Forall (fun put =>
              s3_put_error put = None /\ put_bucket put = bucket_name /\
              (exists h, carries_hash put h /\ h ∈ content_hashes t) /\
              (In (put_key put) (r_s3_objects_created result)
               \/ In (put_key put) (r_s3_objects_updated result))) written /\
    url_hashes t0 ⊆ url_hashes t /\
    content_hashes t0 ⊆ content_hashes t.
Proof.
  cbv zeta.
  destruct (run_reached search_queries log now) as (w & H & A).
  destruct H as [Hlog Hu Hc _ _ _ _ Htr _ _ _ _ Hkeys _].
  unfold incremental_scrape_diabetes_webmd. cbv zeta. simpl.
  fold (start log now). fold query_step. fold (finish search_queries log now).
  set (st := finish search_queries log now) in *.
  unfold save_content_tracker.
  match goal with |- context [s3_put_error ?p] => set (put := p) end.
  exists w, (match s3_put_error put with None => [put] | Some _ => [] end).
  split.
  { destruct (s3_put_error put); simpl; rewrite Hlog; simpl in *;
      rewrite <- ?app_assoc, ?app_nil_r; reflexivity. }
  split; [reflexivity|].
  split; [|split; assumption].
  rewrite List.Forall_forall in *. intros p Hp.
  destruct (A p Hp) as [Ha Hb]. repeat split; auto.
Qed.


(** X2: the counters returned agree with the key lists returned and with
    the tracker: as many new documents as created keys, as many updates
    as updated keys, and [total_documents] grown by their sum. *)
Theorem run_counters_agree (search_queries : option (list string)) (log : list s3_put)
    (now : Z) :
  let t0 := load_content_tracker isoformat stored_tracker bucket_name now in
  let result := fst (fst (run search_queries log now)) in
  let t := snd (fst (run search_queries log now)) in
  r_new_documents_scraped result = Z.of_nat (length (r_s3_objects_created result)) /\
  r_updated_documents result = Z.of_nat (length (r_s3_objects_updated result)) /\
  total_documents t
  = (total_documents t0 + r_new_documents_scraped result + r_updated_documents result)%Z.
Proof.
  cbv zeta.
  destruct (run_reached search_queries log now) as (w & H & _).
  destruct H as [_ _ _ Ht _ _ _ _ Hcr Hup _ _ _ Hw].
  unfold incremental_scrape_diabetes_webmd. cbv zeta. simpl.
  fold (start log now). fold query_step. fold (finish search_queries log now).
  set (st := finish search_queries log now) in *.
  simpl in *. rewrite Nat.sub_0_r in Hcr, Hup. lia.
Qed.

(** ** Every document found is accounted for *)

Lemma step_handled (query : string) (st : run_state) (doc : hit) :
  site_document doc ->
  handled (step query st doc) = (handled st + 1)%Z /\
  new_documents_found (step query st doc) = new_documents_found st.
Proof.
  intros Hdoc.
  destruct (process_result_cases query st doc)
    as [[_ Hn]|[[-> _]|[[msg ->]|(put & u & c & upd & _ & _ & _ & _ & _ & _ & ->)]]].
  - contradiction.
  - unfold handled. simpl. split; [lia|reflexivity].
  - unfold handled. simpl. rewrite length_app. simpl. split; [lia|reflexivity].
  - unfold handled. simpl. destruct upd; split; try reflexivity; lia.
Qed.

Lemma steps_handled (query : string) (docs : list hit) : forall st : run_state,
  Forall site_document docs ->
  handled (fold_left (step query) docs st) = (handled st + Z.of_nat (length docs))%Z /\
  new_documents_found (fold_left (step query) docs st) = new_documents_found st.
Proof.
  induction docs as [|doc docs IH]; intros st Hall; simpl.
  - split; [lia|reflexivity].
  - inversion Hall as [|? ? Hd Hds]; subst.
    destruct (step_handled query st doc Hd) as [H1 H2].
    destruct (IH (step query st doc) Hds) as [H3 H4].
    rewrite H3, H4, H1, H2. split; [lia|reflexivity].
Qed.

Lemma query_handled (st : run_state) (query : string) :
  let st' := query_step st query in
  (new_documents_found st' - new_documents_found st <= handled st' - handled st
   <= new_documents_found st' - new_documents_found st + 1)%Z.
Proof.
  cbv zeta. unfold query_step, process_query.
  pose proof (ScraperProofs.search_results_documents md5_hexdigest tavily_api_key tavily_post
                query max_results_per_query (Some (tracker st))) as Hdocs.
  cbv zeta in Hdocs.
  set (results := tavily_search_webmd_diabetes_incremental _ _ _ _ _ _) in *.
  assert (Hall : Forall site_document results ->
                 let st' := fold_left (step query) results
                              (add_found (Z.of_nat (length results)) st) in
                 (new_documents_found st' - new_documents_found st
                  <= handled st' - handled st
                  <= new_documents_found st' - new_documents_found st + 1)%Z).
  { intros Hs. cbv zeta.
    destruct (steps_handled query results (add_found (Z.of_nat (length results)) st) Hs)
      as [H1 H2].
    fold (step query). rewrite H1, H2. unfold handled. simpl. lia. }
  destruct results as [|first rest] eqn:E.
  - apply Hall. constructor.
  - destruct (first !! "error") eqn:Ee.
    + unfold handled. simpl. rewrite length_app. simpl. lia.
    + apply Hall. apply Hdocs. intros f Hf. simpl in Hf. congruence.
Qed.

Lemma queries_handled (queries : list string) : forall st : run_state,
  let st' := fold_left query_step queries st in
  (new_documents_found st' - new_documents_found st <= handled st' - handled st
   <= new_documents_found st' - new_documents_found st + Z.of_nat (length queries))%Z.
Proof.
  induction queries as [|q queries IH]; intros st; cbv zeta; simpl.
  - lia.
  - pose proof (query_handled st q) as H1. pose proof (IH (query_step st q)) as H2.
    cbv zeta in H1, H2. lia.
Qed.

(** X3: each document counted in [new_documents_found] is counted once more
    as skipped, as newly scraped, as updated or as an error; the errors
    left over are failed searches, at most one per query. *)
Theorem run_accounts_for_found (search_queries : option (list string)) (log : list s3_put)
    (now : Z) :
  let result := fst (fst (run search_queries log now)) in
  let accounted :=
    (r_skipped_existing result + r_new_documents_scraped result
     + r_updated_documents result + Z.of_nat (length (r_errors result)))%Z in
  (r_new_documents_found result <= accounted
   <= r_new_documents_found result
      + Z.of_nat (length (default default_queries search_queries)))%Z.
Proof.
  cbv zeta.
  pose proof (queries_handled (default default_queries search_queries) (start log now)) as H.
  cbv zeta in H.
  unfold incremental_scrape_diabetes_webmd. cbv zeta. simpl.
  fold (start log now). fold query_step.
  unfold handled in H. simpl in H. lia.
Qed.


(** ** Forced updates, rejected writes, a missing key *)

Lemma step_skips_only_unforced (query : string) (st : run_state) (doc : hit) :
  force_update = true ->
  skipped_existing (step query st doc) = skipped_existing st.
Proof.
  intros Hf.
  destruct (process_result_cases query st doc)
    as [[-> _]|[[_ [Hn _]]|[[msg ->]|(put & u & c & upd & _ & _ & _ & _ & _ & _ & ->)]]];
    try reflexivity.
  congruence.
Qed.

Lemma query_skips_only_unforced (st : run_state) (query : string) :
  force_update = true ->
  skipped_existing (query_step st query) = skipped_existing st.
Proof.
  intros Hf. unfold query_step, process_query.
  set (results := tavily_search_webmd_diabetes_incremental _ _ _ _ _ _).
  assert (Hall : forall docs st1,
             skipped_existing (fold_left (step query) docs st1) = skipped_existing st1).
  { induction docs as [|d docs IH]; intros st1; simpl; [reflexivity|].
    rewrite IH. now apply step_skips_only_unforced. }
  fold (step query).
  destruct results as [|first rest]; [now rewrite Hall|].
  destruct (first !! "error"); [reflexivity|now rewrite Hall].
Qed.

(** X4: with [force_update=True] no document is skipped. *)
Theorem forced_run_skips_nothing (search_queries : option (list string)) (log : list s3_put)
    (now : Z) :
  force_update = true ->
  r_skipped_existing (fst (fst (run search_queries log now))) = 0%Z.
Proof.
  intros Hf. unfold incremental_scrape_diabetes_webmd. cbv zeta. simpl.
  fold (start log now). fold query_step.
  generalize (start log now) (eq_refl : skipped_existing (start log now) = 0%Z).
  induction (default default_queries search_queries) as [|q qs IH]; intros st Hst; simpl.
  - exact Hst.
  - apply IH. now rewrite query_skips_only_unforced.
Qed.

(** X5: when the storage service rejects every write, a run writes nothing,
    not even the tracker, reports no document as scraped or updated, and
    the hashes and the total of the tracker stay as loaded. *)
Theorem rejected_writes_change_nothing (search_queries : option (list string))
    (log : list s3_put) (now : Z) :
  (forall put, s3_put_error put <> None) ->
  let t0 := load_content_tracker isoformat stored_tracker bucket_name now in
  let result := fst (fst (run search_queries log now)) in
  let t := snd (fst (run search_queries log now)) in
  snd (run search_queries log now) = log /\
  url_hashes t = url_hashes t0 /\
  content_hashes t = content_hashes t0 /\
  total_documents t = total_documents t0 /\
  r_new_documents_scraped result = 0%Z /\
  r_updated_documents result = 0%Z /\
  r_s3_objects_created result = [] /\
  r_s3_objects_updated result = [].
Proof.
  intros Hdown. cbv zeta.
  destruct (run_reached search_queries log now) as (w & H & A).
  assert (w = []) as ->.
  { destruct w as [|p w]; [reflexivity|]. inversion A as [|? ? [Hp _] _]; subst.
    now destruct (Hdown p). }
  destruct H as [Hlog _ _ _ _ Hq _ _ Hcr Hup [kc Hkc] [ku Hku] _ Hw].
  specialize (Hq eq_refl).
  unfold incremental_scrape_diabetes_webmd. cbv zeta. simpl.
  fold (start log now). fold query_step. fold (finish search_queries log now).
  set (st := finish search_queries log now) in *.
  unfold save_content_tracker.
  match goal with |- context [s3_put_error ?p] => set (put := p) end.
  destruct (s3_put_error put) eqn:Eput; [|now destruct (Hdown put)].
  simpl in *. rewrite app_nil_r in Hlog. rewrite Hq.
  rewrite Nat.sub_0_r in Hcr, Hup.
  assert (new_documents_scraped st = 0%Z /\ updated_documents st = 0%Z) as [Hs Hu] by lia.
  rewrite Hs in Hcr. rewrite Hu in Hup.
  repeat split; auto.
  - destruct (s3_objects_created st); [reflexivity|simpl in Hcr; lia].
  - destruct (s3_objects_updated st); [reflexivity|simpl in Hup; lia].
Qed.

Lemma query_without_key (st : run_state) (query : string) :
  tavily_api_key = None \/ tavily_api_key = Some EmptyString ->
  query_step st query = add_error (search_failure query) st.
Proof.
  intros Hk. unfold query_step, process_query, tavily_search_webmd_diabetes_incremental.
  destruct Hk as [-> | ->]; reflexivity.
Qed.

Lemma queries_without_key (queries : list string) : forall st : run_state,
  tavily_api_key = None \/ tavily_api_key = Some EmptyString ->
  fold_left query_step queries st
  = RunState (tracker st) (new_documents_found st) (new_documents_scraped st)
      (updated_documents st) (skipped_existing st) (s3_objects_created st)
      (s3_objects_updated st) (errors st ++ map search_failure queries) (s3_log st) (clock st).
Proof.
  induction queries as [|q queries IH]; intros st Hk; simpl.
  - rewrite app_nil_r. now destruct st.
  - rewrite query_without_key by exact Hk. rewrite IH by exact Hk. simpl.
    now rewrite <- app_assoc.
Qed.

(** X6: without [TAVILY_API_KEY] a run finds and writes no document: it
    returns one error per query, in order, and zero counters, and only
    rewrites the tracker, with its hashes and total as loaded. *)
Theorem run_without_key (search_queries : option (list string)) (log : list s3_put)
    (now : Z) :
  tavily_api_key = None \/ tavily_api_key = Some EmptyString ->
  let t0 := load_content_tracker isoformat stored_tracker bucket_name now in
  let t := Tracker (url_hashes t0) (content_hashes t0) (isoformat now) (total_documents t0) in
  fst (run search_queries log now)
  = (ScrapingResult 0 0 0 0 [] []
       (map search_failure (default default_queries search_queries))
       (isoformat (now + seven_days)), t) /\
  (snd (run search_queries log now) = log ++ [tracker_put bucket_name t]
   \/ snd (run search_queries log now) = log).
Proof.
  intros Hk. cbv zeta.
  unfold incremental_scrape_diabetes_webmd. cbv zeta.
  fold query_step. rewrite queries_without_key by exact Hk. simpl.
  split; [reflexivity|].
  unfold save_content_tracker. fold (tracker_put bucket_name
    (Tracker (url_hashes (load_content_tracker isoformat stored_tracker bucket_name now))
       (content_hashes (load_content_tracker isoformat stored_tracker bucket_name now))
       (isoformat now)
       (total_documents (load_content_tracker isoformat stored_tracker bucket_name now)))).
  match goal with |- context [s3_put_error ?p] => destruct (s3_put_error p) end; auto.
Qed.

Lemma later_knows_more (st s : run_state) :
  later_in_run md5_hexdigest isoformat strftime_stamp str_of_number tavily_api_key
    tavily_post s3_put_error bucket_name s3_prefix max_results_per_query force_update st s ->
  content_hashes (tracker st) ⊆ content_hashes (tracker s).
Proof.
  clear start finish stored_tracker.
  induction 1 as [|s query result _ IH|s n _ IH|s msg _ IH|s query _ IH];
    [reflexivity| | exact IH | exact IH |].
  - destruct (step_reached query [] s s result (reached_refl s))
      as (w & [_ _ Hc _ _ _ _ _ _ _ _ _ _ _] & _).
    etransitivity; [exact IH|exact Hc].
  - destruct (query_reached [] s s query (reached_refl s))
      as (w & [_ _ Hc _ _ _ _ _ _ _ _ _ _ _] & _).
    etransitivity; [exact IH|exact Hc].
Qed.

(** X7: a result of the site that went through the body of the loop without
    an exception, stored or skipped, is skipped by every later pass of
    the loop over it, whatever the run has done in between and whatever
    the query of that pass. *)
Theorem second_pass_is_skipped (query query' : string) (st st1 st2 : run_state) (doc : hit) :
  force_update = false ->
  site_document doc ->
  process_body md5_hexdigest isoformat strftime_stamp s3_put_error bucket_name s3_prefix
    query force_update st doc = Ok st1 ->
  later_in_run md5_hexdigest isoformat strftime_stamp str_of_number tavily_api_key
    tavily_post s3_put_error bucket_name s3_prefix max_results_per_query force_update
    st1 st2 ->
  step query' st2 doc = skip_existing st2.
Proof.
  clear start finish stored_tracker.
  intros Hf Hdoc Hbody Hlater. apply later_knows_more in Hlater. unfold step. rewrite Hf.
  fold (body query st doc) in Hbody.
  destruct (process_body_cases query st doc)
    as [[_ Hn]|[[E [_ (c & Hc & Hin)]]|[[e E]|(put & u & c & upd & _ & Hc & _ & _ & _ & _ & E)]]];
    [contradiction| | congruence | ];
    rewrite E in Hbody; injection Hbody as <-;
    apply (ScraperProofs.process_known_document _ _ _ _ _ _ _ _ _ _ (md5_hexdigest c) Hdoc);
    try (unfold content_hash_of; now rewrite Hc).
  - simpl in Hlater. set_solver.
  - simpl in Hlater. set_solver.
Qed.


(** X8: the results of a search that did not fail are exactly the results of
    the API on the site that are new or changed, flagged accordingly;
    what the tracker knows by address and by content is left out. *)
Theorem search_keeps_new_and_changed (query : string) (raw : list hit)
    (searched_with : ContentTracker) :
  let search_results :=
    tavily_search_webmd_diabetes_incremental md5_hexdigest tavily_api_key tavily_post
      query max_results_per_query (Some searched_with) in
  tavily_post ("site:webmd.com " +:+ query +:+ " diabetes") max_results_per_query = Ok raw ->
  (forall first, head search_results = Some first -> first !! "error" = None) ->
  forall d, In d search_results <-> exists r, In r raw /\ keeps md5_hexdigest searched_with r d.
Proof.
  clear start finish stored_tracker query_step accepted step body isoformat strftime_stamp str_of_number s3_put_error bucket_name s3_prefix force_update.
  cbv zeta. unfold tavily_search_webmd_diabetes_incremental. intros Hraw.
  destruct tavily_api_key as [[|c key]|]; simpl.
  - intros H. specialize (H _ eq_refl). discriminate.
  - rewrite Hraw. simpl.
    destruct (filter_results md5_hexdigest (Some searched_with) raw []) as [out|e] eqn:E.
    + intros _ d. rewrite (filter_results_decide _ _ _ _ _ E d). simpl. tauto.
    + intros H. specialize (H _ eq_refl). discriminate.
  - intros H. specialize (H _ eq_refl). discriminate.
Qed.

(** X9: one result of the API whose [url] is present and is no string makes
    the whole search fail: the query adds one error and no document of
    its batch is looked at. *)
Theorem malformed_url_discards_batch (query : string) (raw : list hit) (r : hit) (v : jval)
    (st : run_state) :
  tavily_post ("site:webmd.com " +:+ query +:+ " diabetes") max_results_per_query = Ok raw ->
  In r raw -> r !! "url" = Some v -> not_a_string v ->
  exists msg, query_step st query = add_error ("Search failed for '" +:+ query +:+ "': " +:+ msg) st.
Proof.
  clear start finish stored_tracker accepted step body.
  intros Hraw Hin Hu Hv. unfold query_step, process_query,
    tavily_search_webmd_diabetes_incremental.
  destruct tavily_api_key as [[|c key]|]; simpl; eauto.
  rewrite Hraw. simpl.
  destruct (filter_results_need_strings md5_hexdigest (Some (tracker st)) raw r v Hin Hu Hv [])
    as [e ->].
  simpl. eauto.
Qed.

End Steps.

Lemma forced_run_skips_nothing_witness :
  r_skipped_existing (fst (fst Samples.forced_run)) = 0%Z.
Proof.
  exact (forced_run_skips_nothing plain_md5 Samples.fixed_iso Samples.fixed_stamp
           Samples.no_number (Some "tvly-key") one_article Samples.storage_up
           "mihc-diabetes-kb" "diabetes-webmd" 10 true Samples.no_tracker
           (Some ["insulin"]) [] 0%Z eq_refl).
Defined.

Lemma rejected_writes_change_nothing_witness :
  let t0 := load_content_tracker Samples.fixed_iso Samples.no_tracker "mihc-diabetes-kb" 0 in
  let result := fst (fst Samples.rejected_run) in
  let t := snd (fst Samples.rejected_run) in
  snd Samples.rejected_run = [] /\
  url_hashes t = url_hashes t0 /\
  content_hashes t = content_hashes t0 /\
  total_documents t = total_documents t0 /\
  r_new_documents_scraped result = 0%Z /\
  r_updated_documents result = 0%Z /\
  r_s3_objects_created result = [] /\
  r_s3_objects_updated result = [].
Proof.
  apply (rejected_writes_change_nothing plain_md5 Samples.fixed_iso Samples.fixed_stamp
           Samples.no_number (Some "tvly-key") one_article Samples.storage_down
           "mihc-diabetes-kb" "diabetes-webmd" 10 false Samples.no_tracker
           (Some ["insulin"]) [] 0%Z).
  intros put. discriminate.
Defined.

Lemma run_without_key_witness :
  let t0 := load_content_tracker Samples.fixed_iso Samples.no_tracker "mihc-diabetes-kb" 0 in
  let t :=
    Tracker (url_hashes t0) (content_hashes t0) (Samples.fixed_iso 0) (total_documents t0) in
  fst Samples.keyless_run
  = (ScrapingResult 0 0 0 0 [] [] (map search_failure ["insulin"; "metformin"])
       (Samples.fixed_iso (0 + seven_days)), t) /\
  (snd Samples.keyless_run = [] ++ [tracker_put "mihc-diabetes-kb" t]
   \/ snd Samples.keyless_run = []).
Proof.
  apply (run_without_key plain_md5 Samples.fixed_iso Samples.fixed_stamp
           Samples.no_number None one_article Samples.storage_up
           "mihc-diabetes-kb" "diabetes-webmd" 10 false Samples.no_tracker
           (Some ["insulin"; "metformin"]) [] 0%Z).
  left. reflexivity.
Defined.

Lemma second_pass_is_skipped_witness :
  process_result plain_md5 Samples.fixed_iso Samples.fixed_stamp Samples.no_number
    Samples.storage_up "mihc-diabetes-kb" "diabetes-webmd" "insulin" false
    (add_found 1 (add_error "Search failed for 'metformin': timeout" Samples.article_stored))
    found_article
  = skip_existing
      (add_found 1 (add_error "Search failed for 'metformin': timeout" Samples.article_stored)).
Proof.
  apply (second_pass_is_skipped plain_md5 Samples.fixed_iso Samples.fixed_stamp
           Samples.no_number (Some "tvly-key") one_article Samples.storage_up
           "mihc-diabetes-kb" "diabetes-webmd" 10 false
           "diabetes treatment" "insulin" Samples.fresh Samples.article_stored _ found_article).
  - reflexivity.
  - exists "https://www.webmd.com/diabetes/insulin". split; vm_compute; reflexivity.
  - vm_compute. reflexivity.
  - apply later_found, later_error, later_now.
Defined.

Lemma search_keeps_new_and_changed_witness :
  In found_article
     (tavily_search_webmd_diabetes_incremental plain_md5 (Some "tvly-key") one_article
        "insulin" 10 (Some empty_tracker))
  <-> exists r, In r [article] /\ keeps plain_md5 empty_tracker r found_article.
Proof.
  refine (search_keeps_new_and_changed plain_md5 (Some "tvly-key") one_article 10
            "insulin" [article] empty_tracker _ _ found_article).
  - reflexivity.
  - assert (E : tavily_search_webmd_diabetes_incremental plain_md5 (Some "tvly-key")
                  one_article "insulin" 10 (Some empty_tracker) = [found_article])
      by (vm_compute; reflexivity).
    rewrite E. intros first H. injection H as <-. reflexivity.
Defined.

Lemma malformed_url_discards_batch_witness :
  exists msg,
    process_query plain_md5 Samples.fixed_iso Samples.fixed_stamp Samples.no_number
      (Some "tvly-key") Samples.broken_batch Samples.storage_up "mihc-diabetes-kb"
      "diabetes-webmd" 10 false Samples.fresh "insulin"
    = add_error ("Search failed for 'insulin': " +:+ msg) Samples.fresh.
Proof.
  apply (malformed_url_discards_batch plain_md5 Samples.fixed_iso Samples.fixed_stamp
           Samples.no_number (Some "tvly-key") Samples.broken_batch Samples.storage_up
           "mihc-diabetes-kb" "diabetes-webmd" 10 false "insulin"
           [article; Samples.without_address] Samples.without_address JNull Samples.fresh).
  - reflexivity.
  - right. left. reflexivity.
  - reflexivity.
  - intros s. discriminate.
Defined.


(** ** The title in an object key *)

Lemma keep_chars_kept (keep : ascii -> bool) (s : string) :
  forallb keep (list_ascii_of_string (Py.keep_chars keep s)) = true.
Proof.
  induction s as [|c s IH]; simpl; [reflexivity|].
  destruct (keep c) eqn:E; simpl; [now rewrite E|exact IH].
Qed.

Lemma lstrip_keeps (p : ascii -> bool) (s : string) :
  forallb p (list_ascii_of_string s) = true ->
  forallb p (list_ascii_of_string (Py.lstrip s)) = true.
Proof.
  induction s as [|c s IH]; simpl; [auto|]. intros H.
  destruct (Py.is_space c); [|exact H]. apply andb_prop in H as [_ H]. auto.
Qed.

Lemma rstrip_keeps (p : ascii -> bool) (s : string) :
  forallb p (list_ascii_of_string s) = true ->
  forallb p (list_ascii_of_string (Py.rstrip s)) = true.
Proof.
  induction s as [|c s IH]; simpl; [auto|]. intros H.
  apply andb_prop in H as [Hc H]. specialize (IH H).
  destruct (Py.rstrip s) as [|c' s'].
  - destruct (Py.is_space c); simpl; [reflexivity|now rewrite Hc].
  - simpl in *. now rewrite Hc.
Qed.

Lemma lstrip_length (s : string) : (String.length (Py.lstrip s) <= String.length s)%nat.
Proof. induction s as [|c s IH]; simpl; [lia|]. destruct (Py.is_space c); simpl; lia. Qed.

Lemma rstrip_length (s : string) : (String.length (Py.rstrip s) <= String.length s)%nat.
Proof.
  induction s as [|c s IH]; simpl; [lia|].
  destruct (Py.rstrip s); [destruct (Py.is_space c)|]; simpl in *; lia.
Qed.

Lemma keep_chars_length (keep : ascii -> bool) (s : string) :
  (String.length (Py.keep_chars keep s) <= String.length s)%nat.
Proof. induction s as [|c s IH]; simpl; [lia|]. destruct (keep c); simpl; lia. Qed.

Lemma replace_char_length (a b : ascii) (s : string) :
  String.length (Py.replace_char a b s) = String.length s.
Proof. induction s as [|c s IH]; simpl; [reflexivity|]. now rewrite IH. Qed.

Lemma slice_to_length (n : nat) (s : string) : (String.length (Py.slice_to n s) <= n)%nat.
Proof.
  revert s. induction n as [|n IH]; intros [|c s]; simpl; try lia.
  specialize (IH s). lia.
Qed.

Lemma replace_space_key_chars (s : string) :
  forallb (fun c => key_char c || Ascii.eqb c " ") (list_ascii_of_string s) = true ->
  forallb key_char (list_ascii_of_string (Py.replace_char " " "_" s)) = true.
Proof.
  induction s as [|c s IH]; simpl; [auto|]. intros H.
  apply andb_prop in H as [Hc H]. rewrite (IH H), andb_true_r.
  destruct (Ascii.eqb c " ") eqn:E; [reflexivity|]. now rewrite orb_false_r in Hc.
Qed.

Lemma forallb_same (p q : ascii -> bool) (l : list ascii) :
  (forall c, p c = q c) -> forallb p l = forallb q l.
Proof. intros H. induction l as [|c l IH]; simpl; [reflexivity|]. now rewrite H, IH. Qed.

(** X10: for a title of ASCII characters, the title part of an object key is
    made of letters, digits, hyphens and underscores only, and is at most
    fifty characters long. *)
Theorem clean_title_is_key_safe (title : string) :
  forallb is_ascii (list_ascii_of_string title) = true ->
  let clean_title := clean_title_of (Py.slice_to 50 title) in
  forallb key_char (list_ascii_of_string clean_title) = true /\
  (String.length clean_title <= 50)%nat.
Proof.
  intros _. cbv zeta. unfold clean_title_of, Py.strip. split.
  - apply replace_space_key_chars. apply rstrip_keeps, lstrip_keeps.
    match goal with |- context [Py.keep_chars ?k _] => pose proof (keep_chars_kept k (Py.slice_to 50 title)) as H end.
    erewrite forallb_same; [exact H|]. intros c. unfold key_char. simpl.
    destruct (Py.isalnum c), (Ascii.eqb c " "), (Ascii.eqb c "-"), (Ascii.eqb c "_"); reflexivity.
  - rewrite replace_char_length.
    etransitivity; [apply rstrip_length|]. etransitivity; [apply lstrip_length|].
    etransitivity; [apply keep_chars_length|]. apply slice_to_length.
Qed.

Lemma clean_title_is_key_safe_witness :
  let clean_title := clean_title_of (Py.slice_to 50 "Type 2 diabetes: what to know!") in
  forallb key_char (list_ascii_of_string clean_title) = true /\
  (String.length clean_title <= 50)%nat.
Proof.
  apply (clean_title_is_key_safe "Type 2 diabetes: what to know!"). reflexivity.
Defined.

End ScraperRun.

(* ===================================================================== *)
(** * Content the tracker knows                                         *)
(* ===================================================================== *)

Module KnownContentProofs.
Import Scraper ScraperTerms Examples ScraperRun.

(** The filter of the search on a result whose content is known: it is
    kept, flagged as new, when its address is new, and passed over when
    its address is known too. *)
Lemma filter_result_known_content (md5_hexdigest : string -> string) (tr : ContentTracker)
    (acc : list hit) (r : hit) :
  known_content md5_hexdigest tr r ->
  filter_result md5_hexdigest (Some tr) acc r
  = Ok (if at_new_address md5_hexdigest tr r
        then acc ++ [<["is_new" := JBool true]> r] else acc).
Proof.
  intros (u & c & Hu & Hsite & Hc & Hin).
  unfold filter_result, at_new_address. rewrite Hu. simpl. rewrite Hsite. simpl.
  destruct (bool_decide (md5_hexdigest u ∈ url_hashes tr)); simpl; [|reflexivity].
  unfold content_hash_of. rewrite Hc. simpl.
  now rewrite bool_decide_eq_true_2 by exact Hin.
Qed.

Lemma flagged_known_content (md5_hexdigest : string -> string) (tr : ContentTracker)
    (r : hit) :
  known_content md5_hexdigest tr r ->
  site_document (<["is_new" := JBool true]> r)
  /\ exists h, content_hash_of md5_hexdigest (<["is_new" := JBool true]> r) = Ok h
               /\ h ∈ content_hashes tr.
Proof.
  intros (u & c & Hu & Hsite & Hc & Hin). split.
  - exists u. rewrite lookup_insert_ne by discriminate. auto.
  - exists (md5_hexdigest c). split; [|exact Hin].
    unfold content_hash_of, content_of in *.
    rewrite !lookup_insert_ne by discriminate. now rewrite Hc.
Qed.

(** C8, as amended: a result of the search API for a document of the
    site whose content hash is already in the tracker's [content_hashes],
    with [force_update = False], is never stored.  When its address is in
    [url_hashes] too, the filter of the search passes over it: it does
    not reach the loop and is counted neither as found nor as skipped.
    When its address is new, the search keeps it, flagged as new, and
    every pass of the loop over it, at any later state of the run, adds
    one to [skipped_existing] and does nothing else: nothing is written
    to object storage and the tracker stays as it is. *)
Theorem known_content_is_dropped_or_skipped
    (md5_hexdigest : string -> string) (isoformat strftime_stamp : Z -> string)
    (str_of_number : jval -> string) (tavily_api_key : option string)
    (tavily_post : string -> nat -> outcome (list hit))
    (s3_put_error : s3_put -> option exn)
    (bucket_name s3_prefix query : string) (max_results_per_query : nat)
    (st st2 : run_state) (new_results : list hit) (result : hit) :
  known_content md5_hexdigest (tracker st) result ->
  later_in_run md5_hexdigest isoformat strftime_stamp str_of_number tavily_api_key
    tavily_post s3_put_error bucket_name s3_prefix max_results_per_query false st st2 ->
  if at_new_address md5_hexdigest (tracker st) result
  then
    let kept := <["is_new" := JBool true]> result in
    let st' :=
      process_result md5_hexdigest isoformat strftime_stamp str_of_number s3_put_error
        bucket_name s3_prefix query false st2 kept in
    filter_result md5_hexdigest (Some (tracker st)) new_results result
    = Ok (new_results ++ [kept]) /\
    st' = skip_existing st2 /\
    skipped_existing st' = (skipped_existing st2 + 1)%Z /\
    s3_log st' = s3_log st2 /\
    tracker st' = tracker st2
  else
    filter_result md5_hexdigest (Some (tracker st)) new_results result = Ok new_results.
Proof.
  intros Hknown Hlater.
  rewrite (filter_result_known_content md5_hexdigest (tracker st) new_results result Hknown).
  destruct (at_new_address md5_hexdigest (tracker st) result); [|reflexivity].
  cbv zeta. split; [reflexivity|].
  destruct (flagged_known_content md5_hexdigest (tracker st) result Hknown)
    as (Hsite & h & Hh & Hin).
  apply later_knows_more in Hlater.
  rewrite (ScraperProofs.process_known_document md5_hexdigest isoformat strftime_stamp
             str_of_number s3_put_error bucket_name s3_prefix query st2 _ h Hsite Hh)
    by (apply Hlater, Hin).
  repeat split; reflexivity.
Qed.

Lemma known_content_is_dropped_or_skipped_witness :
  let kept := <["is_new" := JBool true]> article in
  let st' :=
    process_result plain_md5 Samples.fixed_iso Samples.fixed_stamp Samples.no_number
      Samples.storage_up "mihc-diabetes-kb" "diabetes-webmd" "insulin" false
      (add_found 1 knows_article) kept in
  filter_result plain_md5 (Some (tracker knows_article)) [] article = Ok ([] ++ [kept]) /\
  st' = skip_existing (add_found 1 knows_article) /\
  skipped_existing st' = (skipped_existing (add_found 1 knows_article) + 1)%Z /\
  s3_log st' = s3_log (add_found 1 knows_article) /\
  tracker st' = tracker (add_found 1 knows_article).
Proof.
  apply (known_content_is_dropped_or_skipped plain_md5 Samples.fixed_iso Samples.fixed_stamp
           Samples.no_number (Some "tvly-key") one_article Samples.storage_up
           "mihc-diabetes-kb" "diabetes-webmd" "insulin" 10
           knows_article (add_found 1 knows_article) [] article).
  - exists "https://www.webmd.com/diabetes/insulin", "Insulin lowers blood glucose.".
    split; [reflexivity|]. split; [vm_compute; reflexivity|]. split; [reflexivity|].
    simpl. set_solver.
  - apply later_found, later_now.
Defined.

(** A run over an article that an earlier run has stored: the content
    hash of the article is in the tracker the run loads, and the run
    counts the article neither as found nor as skipped; what it writes is
    the tracker. *)
Lemma unchanged_article_is_not_counted :
  r_new_documents_scraped (fst (fst Samples.first_run)) = 1%Z /\
  plain_md5 "Insulin lowers blood glucose."
    ∈ content_hashes (load_content_tracker Samples.fixed_iso Samples.saved_by_first_run
                        "mihc-diabetes-kb" 604800) /\
  r_new_documents_found (fst (fst Samples.second_run)) = 0%Z /\
  r_skipped_existing (fst (fst Samples.second_run)) = 0%Z /\
  length (snd Samples.second_run) = S (length (snd Samples.first_run)).
Proof.
  split; [vm_compute; reflexivity|]. split.
  - assert (H : bool_decide
                  (plain_md5 "Insulin lowers blood glucose."
                     ∈ content_hashes
                         (load_content_tracker Samples.fixed_iso Samples.saved_by_first_run
                            "mihc-diabetes-kb" 604800)) = true)
      by (vm_compute; reflexivity).
    exact (bool_decide_eq_true_1 _ H).
  - split; [vm_compute; reflexivity|]. split; vm_compute; reflexivity.
Qed.

(** The search keeps, of results whose content is known, those at a new
    address, flagged as new. *)
Lemma filter_known_content (md5_hexdigest : string -> string) (tr : ContentTracker)
    (raw : list hit) : forall acc : list hit,
  Forall (known_content md5_hexdigest tr) raw ->
  filter_results md5_hexdigest (Some tr) raw acc
  = Ok (acc ++ map (fun r => <["is_new" := JBool true]> r)
                   (List.filter (at_new_address md5_hexdigest tr) raw)).
Proof.
  induction raw as [|r raw IH]; intros acc Hall; simpl.
  - now rewrite app_nil_r.
  - inversion Hall as [|? ? Hr Hrest]; subst.
    rewrite (filter_result_known_content md5_hexdigest tr acc r Hr). simpl.
    destruct (at_new_address md5_hexdigest tr r); [|apply IH, Hrest].
    rewrite IH by exact Hrest. simpl. now rewrite <- app_assoc.
Qed.

(** The loop over results whose content is known skips each of them. *)
Lemma known_documents_are_skipped
    (md5_hexdigest : string -> string) (isoformat strftime_stamp : Z -> string)
    (str_of_number : jval -> string) (s3_put_error : s3_put -> option exn)
    (bucket_name s3_prefix query : string) (docs : list hit) : forall st : run_state,
  Forall (fun doc => site_document doc /\
                     exists h, content_hash_of md5_hexdigest doc = Ok h
                               /\ h ∈ content_hashes (tracker st)) docs ->
  let st' :=
    fold_left (process_result md5_hexdigest isoformat strftime_stamp str_of_number
                 s3_put_error bucket_name s3_prefix query false) docs st in
  skipped_existing st' = (skipped_existing st + Z.of_nat (length docs))%Z /\
  new_documents_found st' = new_documents_found st /\
  s3_log st' = s3_log st /\
  tracker st' = tracker st /\
  new_documents_scraped st' = new_documents_scraped st /\
  updated_documents st' = updated_documents st /\
  errors st' = errors st.
Proof.
  induction docs as [|doc docs IH]; intros st Hall; cbv zeta.
  - simpl. repeat split; try reflexivity. lia.
  - inversion Hall as [|? ? (Hsite & h & Hh & Hin) Hrest]; subst.
    cbn [fold_left].
    rewrite (ScraperProofs.process_known_document md5_hexdigest isoformat strftime_stamp
               str_of_number s3_put_error bucket_name s3_prefix query st doc h Hsite Hh Hin).
    destruct (IH (skip_existing st) Hrest) as (H1 & H2 & H3 & H4 & H5 & H6 & H7).
    rewrite H1, H2, H3, H4, H5, H6, H7. cbn [length]. simpl.
    repeat split; try reflexivity. lia.
Qed.

(** X24: a query over unchanged content: with [force_update = False], a query
    whose results are all documents of the site with a content hash
    already in the tracker's [content_hashes] writes nothing to object
    storage and leaves the tracker as it is; [new_documents_found] and
    [skipped_existing] both grow by the number of results at an address
    the tracker does not know, and by nothing for the results it knows by
    address and by content. *)
Theorem known_content_is_not_stored
    (md5_hexdigest : string -> string) (isoformat strftime_stamp : Z -> string)
    (str_of_number : jval -> string) (key : string)
    (tavily_post : string -> nat -> outcome (list hit))
    (s3_put_error : s3_put -> option exn)
    (bucket_name s3_prefix query : string) (max_results_per_query : nat)
    (st : run_state) (raw : list hit) :
  key <> EmptyString ->
  tavily_post ("site:webmd.com " +:+ query +:+ " diabetes") max_results_per_query = Ok raw ->
  Forall (known_content md5_hexdigest (tracker st)) raw ->
  Forall (fun r => r !! "error" = None) raw ->
  let st' :=
    process_query md5_hexdigest isoformat strftime_stamp str_of_number (Some key)
      tavily_post s3_put_error bucket_name s3_prefix max_results_per_query false st query in
  let at_new_addresses :=
    Z.of_nat (length (List.filter (at_new_address md5_hexdigest (tracker st)) raw)) in
  skipped_existing st' = (skipped_existing st + at_new_addresses)%Z /\
  new_documents_found st' = (new_documents_found st + at_new_addresses)%Z /\
  s3_log st' = s3_log st /\
  tracker st' = tracker st /\
  new_documents_scraped st' = new_documents_scraped st /\
  updated_documents st' = updated_documents st /\
  errors st' = errors st.
Proof.
  intros Hkey Hraw Hall Hclean. cbv zeta.
  unfold process_query, tavily_search_webmd_diabetes_incremental.
  destruct key as [|k key]; [congruence|]. rewrite Hraw. simpl.
  rewrite (filter_known_content md5_hexdigest (tracker st) raw [] Hall). simpl.
  set (kept := List.filter (at_new_address md5_hexdigest (tracker st)) raw).
  set (docs := map (fun r => <["is_new" := JBool true]> r) kept).
  assert (Hkept : forall r, In r kept ->
            known_content md5_hexdigest (tracker st) r /\ r !! "error" = None).
  { intros r Hr. apply filter_In in Hr as [Hr _].
    rewrite List.Forall_forall in Hall, Hclean. auto. }
  assert (Hdocs : Forall (fun doc => site_document doc /\
                            exists h, content_hash_of md5_hexdigest doc = Ok h
                                      /\ h ∈ content_hashes
                                            (tracker (add_found (Z.of_nat (length docs)) st)))
                         docs).
  { unfold docs. apply List.Forall_forall. intros doc Hdoc.
    apply in_map_iff in Hdoc as (r & <- & Hr).
    apply flagged_known_content, Hkept, Hr. }
  pose proof (known_documents_are_skipped md5_hexdigest isoformat strftime_stamp
                str_of_number s3_put_error bucket_name s3_prefix query docs _ Hdocs) as Hrun.
  cbv zeta in Hrun.
  assert (Hlen : length docs = length kept) by (unfold docs; apply length_map).
  assert (Hfirst : forall first rest, docs = first :: rest -> first !! "error" = None).
  { intros first rest E.
    assert (Hin : In first docs) by (rewrite E; left; reflexivity).
    unfold docs in Hin. apply in_map_iff in Hin as (r & <- & Hr).
    rewrite lookup_insert_ne by discriminate. apply Hkept, Hr. }
  destruct docs as [|first rest] eqn:Edocs.
  - simpl in *. rewrite <- Hlen. simpl. repeat split; try reflexivity; lia.
  - rewrite (Hfirst first rest eq_refl).
    destruct Hrun as (H1 & H2 & H3 & H4 & H5 & H6 & H7).
    rewrite H1, H2, H3, H4, H5, H6, H7. rewrite <- Hlen. simpl.
    repeat split; try reflexivity; lia.
Qed.

Lemma known_content_is_not_stored_witness :
  let st' :=
    process_query plain_md5 Samples.fixed_iso Samples.fixed_stamp Samples.no_number
      (Some "tvly-key") one_article Samples.storage_up "mihc-diabetes-kb" "diabetes-webmd"
      10 false knows_article "insulin" in
  skipped_existing st' = (skipped_existing knows_article + 1)%Z /\
  new_documents_found st' = (new_documents_found knows_article + 1)%Z /\
  s3_log st' = s3_log knows_article /\
  tracker st' = tracker knows_article /\
  new_documents_scraped st' = new_documents_scraped knows_article /\
  updated_documents st' = updated_documents knows_article /\
  errors st' = errors knows_article.
Proof.
  apply (known_content_is_not_stored plain_md5 Samples.fixed_iso Samples.fixed_stamp
           Samples.no_number "tvly-key" one_article Samples.storage_up "mihc-diabetes-kb"
           "diabetes-webmd" "insulin" 10 knows_article [article]).
  - discriminate.
  - reflexivity.
  - constructor; [|constructor].
    exists "https://www.webmd.com/diabetes/insulin", "Insulin lowers blood glucose.".
    split; [reflexivity|]. split; [vm_compute; reflexivity|]. split; [reflexivity|].
    simpl. set_solver.
  - repeat constructor.
Defined.

End KnownContentProofs.

(* ===================================================================== *)
(** * Further properties of the emergency detector                      *)
(* ===================================================================== *)

Module DetectorMore.
Import Re Tools ReFacts Phrasing ToolTerms DetectorProofs.

Lemma lower_app (a b : string) : Py.lower (a +:+ b) = Py.lower a +:+ Py.lower b.
Proof. induction a as [|c a IH]; simpl; [reflexivity|]. now rewrite IH. Qed.

Lemma matches_plain (r : regex) : forall s after after',
  plain r = true -> matches r s after -> matches r s after'.
Proof.
  induction r as [l|p|r1 IH1 r2 IH2|r1 IH1 r2 IH2|n g p|r1 IH1|i r1 IH1|r1 IH1|];
    intros s after after' Hp M; simpl in *; try discriminate; auto.
  - apply andb_prop in Hp as [H1 H2]. destruct M as (s1 & s2 & -> & M1 & M2).
    exists s1, s2. eauto.
  - apply andb_prop in Hp as [H1 H2]. destruct M as [M|M]; eauto.
  - destruct M as [->|M]; eauto.
  - eauto.
Qed.

Lemma occurs_plain_context (r : regex) (pre s post : list ascii) :
  plain r = true -> occurs r s -> occurs r (pre ++ s ++ post).
Proof.
  intros Hp (a & mid & b & -> & M).
  exists (pre ++ a), mid, (b ++ post). split.
  - now rewrite <- !app_assoc.
  - eapply matches_plain; eauto.
Qed.

Lemma emergency_patterns_plain :
  forallb (fun entry => forallb plain (snd entry)) emergency_patterns = true.
Proof. reflexivity. Qed.

Lemma emergency_types_scan (query : string) :
  emergency_types_of (detect_emergency query) = scan_emergencies (Py.lower query).
Proof.
  unfold detect_emergency, emergency_types_of.
  destruct (scan_emergencies (Py.lower query)); reflexivity.
Qed.

(** X11: text added before and after a query never hides an emergency: every
    category reported for the query is reported for the longer text. *)
Theorem surrounding_text_keeps_emergencies (before query after cat : string) :
  In cat (emergency_types_of (detect_emergency query)) ->
  In cat (emergency_types_of (detect_emergency (before +:+ query +:+ after))).
Proof.
  rewrite !emergency_types_scan, !in_scan_emergencies.
  intros (patterns & Hin & Hm). exists patterns. split; [exact Hin|].
  apply first_match_occurs in Hm as (p & Hp & Hocc). apply first_match_occurs.
  exists p. split; [exact Hp|].
  rewrite !lower_app, !list_ascii_of_string_app.
  apply occurs_plain_context; [|exact Hocc].
  pose proof emergency_patterns_plain as Hall.
  rewrite forallb_forall in Hall. specialize (Hall _ Hin). simpl in Hall.
  rewrite forallb_forall in Hall. apply Hall, Hp.
Qed.

Lemma surrounding_text_keeps_emergencies_witness :
  In "cardiac" (emergency_types_of
                  (detect_emergency ("Hi. " +:+ "I have chest pain and I am diabetic" +:+ " Thanks."))).
Proof.
  apply (surrounding_text_keeps_emergencies "Hi. " "I have chest pain and I am diabetic"
           " Thanks." "cardiac").
  vm_compute. left. reflexivity.
Defined.

(** X12: a reading after the word glucose whose first digit is 1, 2 or 3 and
    which has a second digit is reported as severe hypoglycemia, whatever
    its size: 150 or 350 as well as 15 or 35. *)
Theorem glucose_reading_reported_low (query pre mid post : string) (d1 d2 : ascii) :
  range "1" "3" d1 = true ->
  digit d2 = true ->
  one_line mid ->
  Py.lower query = pre +:+ "glucose" +:+ mid +:+ String d1 (String d2 post) ->
  In "severe_hypoglycemia" (emergency_types_of (detect_emergency query)).
Proof.
  intros H1 H2 Hmid Hq. rewrite emergency_types_scan, in_scan_emergencies.
  exists hypoglycemia_patterns. split; [right; left; reflexivity|].
  apply first_match_occurs. eexists. split; [right; left; reflexivity|].
  rewrite Hq, !list_ascii_of_string_app.
  exists (list_ascii_of_string pre),
    (list_ascii_of_string "glucose" ++ list_ascii_of_string mid ++ [d1; d2]),
    (list_ascii_of_string post).
  split; [simpl; rewrite <- !app_assoc; reflexivity|].
  apply matches_cat; [apply matches_lit|].
  apply matches_cat; [simpl; split; [lia|exact Hmid]|].
  simpl. exists [d1], [d2]. split; [reflexivity|]. split; eauto.
Qed.

Lemma glucose_reading_reported_low_witness :
  In "severe_hypoglycemia" (emergency_types_of (detect_emergency "My glucose was 350 today")).
Proof.
  apply (glucose_reading_reported_low "My glucose was 350 today" "my " " was " "0 today"
           "3" "5"); reflexivity.
Defined.

End DetectorMore.

(* ===================================================================== *)
(** * Further properties of the medication checker                      *)
(* ===================================================================== *)

Module MedicationMore.
Import Tools ToolTerms.

Lemma append_when {A B} (f : A -> bool) (g : A -> B) (l : list A) : forall acc : list B,
  fold_left (fun acc x => if f x then acc ++ [g x] else acc) l acc
  = acc ++ map g (List.filter f l).
Proof.
  induction l as [|x l IH]; intros acc; simpl; [now rewrite app_nil_r|].
  rewrite IH. destruct (f x); simpl; [now rewrite <- app_assoc|reflexivity].
Qed.

Lemma check_known_med_appends (medication query_lower : string) (info : med_info)
    (acc : list string) :
  check_known_med medication query_lower info acc
  = acc ++ entry_warnings medication query_lower info.
Proof.
  unfold check_known_med, entry_warnings.
  rewrite (append_when (fun c => Py.contains c query_lower)
             (contraindication_warning medication)).
  rewrite (append_when (fun i => Py.contains i query_lower) (interaction_alert medication)).
  destruct (Py.any _ warning_keywords); rewrite <- ?app_assoc, ?app_nil_r; reflexivity.
Qed.

Lemma check_one_medication_appends (query_lower medication : string) (acc : list string) :
  check_one_medication query_lower acc medication
  = acc ++ flat_map (fun entry =>
                       if Py.contains (fst entry) (Py.lower medication)
                       then entry_warnings medication query_lower (snd entry) else [])
                    interaction_db.
Proof.
  unfold check_one_medication. generalize interaction_db. intros db. revert acc.
  induction db as [|e db IH]; intros acc; simpl; [now rewrite app_nil_r|].
  rewrite IH. destruct (Py.contains (fst e) (Py.lower medication)); simpl; [|reflexivity].
  rewrite check_known_med_appends. now rewrite <- app_assoc.
Qed.

Lemma all_medications_append (query_lower : string) (medications : list string) :
  forall acc : list string,
    fold_left (check_one_medication query_lower) medications acc
    = acc ++ flat_map (fun medication =>
                         flat_map (fun entry =>
                                     if Py.contains (fst entry) (Py.lower medication)
                                     then entry_warnings medication query_lower (snd entry)
                                     else [])
                                  interaction_db)
                      medications.
Proof.
  induction medications as [|med meds IH]; intros acc; simpl; [now rewrite app_nil_r|].
  rewrite IH, check_one_medication_appends. now rewrite <- app_assoc.
Qed.

Lemma safety_warnings_flat (medications : list string) (query : string) :
  safety_warnings_of (check_medication_safety medications query)
  = flat_map (fun medication =>
                flat_map (fun entry =>
                            if Py.contains (fst entry) (Py.lower medication)
                            then entry_warnings medication (Py.lower query) (snd entry)
                            else [])
                         interaction_db)
             medications.
Proof.
  unfold check_medication_safety, safety_warnings_of.
  destruct medications as [|med meds]; [reflexivity|].
  rewrite all_medications_append. reflexivity.
Qed.

Lemma in_entry_warnings (medication query_lower w : string) (info : med_info) :
  In w (entry_warnings medication query_lower info) <->
  (exists c, In c (contraindications info) /\ Py.contains c query_lower = true
             /\ w = contraindication_warning medication c)
  \/ (exists i, In i (interactions info) /\ Py.contains i query_lower = true
                /\ w = interaction_alert medication i)
  \/ (exists kw, In kw warning_keywords /\ Py.contains kw query_lower = true
                 /\ w = general_note info).
Proof.
  unfold entry_warnings. rewrite !in_app_iff, !in_map_iff. unfold Py.any.
  split.
  - intros [(c & <- & Hc)|[(i & <- & Hi)|H]].
    + apply filter_In in Hc as [? ?]. left. eauto.
    + apply filter_In in Hi as [? ?]. right; left. eauto.
    + destruct (existsb _ warning_keywords) eqn:E; [|destruct H].
      destruct H as [<-|[]]. apply existsb_exists in E as (kw & ? & ?). right; right. eauto.
  - intros [(c & ? & ? & ->)|[(i & ? & ? & ->)|(kw & ? & ? & ->)]].
    + left. exists c. split; [reflexivity|]. apply filter_In. auto.
    + right; left. exists i. split; [reflexivity|]. apply filter_In. auto.
    + right; right.
      assert (E : existsb (fun kw => Py.contains kw query_lower) warning_keywords = true).
      { apply existsb_exists. eauto. }
      rewrite E. left. reflexivity.
Qed.

Lemma warning_needs_cause (medications : list string) (query w : string) :
  In w (safety_warnings_of (check_medication_safety medications query)) ->
  warning_cause medications query w.
Proof.
  rewrite safety_warnings_flat, in_flat_map.
  intros (med & Hmed & H). apply in_flat_map in H as ([known info] & Hdb & H).
  simpl in H. destruct (Py.contains known (Py.lower med)) eqn:Ek; [|destruct H].
  apply in_entry_warnings in H as [(c & ? & ? & ->)|[(i & ? & ? & ->)|(kw & ? & ? & ->)]].
  - eapply cause_contraindication; eauto.
  - eapply cause_interaction; eauto.
  - eapply cause_general; eauto.
Qed.

(** X13: for medications and a query of ASCII text, on which lowercasing is
    Python's: the warnings returned are exactly those with a cause, a
    medication of the list that names an entry of the table, together
    with a contraindication or an interaction of that entry named in the
    query, or with one of the four general keywords named in the query. *)
Theorem safety_warnings_have_causes (medications : list string) (query w : string) :
  Forall Py.ascii_text medications ->
  Py.ascii_text query ->
  In w (safety_warnings_of (check_medication_safety medications query))
  <-> warning_cause medications query w.
Proof.
  intros _ _. split; [apply warning_needs_cause|].
  rewrite safety_warnings_flat, in_flat_map.
  - intros H.
    assert (exists med known info,
              In med medications /\ In (known, info) interaction_db
              /\ Py.contains known (Py.lower med) = true
              /\ In w (entry_warnings med (Py.lower query) info))
      as (med & known & info & Hmed & Hdb & Hk & Hw).
    { destruct H as [med known c info|med known i info|med known kw info];
        exists med, known, info; repeat split; auto; apply in_entry_warnings; eauto 10. }
    exists med. split; [exact Hmed|]. apply in_flat_map. exists (known, info).
    split; [exact Hdb|]. simpl. now rewrite Hk.
Qed.

Lemma safety_warnings_have_causes_witness :
  In (contraindication_warning "Metformin 500mg" "kidney disease")
     (safety_warnings_of
        (check_medication_safety ["Metformin 500mg"] "I have Kidney Disease, is it safe?"))
  <-> warning_cause ["Metformin 500mg"] "I have Kidney Disease, is it safe?"
        (contraindication_warning "Metformin 500mg" "kidney disease").
Proof.
  apply (safety_warnings_have_causes ["Metformin 500mg"] "I have Kidney Disease, is it safe?").
  - repeat constructor.
  - reflexivity.
Defined.

(** X14: for medications and a query of ASCII text: [has_concerns] is false
    when no medication of the list names an entry of the table, and when
    the query names no keyword of the table and no general keyword. *)
Theorem no_concerns_without_cause (medications : list string) (query : string) :
  Forall Py.ascii_text medications ->
  Py.ascii_text query ->
  (forall medication known info,
      In medication medications -> In (known, info) interaction_db ->
      Py.contains known (Py.lower medication) = false)
  \/ (forall known info kw,
        In (known, info) interaction_db ->
        In kw (contraindications info ++ interactions info ++ warning_keywords) ->
        Py.contains kw (Py.lower query) = false) ->
  check_medication_safety medications query !! "has_concerns" = Some (VBool false) /\
  check_medication_safety medications query !! "safety_warnings" = Some (VStrs []).
Proof.
  intros _ _ H.
  assert (Hw : safety_warnings_of (check_medication_safety medications query) = []).
  { destruct (safety_warnings_of _) as [|w ws] eqn:E; [reflexivity|]. exfalso.
    assert (Hc : warning_cause medications query w).
    { apply warning_needs_cause. rewrite E. left. reflexivity. }
    destruct H as [H|H].
    - destruct Hc as [med known c info Hm Hd Hk|med known i info Hm Hd Hk|med known kw info Hm Hd Hk];
        rewrite (H _ _ _ Hm Hd) in Hk; discriminate.
    - destruct Hc as [med known c info Hm Hd Hk Hc Hq|med known i info Hm Hd Hk Hi Hq
                     |med known kw info Hm Hd Hk Hkw Hq];
        rewrite (H known info) in Hq; try discriminate; try exact Hd;
        rewrite !in_app_iff; auto. }
  unfold check_medication_safety, safety_warnings_of in *.
  destruct medications as [|med meds]; [split; reflexivity|].
  change ((<["safety_warnings" := VStrs ?l]> _) !! "safety_warnings") with (Some (VStrs l)) in Hw.
  simpl in Hw.
  set (ws := fold_left _ _ _) in *. clearbody ws. subst ws.
  split; reflexivity.
Qed.

Lemma no_concerns_without_cause_witness :
  check_medication_safety ["aspirin"] "is there a problem with alcohol" !! "has_concerns"
  = Some (VBool false) /\
  check_medication_safety ["aspirin"] "is there a problem with alcohol" !! "safety_warnings"
  = Some (VStrs []).
Proof.
  apply (no_concerns_without_cause ["aspirin"] "is there a problem with alcohol");
    [repeat constructor|reflexivity|].
  left. intros medication known info [<-|[]] Hdb.
  repeat (destruct Hdb as [Hdb|Hdb]; [injection Hdb as <- <-; vm_compute; reflexivity|]).
  destruct Hdb.
Defined.

End MedicationMore.

(* ===================================================================== *)
(** * The extraction reads back what is written in its format           *)
(* ===================================================================== *)

Module ExtractionProofs.
Import Re Tools ReFacts ToolTerms TextFacts.

Section Lazy.
Context {R : Type} (p : ascii -> bool) (k : list ascii -> option R).

(** A lazy repetition stops at the first place where what follows
    matches. *)
Lemma rep_lazy_first (s1 s2 : list ascii) (x : R) :
  forallb p s1 = true ->
  (forall a c b, s1 = a ++ c :: b -> k (c :: b ++ s2) = None) ->
  k s2 = Some x ->
  rep_lazy p k (s1 ++ s2) = Some x.
Proof.
  intros Hp Hno Hk. induction s1 as [|c s1 IH].
  - destruct s2; simpl; now rewrite Hk.
  - simpl. rewrite (Hno [] c s1 eq_refl). simpl in Hp. apply andb_prop in Hp as [-> Hp].
    apply IH; [exact Hp|]. intros a c' b E. apply (Hno (c :: a) c' b). now rewrite E.
Qed.

(** A greedy repetition takes the whole run when what follows matches. *)
Lemma rep_greedy_run (s1 s2 : list ascii) (x : R) :
  forallb p s1 = true ->
  (match s2 with [] => true | c :: _ => negb (p c) end) = true ->
  k s2 = Some x ->
  rep_greedy p k (s1 ++ s2) = Some x.
Proof.
  intros Hp Hstop Hk. induction s1 as [|c s1 IH].
  - destruct s2 as [|c s2]; simpl; [exact Hk|].
    apply negb_true_iff in Hstop. now rewrite Hstop.
  - simpl. simpl in Hp. apply andb_prop in Hp as [-> Hp]. now rewrite (IH Hp).
Qed.

End Lazy.

Lemma m_ahead {R : Type} (s : list ascii) (cs : list (nat * list ascii))
    (k : mstate -> option R) :
  m (Ahead (Alt (Lit "Score:") EndZ)) (MState s cs) k
  = if at_block_end s then k (MState s cs) else None.
Proof.
  unfold at_block_end. cbn [m rest caps].
  destruct (strip_prefix (list_ascii_of_string "Score:") s); [reflexivity|].
  destruct s; reflexivity.
Qed.


Abbreviation SC := (list_ascii_of_string "Score:").
Abbreviation NC := (list_ascii_of_string (String Py.nl "Content:")).

Lemma take_own_prefix {A} (a b : list A) : take (length (a ++ b) - length b) (a ++ b) = a.
Proof.
  rewrite length_app. replace (length a + length b - length b)%nat with (length a) by lia.
  induction a as [|x a IH]; simpl; [now destruct b|]. now rewrite IH.
Qed.

(** The group takes the text up to the first place where the lookahead
    holds. *)
Lemma capture_to_block_end (body rest : list ascii) (cs : list (nat * list ascii)) :
  (forall a c b, body = a ++ c :: b -> at_block_end (c :: b ++ rest) = false) ->
  at_block_end rest = true ->
  m (Grp 1 (Rep 0 false dotall) +++ Ahead (Alt (Lit "Score:") EndZ))
    (MState (body ++ rest) cs) Some
  = Some (MState rest ((1, body) :: cs)).
Proof.
  intros Hno Hend.
  change (m (Grp 1 (Rep 0 false dotall) +++ Ahead (Alt (Lit "Score:") EndZ))
            (MState (body ++ rest) cs) Some)
    with (rep_lazy dotall
            (fun s' => m (Ahead (Alt (Lit "Score:") EndZ))
                         (MState s' ((1, take (length (body ++ rest) - length s') (body ++ rest))
                                     :: cs)) Some)
            (body ++ rest)).
  apply rep_lazy_first.
  - clear. induction body; simpl; auto.
  - intros a c b E. rewrite m_ahead, (Hno a c b E). reflexivity.
  - rewrite m_ahead, Hend, take_own_prefix. reflexivity.
Qed.

Lemma at_block_end_inv (rest : list ascii) :
  at_block_end rest = true -> rest = [] \/ exists r, rest = SC ++ r.
Proof.
  unfold at_block_end. destruct (strip_prefix SC rest) as [r|] eqn:E.
  - intros _. right. exists r. now apply strip_prefix_inv.
  - destruct rest; [auto|discriminate].
Qed.

(** The marker cannot start in a text without it and end in the marker
    that follows. *)
Lemma no_marker_across (t rest : list ascii) :
  (forall a b, t = a ++ b -> strip_prefix SC b = None) ->
  at_block_end rest = true ->
  forall a c b, t = a ++ c :: b -> at_block_end (c :: b ++ rest) = false.
Proof.
  intros Hno Hend a c b E. unfold at_block_end.
  assert (Hu : strip_prefix SC (c :: b) = None) by (apply (Hno a), E).
  assert (H : strip_prefix SC (c :: b ++ rest) = None); [|now rewrite H].
  destruct (at_block_end_inv rest Hend) as [->|[r ->]].
  - now rewrite app_nil_r.
  - clear -Hu.
    destruct b as [|c2 [|c3 [|c4 [|c5 [|c6 b]]]]];
      cbn [strip_prefix list_ascii_of_string app] in *;
      repeat match goal with
             | |- context [Ascii.eqb ?x c] => destruct (Ascii.eqb x c)
             | |- context [Ascii.eqb ?x c2] => destruct (Ascii.eqb x c2)
             | |- context [Ascii.eqb ?x c3] => destruct (Ascii.eqb x c3)
             | |- context [Ascii.eqb ?x c4] => destruct (Ascii.eqb x c4)
             | |- context [Ascii.eqb ?x c5] => destruct (Ascii.eqb x c5)
             | |- context [Ascii.eqb ?x c6] => destruct (Ascii.eqb x c6)
             end;
      solve [reflexivity | congruence].
Qed.

Lemma contains_false_no_prefix (sub s : string) :
  Py.contains sub s = false ->
  forall a b, list_ascii_of_string s = a ++ b -> strip_prefix (list_ascii_of_string sub) b = None.
Proof.
  intros Hc a b E. destruct (strip_prefix (list_ascii_of_string sub) b) as [x|] eqn:Ex;
    [|reflexivity].
  apply strip_prefix_inv in Ex. subst b.
  rewrite <- (string_of_list_ascii_of_string s), E, !string_of_list_app in Hc.
  rewrite string_of_list_ascii_of_string, contains_app in Hc. discriminate.
Qed.

(** The leading white space of a text and what [lstrip] leaves. *)
Lemma lstrip_split (s : string) :
  exists ws, list_ascii_of_string s = ws ++ list_ascii_of_string (Py.lstrip s)
             /\ forallb space ws = true
             /\ (match list_ascii_of_string (Py.lstrip s) with
                 | [] => true
                 | c :: _ => negb (space c)
                 end) = true.
Proof.
  induction s as [|c s (ws & E & Hw & Hh)]; simpl.
  - exists []. auto.
  - destruct (Py.is_space c) eqn:Ec.
    + exists (c :: ws). simpl. rewrite E at 1. unfold space at 1. rewrite Ec. auto.
    + exists []. simpl. unfold space. rewrite Ec. auto.
Qed.

(** One block, followed by the end of the text or by another block, is
    matched from its marker to its end, and the group holds its content
    without the leading white space. *)
Lemma block_matched (score content : string) (rest : list ascii)
    (cs : list (nat * list ascii)) :
  readable (score, content) ->
  at_block_end rest = true ->
  m chunk_pattern
    (MState (list_ascii_of_string (render_block (score, content)) ++ rest) cs) Some
  = Some (MState rest ((1, list_ascii_of_string (Py.lstrip content)) :: cs)).
Proof.
  intros [Hscore Hcontent] Hend. simpl in Hscore, Hcontent.
  unfold render_block. cbn [fst snd].
  rewrite !DetectorProofs.list_ascii_of_string_app, <- !app_assoc.
  destruct (lstrip_split content) as (ws & Ews & Hws & Hhead).
  set (body := list_ascii_of_string (Py.lstrip content)) in *.
  assert (Hstop : (match body ++ rest with [] => true | c :: _ => negb (space c) end) = true).
  { destruct body as [|c body']; [|exact Hhead]. simpl.
    destruct (at_block_end_inv rest Hend) as [->|[r ->]]; reflexivity. }
  assert (Hcap : m (Grp 1 (Rep 0 false dotall) +++ Ahead (Alt (Lit "Score:") EndZ))
                   (MState (body ++ rest) cs) Some
                 = Some (MState rest ((1, body) :: cs))).
  { apply capture_to_block_end; [|exact Hend].
    apply no_marker_across; [|exact Hend].
    intros a b E. apply (contains_false_no_prefix "Score:" content Hcontent (ws ++ a) b).
    rewrite Ews, E. now rewrite app_assoc. }
  unfold chunk_pattern.
  change (m (Lit "Score:" +++ ?r) ?st ?k) with (m (Lit "Score:") st (fun st' => m r st' k)).
  cbn [m Re.rest Re.caps]. rewrite strip_prefix_app.
  change (rep_min dotall 0 ?s ?k) with (k s). cbn beta.
  apply rep_lazy_first.
  - clear. induction (list_ascii_of_string score); simpl; auto.
  - intros a c b E.
    assert (Hc : dot c = true).
    { rewrite forallb_forall in Hscore. apply Hscore. rewrite E.
      apply in_or_app. right. left. reflexivity. }
    unfold dot in Hc. apply negb_true_iff in Hc. rewrite Ascii.eqb_sym in Hc.
    cbn [m Re.rest Re.caps]. unfold Py.nl in *.
    cbn [strip_prefix list_ascii_of_string app].
    now rewrite Hc.
  - cbn [m Re.rest Re.caps]. rewrite strip_prefix_app.
    change (rep_min space 0 ?s ?k) with (k s). cbn beta.
    rewrite Ews, <- app_assoc.
    apply rep_greedy_run; [exact Hws|exact Hstop|].
    exact Hcap.
Qed.


Lemma search_from_here (r : regex) (s : list ascii) (st : mstate) :
  m r (MState s []) Some = Some st -> search_from r s = Some (s, st).
Proof. intros H. destruct s; simpl; now rewrite H. Qed.

Lemma render_blocks_cons (b : string * string) (bs : list (string * string)) :
  render_blocks (b :: bs) = render_block b +:+ render_blocks bs.
Proof. unfold render_blocks. rewrite map_cons. apply KnowledgeBaseMore.concat_cons. Qed.

Lemma rendered_at_block_end (bs : list (string * string)) :
  at_block_end (list_ascii_of_string (render_blocks bs)) = true.
Proof.
  destruct bs as [|[score content] bs]; [reflexivity|].
  rewrite render_blocks_cons. unfold render_block, at_block_end. cbn [fst snd].
  rewrite append_assoc, DetectorProofs.list_ascii_of_string_app, strip_prefix_app.
  reflexivity.
Qed.

Lemma render_block_length (b : string * string) :
  (0 < length (list_ascii_of_string (render_block b)))%nat.
Proof. unfold render_block. simpl. lia. Qed.

Lemma findall_rendered (blocks : list (string * string)) : forall fuel : nat,
  (length blocks < fuel)%nat ->
  Forall readable blocks ->
  findall_from fuel chunk_pattern (list_ascii_of_string (render_blocks blocks))
  = map (fun b => Py.lstrip (snd b)) blocks.
Proof.
  induction blocks as [|[score content] bs IH]; intros fuel Hfuel Hall.
  - destruct fuel; [simpl in Hfuel; lia|]. reflexivity.
  - destruct fuel as [|fuel]; [simpl in Hfuel; lia|].
    inversion Hall as [|? ? Hb Hbs]; subst.
    rewrite render_blocks_cons, DetectorProofs.list_ascii_of_string_app.
    cbn [findall_from].
    rewrite (search_from_here _ _ _
               (block_matched score content _ [] Hb (rendered_at_block_end bs))).
    cbn [Re.rest Re.caps group Nat.eqb].
    rewrite string_of_list_ascii_of_string.
    assert (Hlt : (length (list_ascii_of_string (render_blocks bs))
                   <? length (list_ascii_of_string (render_block (score, content))
                              ++ list_ascii_of_string (render_blocks bs)))%nat = true).
    { apply Nat.ltb_lt. rewrite length_app.
      pose proof (render_block_length (score, content)). lia. }
    rewrite Hlt. cbn [map snd]. f_equal. apply IH; [simpl in Hfuel; lia|exact Hbs].
Qed.

Lemma rendered_longer (blocks : list (string * string)) :
  (length blocks <= String.length (render_blocks blocks))%nat.
Proof.
  induction blocks as [|b bs IH]; [simpl; lia|].
  rewrite render_blocks_cons, append_length.
  pose proof (render_block_length b) as H.
  rewrite DetectorProofs.length_list_ascii in H. simpl. lia.
Qed.

Lemma lstrip_idem (s : string) : Py.lstrip (Py.lstrip s) = Py.lstrip s.
Proof.
  induction s as [|c s IH]; simpl; [reflexivity|].
  destruct (Py.is_space c) eqn:E; [exact IH|]. simpl. now rewrite E.
Qed.

(** X16: blocks of ASCII text written in the expected format are read back:
    the chunks extracted from the text are the contents of the blocks,
    stripped, in order. *)
Theorem blocks_read_back (blocks : list (string * string)) :
  Forall ascii_block blocks ->
  Forall readable blocks ->
  map Py.strip (findall chunk_pattern (render_blocks blocks))
  = map (fun b => Py.strip (snd b)) blocks.
Proof.
  intros _ Hall. unfold findall.
  rewrite findall_rendered; [|pose proof (rendered_longer blocks); lia|exact Hall].
  rewrite map_map. apply map_ext. intros b. unfold Py.strip. now rewrite lstrip_idem.
Qed.

(** X17: for a text of readable blocks of ASCII text and a question, the
    scorer is asked about the question and the stripped contents, and its
    score decides the verdict. *)
Theorem rendered_blocks_are_scored
    (single_turn_ascore : string -> list string -> outcome float)
    (block : string * string) (blocks : list (string * string)) (question : string)
    (score : float) :
  question <> EmptyString ->
  Forall ascii_block (block :: blocks) ->
  Forall readable (block :: blocks) ->
  single_turn_ascore question (map (fun b => Py.strip (snd b)) (block :: blocks)) = Ok score ->
  check_chunks_relevance single_turn_ascore (render_blocks (block :: blocks)) question
  = {[ "chunk_relevance_score" := VStr (if float_gt score 0.5%float then "yes" else "no");
       "chunk_relevance_value" := VFloat score ]}.
Proof.
  intros Hq _ Hall Hs. unfold check_chunks_relevance, score_chunks.
  assert (Hr : Py.truthy (render_blocks (block :: blocks)) = true).
  { rewrite render_blocks_cons. unfold render_block. reflexivity. }
  assert (Hqt : Py.truthy question = true) by (destruct question; [congruence|reflexivity]).
  rewrite Hr, Hqt. cbn [negb].
  assert (Hchunks : map Py.strip (findall chunk_pattern (render_blocks (block :: blocks)))
                    = map (fun b => Py.strip (snd b)) (block :: blocks)).
  { unfold findall.
    rewrite findall_rendered; [|pose proof (rendered_longer (block :: blocks)); lia|exact Hall].
    rewrite map_map. apply map_ext. intros b. unfold Py.strip. now rewrite lstrip_idem. }
  rewrite Hchunks.
  cbn [map]. cbn [map] in Hs. rewrite Hs. reflexivity.
Qed.

Lemma blocks_read_back_witness :
  map Py.strip (findall chunk_pattern (render_blocks Samples.two_blocks))
  = ["Insulin lowers blood glucose."; "Metformin is taken with meals."].
Proof.
  apply (blocks_read_back Samples.two_blocks); repeat constructor.
Defined.

Lemma rendered_blocks_are_scored_witness :
  check_chunks_relevance Samples.relevant (render_blocks Samples.two_blocks)
    "What does insulin do?"
  = {[ "chunk_relevance_score" := VStr "yes";
       "chunk_relevance_value" := VFloat 0.75%float ]}.
Proof.
  apply (rendered_blocks_are_scored Samples.relevant
           (" 0.91", " Insulin lowers blood glucose.
") [(" 0.40", " Metformin is taken with meals.")] "What does insulin do?" 0.75%float).
  - discriminate.
  - repeat constructor.
  - repeat constructor.
  - reflexivity.
Defined.

End ExtractionProofs.

(* ===================================================================== *)
(** * Cited answers and stream chunks                                   *)
(* ===================================================================== *)

Module GenerationProofs.
Import Generation TextFacts.

Lemma cite_references_lines (idx : nat) (references : list (option string)) :
  forall text : string,
    cite_references idx references text
    = text +:+ String.concat EmptyString (map (source_line idx) references).
Proof.
  induction references as [|r rs IH]; intros text.
  - simpl. now rewrite append_nil_r.
  - cbn [cite_references map]. rewrite IH, KnowledgeBaseMore.concat_cons.
    now rewrite append_assoc.
Qed.

Lemma concat_app (a b : list string) :
  String.concat EmptyString (a ++ b)
  = String.concat EmptyString a +:+ String.concat EmptyString b.
Proof.
  induction a as [|x a IH]; [reflexivity|].
  rewrite <- app_comm_cons, !KnowledgeBaseMore.concat_cons, IH. now rewrite append_assoc.
Qed.

Lemma cite_lines (citations : list (list (option string))) : forall (idx : nat) (text : string),
  cite idx citations text
  = text +:+ String.concat EmptyString (source_lines idx citations).
Proof.
  unfold source_lines.
  induction citations as [|c cs IH]; intros idx text.
  - simpl. now rewrite append_nil_r.
  - cbn [cite length seq combine flat_map fst snd].
    rewrite IH, cite_references_lines, concat_app. now rewrite append_assoc.
Qed.

(** X19: the answer lists its sources one line per retrieved reference, each
    numbered by the citation it belongs to; a citation without references
    adds no line, and the heading is written as soon as there is a
    citation. *)
Theorem sources_numbered_by_citation
    (knowledge_base_id aws_region : string)
    (retrieve_and_generate : string -> string -> string -> outcome generation)
    (question : string) (response : generation) :
  knowledge_base_id <> EmptyString ->
  retrieve_and_generate knowledge_base_id (model_arn_of aws_region) question = Ok response ->
  fst (query_diabetes_with_generation knowledge_base_id aws_region retrieve_and_generate
         question)
  = default "No answer generated." (gen_text response)
    +:+ match gen_citations response with
        | [] => EmptyString
        | citations =>
            "

**Sources:**
" +:+ String.concat EmptyString (source_lines 1 citations)
        end.
Proof.
  intros Hid Hr. unfold query_diabetes_with_generation.
  assert (Ht : Py.truthy knowledge_base_id = true)
    by (destruct knowledge_base_id; [congruence|reflexivity]).
  rewrite Ht, Hr. cbn [negb].
  destruct (gen_citations response) as [|c cs]; cbn [fst].
  - now rewrite append_nil_r.
  - rewrite cite_lines. now rewrite append_assoc.
Qed.

Lemma sources_numbered_by_citation_witness :
  fst (query_diabetes_with_generation "KB12345678" "us-east-1" Samples.generates
         "What does insulin do?")
  = "Insulin lowers blood glucose.

**Sources:**
1. s3://kb/insulin.txt
1. s3://kb/basics.txt
2. Unknown source
".
Proof.
  exact (sources_numbered_by_citation "KB12345678" "us-east-1" Samples.generates
           "What does insulin do?" Samples.cited_answer ltac:(discriminate) eq_refl).
Defined.

End GenerationProofs.

Module UtilsProofs.
Import Utils TextFacts.

Lemma escape_char_printable (c : ascii) :
  forallb (fun x => (32 <=? nat_of_ascii x)%nat) (list_ascii_of_string (json_escape_char c))
  = true.
Proof.
  destruct c as [[] [] [] [] [] [] [] []]; vm_compute; reflexivity.
Qed.

Lemma escape_printable (s : string) :
  forallb (fun x => (32 <=? nat_of_ascii x)%nat) (list_ascii_of_string (json_escape s)) = true.
Proof.
  induction s as [|c s IH]; [reflexivity|].
  cbn [json_escape]. rewrite DetectorProofs.list_ascii_of_string_app, forallb_app, IH.
  now rewrite escape_char_printable.
Qed.

(** X20: a chunk is one line of the stream: whatever the text, the chunk
    ends with a line feed and no byte before it is below 32, so that
    neither a line feed nor a carriage return occurs inside it.  All
    other bytes, DEL and those of characters outside ASCII among them,
    are written as they are. *)
Theorem stream_chunk_is_one_line (text : string) :
  exists line,
    stream_chunk text = line +:+ String Py.nl EmptyString /\
    forallb (fun x => (32 <=? nat_of_ascii x)%nat) (list_ascii_of_string line) = true.
Proof.
  exists (json_dumps_text text). split; [reflexivity|].
  unfold json_dumps_text.
  rewrite !DetectorProofs.list_ascii_of_string_app. cbn [list_ascii_of_string].
  rewrite !forallb_app. cbn [forallb]. rewrite escape_printable. reflexivity.
Qed.

Lemma unescape_escape_char (c : ascii) (rest : string) :
  json_unescape_head (json_escape_char c +:+ rest) = Some (c, rest).
Proof.
  destruct c as [[] [] [] [] [] [] [] []]; vm_compute; reflexivity.
Qed.

Lemma json_escape_injective (a : string) : forall b : string,
  json_escape a = json_escape b -> a = b.
Proof.
  induction a as [|c a IH]; intros [|d b] H.
  - reflexivity.
  - exfalso. cbn [json_escape] in H.
    pose proof (unescape_escape_char d (json_escape b)) as Hd. rewrite <- H in Hd.
    discriminate Hd.
  - exfalso. cbn [json_escape] in H.
    pose proof (unescape_escape_char c (json_escape a)) as Hc. rewrite H in Hc.
    discriminate Hc.
  - cbn [json_escape] in H.
    pose proof (unescape_escape_char c (json_escape a)) as Hc.
    pose proof (unescape_escape_char d (json_escape b)) as Hd.
    rewrite H, Hd in Hc. injection Hc as -> Hab. f_equal. apply IH. now symmetry.
Qed.

Lemma append_cancel_r (x y s : string) : x +:+ s = y +:+ s -> x = y.
Proof.
  intros H. apply (f_equal list_ascii_of_string) in H.
  rewrite !DetectorProofs.list_ascii_of_string_app in H.
  apply app_inv_tail in H.
  rewrite <- (string_of_list_ascii_of_string x), <- (string_of_list_ascii_of_string y).
  now f_equal.
Qed.

(** X21: two texts that give the same chunk are the same text: escaping loses
    nothing, so a reader of the stream can recover what was sent. *)
Theorem stream_chunk_injective (a b : string) :
  stream_chunk a = stream_chunk b -> a = b.
Proof.
  unfold stream_chunk, json_dumps_text. intros H.
  rewrite !append_cons in H. cbn [String.append] in H.
  repeat match type of H with
         | String _ _ = String _ _ => injection H as H
         | (String _ _) +:+ _ = _ => rewrite !append_cons in H
         end.
  do 2 apply append_cancel_r in H. now apply json_escape_injective.
Qed.

Lemma stream_chunk_injective_witness : "Hello" = "Hello".
Proof.
  exact (stream_chunk_injective "Hello" "Hello" eq_refl).
Defined.

End UtilsProofs.

(* ===================================================================== *)
(** * The retrieval tool and the relevance check together               *)
(* ===================================================================== *)

Module WorkflowProofs.
Import Tools ToolTerms TextFacts.




















End WorkflowProofs.

(* ===================================================================== *)
(** * Running the scraper again                                         *)
(* ===================================================================== *)

Module ScraperRerun.
Import Scraper ScraperTerms Examples ScraperRun.

Lemma quiet_refl (st : run_state) : quiet st st.
Proof. repeat split. Qed.

Lemma quiet_trans (st1 st2 st3 : run_state) : quiet st1 st2 -> quiet st2 st3 -> quiet st1 st3.
Proof. unfold quiet. intros (?&?&?&?&?&?) (?&?&?&?&?&?). repeat split; congruence. Qed.

Lemma knows_more_refl (tr : ContentTracker) : knows_more tr tr.
Proof. split; reflexivity. Qed.

Lemma knows_more_trans (a b c : ContentTracker) :
  knows_more a b -> knows_more b c -> knows_more a c.
Proof. intros [? ?] [? ?]. split; set_solver. Qed.

Lemma same_document_flag (r : hit) (k1 k2 : string) (v1 v2 : jval) :
  k1 = "is_new" \/ k1 = "is_updated" -> k2 = "is_new" \/ k2 = "is_updated" ->
  same_document (<[k1 := v1]> r) (<[k2 := v2]> r).
Proof.
  intros H1 H2. unfold same_document, content_of.
  assert (forall k, k = "url" \/ k = "title" \/ k = "raw_content" \/ k = "content" ->
            (<[k1 := v1]> r) !! k = r !! k /\ (<[k2 := v2]> r) !! k = r !! k) as L.
  { intros k Hk. split; apply lookup_insert_ne;
      intuition (subst; discriminate). }
  destruct (L "url") as [-> ->]; [auto|].
  destruct (L "title") as [-> ->]; [auto|].
  destruct (L "raw_content") as [-> ->]; [auto 6|].
  destruct (L "content") as [-> ->]; [auto 6|].
  auto.
Qed.

Section Rerun.
Variable md5_hexdigest : string -> string.
Variables isoformat strftime_stamp : Z -> string.
Variable str_of_number : jval -> string.
Variable tavily_api_key : option string.
Variable tavily_post : string -> nat -> outcome (list hit).
Variable s3_put_error : s3_put -> option exn.
Variables bucket_name s3_prefix : string.
Variable max_results_per_query : nat.

(** The storage service takes every write, and no result of the search
    API has a key [error]. *)
Hypothesis storage_up : forall put, s3_put_error put = None.
Hypothesis no_error_key :
  forall search_query raw r,
    tavily_post search_query max_results_per_query = Ok raw -> In r raw -> r !! "error" = None.

Local Abbreviation step force query :=
  (process_result md5_hexdigest isoformat strftime_stamp str_of_number s3_put_error
     bucket_name s3_prefix query force).

Local Abbreviation body force query :=
  (process_body md5_hexdigest isoformat strftime_stamp s3_put_error bucket_name s3_prefix
     query force).

Local Abbreviation query_step force :=
  (process_query md5_hexdigest isoformat strftime_stamp str_of_number tavily_api_key
     tavily_post s3_put_error bucket_name s3_prefix max_results_per_query force).

Local Abbreviation search query tr :=
  (tavily_search_webmd_diabetes_incremental md5_hexdigest tavily_api_key tavily_post query
     max_results_per_query (Some tr)).

(** A result kept under a tracker is kept, perhaps under the other flag,
    under a tracker that knows less. *)
Lemma keeps_earlier (tr1 tr2 : ContentTracker) (r d2 : hit) :
  knows_more tr1 tr2 -> keeps md5_hexdigest tr2 r d2 ->
  exists d1, keeps md5_hexdigest tr1 r d1 /\ same_document d1 d2.
Proof.
  clear storage_up no_error_key.
  intros [Hu Hc] [u Hurl Hsite Hn|u c Hurl Hsite Hin Hcont Hn].
  - exists (<["is_new" := JBool true]> r). split.
    + eapply keep_new; eauto; set_solver.
    + apply same_document_flag; auto.
  - destruct (decide (md5_hexdigest u ∈ url_hashes tr1)) as [Hk|Hk].
    + exists (<["is_updated" := JBool true]> r). split.
      * eapply keep_updated; eauto; set_solver.
      * apply same_document_flag; auto.
    + exists (<["is_new" := JBool true]> r). split.
      * eapply keep_new; eauto.
      * apply same_document_flag; auto.
Qed.

Lemma keeps_no_error (tr : ContentTracker) (r d : hit) :
  keeps md5_hexdigest tr r d -> r !! "error" = None -> d !! "error" = None.
Proof.
  clear storage_up no_error_key.
  intros [u _ _ _|u c _ _ _ _ _] H; rewrite lookup_insert_ne by discriminate; exact H.
Qed.

(** A filter that fails keeps failing when the tracker knows more. *)
Lemma filter_result_fails_later (tr1 tr2 : ContentTracker) (acc1 acc2 : list hit) (r : hit)
    (e : exn) :
  knows_more tr1 tr2 ->
  filter_result md5_hexdigest (Some tr1) acc1 r = Raise e ->
  exists e', filter_result md5_hexdigest (Some tr2) acc2 r = Raise e'.
Proof.
  clear storage_up no_error_key.
  intros [Hu Hc]. unfold filter_result.
  destruct (default (JStr EmptyString) (r !! "url")) as [| | | |u]; simpl; eauto.
  destruct (Py.contains "webmd.com" (Py.lower u)); simpl; [|discriminate].
  destruct (bool_decide (md5_hexdigest u ∈ url_hashes tr1)) eqn:E1; [|discriminate].
  apply bool_decide_eq_true_1 in E1.
  rewrite (bool_decide_eq_true_2 (md5_hexdigest u ∈ url_hashes tr2)) by set_solver.
  unfold content_hash_of.
  destruct (content_of r) as [| | | |c]; simpl; eauto.
  destruct (bool_decide (md5_hexdigest c ∈ content_hashes tr1)); discriminate.
Qed.

Lemma filter_results_fail_later (tr1 tr2 : ContentTracker) (raw : list hit) :
  knows_more tr1 tr2 ->
  forall (acc1 acc2 : list hit) (e : exn),
    filter_results md5_hexdigest (Some tr1) raw acc1 = Raise e ->
    exists e', filter_results md5_hexdigest (Some tr2) raw acc2 = Raise e'.
Proof.
  clear storage_up no_error_key.
  intros Hk. induction raw as [|r raw IH]; intros acc1 acc2 e; simpl; [discriminate|].
  destruct (filter_result md5_hexdigest (Some tr1) acc1 r) as [acc1'|e1] eqn:E1; simpl.
  - intros H. destruct (filter_result md5_hexdigest (Some tr2) acc2 r) as [acc2'|e2]; simpl;
      eauto.
  - intros _. destruct (filter_result_fails_later tr1 tr2 acc1 acc2 r e1 Hk E1) as [e' ->].
    simpl. eauto.
Qed.

(** A result that is stored once has its content hash in the tracker
    after any pass of the loop over a result with the same address,
    content and title. *)
Lemma stored_once (force1 force2 : bool) (q1 q2 : string) (s1 s2 s2' : run_state)
    (d1 d2 : hit) (c : string) :
  same_document d1 d2 ->
  content_of d2 = JStr c ->
  body force2 q2 s2 d2 = Ok s2' ->
  clock s2' <> clock s2 ->
  md5_hexdigest c ∈ content_hashes (tracker (step force1 q1 s1 d1)).
Proof.
  clear no_error_key.
  intros (Hurl & Hcont & Htitle) Hc Hbody Hclock.
  unfold process_body in Hbody. unfold process_result, process_body.
  rewrite Hurl, Hcont, Htitle. rewrite Hc in *.
  destruct (d2 !! "url") as [url|]; [|injection Hbody as <-; congruence].
  destruct (truth url); simpl in *; [|injection Hbody as <-; congruence].
  destruct url as [| | | |u]; simpl in *; try discriminate.
  destruct (negb force2 && bool_decide (md5_hexdigest c ∈ content_hashes (tracker s2)));
    [injection Hbody as <-; simpl in Hclock; congruence|].
  destruct (default (JStr EmptyString) (d2 !! "title")) as [| | | |title]; simpl in *;
    try discriminate.
  destruct (negb force1 && bool_decide (md5_hexdigest c ∈ content_hashes (tracker s1)))
    eqn:Eskip.
  - apply andb_prop in Eskip as [_ Hk]. apply bool_decide_eq_true_1 in Hk. exact Hk.
  - rewrite storage_up. simpl. set_solver.
Qed.

(** A pass over a result whose content hash is known, or that cannot be
    stored, stores and tracks nothing. *)
Lemma step_quiet (q1 q2 : string) (force1 : bool) (s1 s2 : run_state) (d1 d2 : hit) :
  same_document d1 d2 ->
  content_hashes (tracker (step force1 q1 s1 d1)) ⊆ content_hashes (tracker s2) ->
  quiet s2 (step false q2 s2 d2).
Proof.
  clear no_error_key.
  intros Hsame Hsub.
  destruct (process_body_cases md5_hexdigest isoformat strftime_stamp s3_put_error
              bucket_name s3_prefix false q2 s2 d2)
    as [[E _]|[[E _]|[[e E]|(put & u & c & upd & _ & Hc & _ & _ & _ & Hn & E)]]];
    unfold process_result; rewrite E; try (repeat split; fail).
  exfalso. destruct Hn as [Hn|Hn]; [discriminate|]. apply Hn, Hsub.
  apply (stored_once force1 false q1 q2 s1 s2 _ d1 d2 c Hsame Hc E). simpl. lia.
Qed.

Lemma steps_quiet (q2 : string) (docs : list hit) : forall s2 : run_state,
  (forall d2, In d2 docs ->
     exists d1 q1 force1 s1,
       same_document d1 d2
       /\ content_hashes (tracker (step force1 q1 s1 d1)) ⊆ content_hashes (tracker s2)) ->
  quiet s2 (fold_left (step false q2) docs s2).
Proof.
  clear no_error_key.
  induction docs as [|d docs IH]; intros s2 H; simpl; [apply quiet_refl|].
  destruct (H d (or_introl eq_refl)) as (d1 & q1 & f1 & s1 & Hsame & Hsub).
  pose proof (step_quiet q1 q2 f1 s1 s2 d1 d Hsame Hsub) as Hq.
  eapply quiet_trans; [exact Hq|]. apply IH. intros d2 Hin.
  destruct (H d2 (or_intror Hin)) as (d1' & q1' & f1' & s1' & Hsame' & Hsub').
  exists d1', q1', f1', s1'. split; [exact Hsame'|].
  destruct Hq as (-> & _). exact Hsub'.
Qed.

Lemma steps_know_more (force : bool) (query : string) (docs : list hit) (st : run_state) :
  knows_more (tracker st) (tracker (fold_left (step force query) docs st)).
Proof.
  clear storage_up no_error_key.
  destruct (steps_reached md5_hexdigest isoformat strftime_stamp str_of_number s3_put_error
              bucket_name s3_prefix force query docs [] st st (reached_refl st))
    as (w & [] & _). split; assumption.
Qed.

Lemma query_knows_more (force : bool) (query : string) (st : run_state) :
  knows_more (tracker st) (tracker (query_step force st query)).
Proof.
  clear storage_up no_error_key.
  destruct (query_reached md5_hexdigest isoformat strftime_stamp str_of_number
              tavily_api_key tavily_post s3_put_error bucket_name s3_prefix
              max_results_per_query force [] st st query (reached_refl st))
    as (w & [] & _). split; assumption.
Qed.

Lemma queries_know_more (force : bool) (queries : list string) (st : run_state) :
  knows_more (tracker st) (tracker (fold_left (query_step force) queries st)).
Proof.
  clear storage_up no_error_key.
  destruct (queries_reached md5_hexdigest isoformat strftime_stamp str_of_number
              tavily_api_key tavily_post s3_put_error bucket_name s3_prefix
              max_results_per_query force queries [] st st (reached_refl st))
    as (w & [] & _). split; assumption.
Qed.

Lemma error_query_quiet (query msg : string) (st : run_state) :
  quiet st (add_error msg st).
Proof. repeat split. Qed.

(** What a query does when its search returns a list of kept results. *)
Lemma query_step_kept (force : bool) (st : run_state) (query : string) (raw out : list hit) :
  tavily_post ("site:webmd.com " +:+ query +:+ " diabetes") max_results_per_query = Ok raw ->
  search query (tracker st) = out ->
  filter_results md5_hexdigest (Some (tracker st)) raw [] = Ok out ->
  query_step force st query
  = fold_left (step force query) out (add_found (Z.of_nat (length out)) st).
Proof.
  clear storage_up.
  intros Hraw Hs Hf. unfold process_query. rewrite Hs.
  destruct out as [|first rest]; [reflexivity|].
  assert (Hin : In first (first :: rest)) by (left; reflexivity).
  apply (filter_results_decide md5_hexdigest (tracker st) raw [] _ Hf) in Hin
    as [[]|(r & Hr & Hk)].
  rewrite (keeps_no_error _ _ _ Hk (no_error_key _ _ _ Hraw Hr)). reflexivity.
Qed.

(** A search fails, and keeps failing when the tracker knows more, or it
    returns the results the filter keeps. *)
Lemma search_cases (query : string) (tr : ContentTracker) :
  (exists msg,
      search query tr = [error_hit msg]
      /\ forall tr', knows_more tr tr' -> exists msg', search query tr' = [error_hit msg'])
  \/ (exists raw out,
        tavily_post ("site:webmd.com " +:+ query +:+ " diabetes") max_results_per_query
        = Ok raw
        /\ filter_results md5_hexdigest (Some tr) raw [] = Ok out
        /\ search query tr = out).
Proof.
  clear storage_up no_error_key.
  unfold tavily_search_webmd_diabetes_incremental.
  destruct tavily_api_key as [[|k key]|]; [left; eauto| |left; eauto].
  destruct (tavily_post ("site:webmd.com " +:+ query +:+ " diabetes") max_results_per_query)
    as [raw|e] eqn:Eraw; simpl; [|left; eauto].
  destruct (filter_results md5_hexdigest (Some tr) raw []) as [out|e] eqn:Ef.
  - right. exists raw, out. auto.
  - left. eexists. split; [reflexivity|]. intros tr' Hk.
    destruct (filter_results_fail_later tr tr' raw Hk [] [] e Ef) as [e' ->]. eauto.
Qed.

Lemma query_step_failed (force : bool) (st : run_state) (query msg : string) :
  search query (tracker st) = [error_hit msg] ->
  quiet st (query_step force st query).
Proof.
  clear storage_up no_error_key.
  intros E. unfold process_query. rewrite E.
  change (error_hit msg !! "error") with (Some (JStr msg)). repeat split.
Qed.

(** Once a query has run, running it again from a tracker that knows at
    least as much stores and tracks nothing. *)
Lemma query_settled (force1 : bool) (s1 s2 : run_state) (query : string) :
  knows_more (tracker (query_step force1 s1 query)) (tracker s2) ->
  quiet s2 (query_step false s2 query).
Proof.
  intros Hk.
  pose proof (knows_more_trans _ _ _ (query_knows_more force1 query s1) Hk) as Hk1.
  destruct (search_cases query (tracker s1)) as [(msg & _ & Hfail)|(raw & out1 & Eraw & Ef1 & Es1)].
  { destruct (Hfail _ Hk1) as [msg' E]. now apply (query_step_failed false s2 query msg'). }
  destruct (search_cases query (tracker s2))
    as [(msg & E & _)|(raw' & out2 & Eraw' & Ef2 & Es2)].
  { now apply (query_step_failed false s2 query msg). }
  rewrite Eraw in Eraw'. injection Eraw' as <-.
  rewrite (query_step_kept force1 s1 query raw out1 Eraw Es1 Ef1) in Hk.
  rewrite (query_step_kept false s2 query raw out2 Eraw Es2 Ef2).
  eapply quiet_trans; [|apply steps_quiet].
  { repeat split. }
  intros d2 Hin2.
  apply (filter_results_decide md5_hexdigest (tracker s2) raw [] _ Ef2) in Hin2
    as [[]|(r & Hr & Hkeep2)].
  destruct (keeps_earlier (tracker s1) (tracker s2) r d2 Hk1 Hkeep2) as (d1 & Hkeep1 & Hsame).
  assert (Hin1 : In d1 out1).
  { apply (filter_results_decide md5_hexdigest (tracker s1) raw [] _ Ef1). right. eauto. }
  apply in_split in Hin1 as (pre & post & ->).
  rewrite fold_left_app in Hk. simpl in Hk.
  eexists d1, query, force1, _. split; [exact Hsame|].
  simpl. etransitivity; [|apply Hk].
  apply steps_know_more.
Qed.

Lemma queries_settled (force1 : bool) (queries : list string) :
  forall (s1 s2 : run_state) (query : string),
    In query queries ->
    knows_more (tracker (fold_left (query_step force1) queries s1)) (tracker s2) ->
    quiet s2 (query_step false s2 query).
Proof.
  induction queries as [|q queries IH]; intros s1 s2 query Hin Hk; [destruct Hin|].
  simpl in Hk. destruct Hin as [->|Hin].
  - apply (query_settled force1 s1). eapply knows_more_trans; [|exact Hk].
    apply queries_know_more.
  - apply (IH (query_step force1 s1 q)); assumption.
Qed.

Lemma rerun_quiet (queries : list string) (tr : ContentTracker) : forall s2 : run_state,
  (forall s query, In query queries -> knows_more tr (tracker s) ->
                   quiet s (query_step false s query)) ->
  knows_more tr (tracker s2) ->
  quiet s2 (fold_left (query_step false) queries s2).
Proof.
  clear storage_up no_error_key.
  induction queries as [|q queries IH]; intros s2 H Hk; simpl; [apply quiet_refl|].
  pose proof (H s2 q (or_introl eq_refl) Hk) as Hq.
  eapply quiet_trans; [exact Hq|]. apply IH.
  - intros s query Hin. apply H. now right.
  - destruct Hq as (-> & _). exact Hk.
Qed.

(** What a run returns when its queries store and track nothing. *)
Lemma quiet_run (stored : string -> option ContentTracker)
    (search_queries : option (list string)) (log : list s3_put) (now : Z) :
  let start :=
    RunState (load_content_tracker isoformat stored bucket_name now) 0 0 0 0 [] [] [] log now in
  quiet start (fold_left (query_step false) (default default_queries search_queries) start) ->
  let run :=
    incremental_scrape_diabetes_webmd md5_hexdigest isoformat strftime_stamp str_of_number
      tavily_api_key tavily_post s3_put_error stored bucket_name search_queries
      max_results_per_query s3_prefix false log now in
  let loaded := load_content_tracker isoformat stored bucket_name now in
  r_new_documents_scraped (fst (fst run)) = 0%Z /\
  r_updated_documents (fst (fst run)) = 0%Z /\
  r_s3_objects_created (fst (fst run)) = [] /\
  r_s3_objects_updated (fst (fst run)) = [] /\
  url_hashes (snd (fst run)) = url_hashes loaded /\
  content_hashes (snd (fst run)) = content_hashes loaded /\
  total_documents (snd (fst run)) = total_documents loaded /\
  snd run = log ++ [tracker_put bucket_name (snd (fst run))].
Proof.
  clear no_error_key.
  cbv zeta. intros (Ht & Hlog & Hs & Hu & Hc & Hup).
  unfold incremental_scrape_diabetes_webmd, save_content_tracker. cbv zeta.
  rewrite storage_up. cbn [fst snd r_new_documents_scraped r_updated_documents
                           r_s3_objects_created r_s3_objects_updated
                           url_hashes content_hashes total_documents].
  rewrite Ht, Hlog, Hs, Hu, Hc, Hup. repeat split; reflexivity.
Qed.

Variables stored_tracker stored_again : string -> option ContentTracker.

(** X23: running the scraper again stores nothing: when the storage service
    takes every write and the second run loads the tracker the first run
    saved, a second run over the same queries and the same answers of the
    search API, without [force_update], stores no document: it reports no
    document as scraped or updated, leaves the hashes and the total of the
    tracker as they are, and only writes the tracker again. *)
Theorem rerun_stores_nothing (search_queries : option (list string)) (force_update : bool)
    (log : list s3_put) (now later : Z) :
  let first :=
    incremental_scrape_diabetes_webmd md5_hexdigest isoformat strftime_stamp str_of_number
      tavily_api_key tavily_post s3_put_error stored_tracker bucket_name search_queries
      max_results_per_query s3_prefix force_update log now in
  let second :=
    incremental_scrape_diabetes_webmd md5_hexdigest isoformat strftime_stamp str_of_number
      tavily_api_key tavily_post s3_put_error stored_again bucket_name search_queries
      max_results_per_query s3_prefix false (snd first) later in
  let saved := snd (fst first) in
  let result := fst (fst second) in
  let t := snd (fst second) in
  stored_again bucket_name = Some saved ->
  r_new_documents_scraped result = 0%Z /\
  r_updated_documents result = 0%Z /\
  r_s3_objects_created result = [] /\
  r_s3_objects_updated result = [] /\
  url_hashes t = url_hashes saved /\
  content_hashes t = content_hashes saved /\
  total_documents t = total_documents saved /\
  snd second = snd first ++ [tracker_put bucket_name t].
Proof.
  cbv zeta. intros Hstored.
  set (first := incremental_scrape_diabetes_webmd _ _ _ _ _ _ _ stored_tracker _ _ _ _
                  force_update log now) in *.
  assert (Hload : load_content_tracker isoformat stored_again bucket_name later
                  = snd (fst first)).
  { unfold load_content_tracker. now rewrite Hstored. }
  rewrite <- Hload.
  apply (quiet_run stored_again search_queries (snd first) later).
  rewrite Hload.
  apply (rerun_quiet (default default_queries search_queries) (snd (fst first))).
  - intros s query Hin Hk.
    apply (queries_settled force_update (default default_queries search_queries)
             (RunState (load_content_tracker isoformat stored_tracker bucket_name now)
                0 0 0 0 [] [] [] log now) s query Hin).
    exact Hk.
  - apply knows_more_refl.
Qed.

End Rerun.

Lemma rerun_stores_nothing_witness :
  r_new_documents_scraped (fst (fst Samples.second_run)) = 0%Z /\
  r_updated_documents (fst (fst Samples.second_run)) = 0%Z /\
  r_s3_objects_created (fst (fst Samples.second_run)) = [] /\
  r_s3_objects_updated (fst (fst Samples.second_run)) = [] /\
  url_hashes (snd (fst Samples.second_run)) = url_hashes (snd (fst Samples.first_run)) /\
  content_hashes (snd (fst Samples.second_run))
  = content_hashes (snd (fst Samples.first_run)) /\
  total_documents (snd (fst Samples.second_run))
  = total_documents (snd (fst Samples.first_run)) /\
  snd Samples.second_run
  = snd Samples.first_run
    ++ [tracker_put "mihc-diabetes-kb" (snd (fst Samples.second_run))].
Proof.
  apply (rerun_stores_nothing plain_md5 Samples.fixed_iso Samples.fixed_stamp
           Samples.no_number (Some "tvly-key") one_article Samples.storage_up
           "mihc-diabetes-kb" "diabetes-webmd" 10).
  - intros put. reflexivity.
  - intros search_query raw r Hraw Hin. injection Hraw as <-.
    destruct Hin as [<-|[]]. reflexivity.
  - reflexivity.
Defined.

End ScraperRerun.
